(** * The background controller of the Instagram automation extension

    A shallow embedding of [background.js], the service worker that owns the
    automation lifecycle: start and stop, the batch and daily quotas, the
    randomized pacing, the three named alarms and the reconciliation of the
    content script's outcome reports.  The popup ([popup.js]) and the
    content script ([content_script.js]) follow the controller, each under
    a heading of its own.

    Conventions of the embedding.
    - The module-level variables of [background.js] are the first nine fields
      of one record, [State]; the parts of the browser the script talks to
      (pending alarms, [chrome.storage.local], the messages sent to the tab
      and to the popup) are the remaining fields.
    - A function of the script is a function on [State].  What the browser
      answers during a callback (the clock, [Math.random()], whether a storage
      call or a message to the tab succeeds, the tabs found) is an [Env].
    - A callback is one transition: the awaits of an [async] function are
      resolved inside the transition that started it, in source order, with no
      other callback in between.  [overlapping] lets a callback run inside two
      of these waits.
    - JavaScript numbers are [NaN] or an exact rational: binary64 rounding
      and the infinities are left out.  The counters and the clock only
      ever hold integers and are in [Z]. *)

From Stdlib Require Import ZArith QArith Qround Bool List String Lia Lqa.
Import ListNotations.

Local Open Scope Z_scope.

(** ** JavaScript numbers *)

Module JS.

Inductive jsnum : Type :=
| NaN
| Num (q : Q).

Definition ofZ (z : Z) : jsnum := Num (inject_Z z).

Definition lift2 (f : Q -> Q -> Q) (a b : jsnum) : jsnum :=
  match a, b with
  | Num x, Num y => Num (f x y)
  | _, _ => NaN
  end.

Definition add : jsnum -> jsnum -> jsnum := lift2 Qplus.
Definition sub : jsnum -> jsnum -> jsnum := lift2 Qminus.
Definition mul : jsnum -> jsnum -> jsnum := lift2 Qmult.
(** [a / b]; the script only ever divides by the literals 1000 and 60000. *)
Definition div : jsnum -> jsnum -> jsnum := lift2 Qdiv.

(** [Math.ceil] and [Math.floor]. *)
Definition ceil (a : jsnum) : jsnum :=
  match a with
  | Num x => ofZ (Qceiling x)
  | NaN => NaN
  end.

Definition floor (a : jsnum) : jsnum :=
  match a with
  | Num x => ofZ (Qfloor x)
  | NaN => NaN
  end.

(** [a >= b]: a comparison with [NaN] is false. *)
Definition ge (a b : jsnum) : bool :=
  match a, b with
  | Num x, Num y => Qle_bool y x
  | _, _ => false
  end.

Definition isNaN (a : jsnum) : bool :=
  match a with
  | NaN => true
  | Num _ => false
  end.

(** The number is the integer [z]. *)
Definition is_int (a : jsnum) (z : Z) : Prop :=
  match a with
  | Num x => (x == inject_Z z)%Q
  | NaN => False
  end.

(** The number is the rational [q]. *)
Definition is_num (a : jsnum) (q : Q) : Prop :=
  match a with
  | Num x => (x == q)%Q
  | NaN => False
  end.

Definition negative (a : jsnum) : Prop :=
  match a with
  | Num x => (x < 0)%Q
  | NaN => False
  end.

End JS.

Import JS.

(** ** Data *)

(** The settings object.  A field is [None] when the property is absent, as
    in the initial [let settings = {}]; a value is the number the property
    converts to where the script uses it ([Math.ceil], [Math.floor], [>=]),
    so a value that converts to no number is [NaN]. *)
Record Settings : Type := mkSettings {
  intervalMin : option jsnum;
  intervalMax : option jsnum;
  actionsPerBatch : option jsnum;
  pauseBetweenBatchesMin : option jsnum;
  pauseBetweenBatchesMax : option jsnum;
  dailyLimit : option jsnum;
  unfollowNonFollowers : option bool;
  unfollowPrivate : option bool
}.

(** Reading a numeric property: [undefined] converts to [NaN]. *)
Definition num (field : option jsnum) : jsnum :=
  match field with
  | Some n => n
  | None => NaN
  end.

(** [{}] *)
Definition emptySettings : Settings :=
  mkSettings None None None None None None None None.

Definition DEFAULT_SETTINGS : Settings := {|
  intervalMin := Some (Num 5);
  intervalMax := Some (Num 10);
  actionsPerBatch := Some (Num 10);
  pauseBetweenBatchesMin := Some (Num 300);
  pauseBetweenBatchesMax := Some (Num 600);
  dailyLimit := Some (Num 100);
  unfollowNonFollowers := Some false;
  unfollowPrivate := Some false
|}.

(** One property of an object spread [{ ...a, ...b }]. *)
Definition spreadField {A : Type} (a b : option A) : option A :=
  match b with
  | Some v => Some v
  | None => a
  end.

(** [{ ...a, ...b }] on settings objects. *)
Definition spread (a b : Settings) : Settings := {|
  intervalMin := spreadField (intervalMin a) (intervalMin b);
  intervalMax := spreadField (intervalMax a) (intervalMax b);
  actionsPerBatch := spreadField (actionsPerBatch a) (actionsPerBatch b);
  pauseBetweenBatchesMin :=
    spreadField (pauseBetweenBatchesMin a) (pauseBetweenBatchesMin b);
  pauseBetweenBatchesMax :=
    spreadField (pauseBetweenBatchesMax a) (pauseBetweenBatchesMax b);
  dailyLimit := spreadField (dailyLimit a) (dailyLimit b);
  unfollowNonFollowers :=
    spreadField (unfollowNonFollowers a) (unfollowNonFollowers b);
  unfollowPrivate := spreadField (unfollowPrivate a) (unfollowPrivate b)
|}.

(** The object kept under [STORAGE_KEYS.STATE].  Every call of [saveState]
    in the script gives both keys, so a stored object has both. *)
Record SavedState : Type := mkSavedState {
  saved_processedToday : Z;
  lastActionTimestamp : Z
}.

(** [chrome.storage.local], at the two keys of [STORAGE_KEYS]. *)
Record Storage : Type := mkStorage {
  instagramAutomationSettings : option Settings;
  instagramAutomationState : option SavedState
}.

Inductive AlarmName : Type :=
| PERFORM_ACTION
| BATCH_PAUSE
| DAILY_RESET.

(** The second argument of [chrome.alarms.create]. *)
Inductive AlarmInfo : Type :=
| delayInMinutes (d : jsnum)
| periodInMinutes (p : jsnum).

(** The pending alarms: at most one for each name. *)
Record Alarms : Type := mkAlarms {
  performActionAlarm : option AlarmInfo;
  batchPauseAlarm : option AlarmInfo;
  dailyResetAlarm : option AlarmInfo
}.

Definition alarm (name : AlarmName) (a : Alarms) : option AlarmInfo :=
  match name with
  | PERFORM_ACTION => performActionAlarm a
  | BATCH_PAUSE => batchPauseAlarm a
  | DAILY_RESET => dailyResetAlarm a
  end.

Definition setAlarm (name : AlarmName) (v : option AlarmInfo) (a : Alarms)
  : Alarms :=
  match name with
  | PERFORM_ACTION => mkAlarms v (batchPauseAlarm a) (dailyResetAlarm a)
  | BATCH_PAUSE => mkAlarms (performActionAlarm a) v (dailyResetAlarm a)
  | DAILY_RESET => mkAlarms (performActionAlarm a) (batchPauseAlarm a) v
  end.

Inductive ActionType : Type :=
| follow
| unfollow.

(** A command sent to the content script with [chrome.tabs.sendMessage]. *)
Inductive TabCommand : Type :=
| tab_getStatus
| tab_startAutomation (type : option ActionType)
| tab_stopAutomation
| tab_performAction.

(** The [statusText] of a snapshot: one of the three template strings of
    [getStatus], with the values it interpolates. *)
Inductive StatusText : Type :=
| Text_Idle
| Text_PausedForBatchBreak (session : Z) (perBatch : option jsnum)
| Text_Running (session : Z) (perBatch : option jsnum)
    (today : Z) (limit : option jsnum).

(** The object [getStatus()] builds. *)
Record Status : Type := mkStatus {
  st_isActive : bool;
  st_actionType : option ActionType;
  st_currentTabId : option Z;
  st_settings : Settings;
  st_processedToday : Z;
  st_sessionProcessedCount : Z;
  st_currentTargetCount : nat;
  st_currentIndex : Z;
  st_isPausedForBatch : bool;
  statusText : StatusText
}.

(** The state variables of the script, then the browser around it. *)
Record State : Type := mkState {
  isActive : bool;
  currentTabId : option Z;
  actionType : option ActionType;
  settings : Settings;
  processedToday : Z;
  sessionProcessedCount : Z;
  currentTargets : list string;
  currentIndex : Z;
  isPausedForBatch : bool;
  alarms : Alarms;
  storage : Storage;
  tabOutbox : list (Z * TabCommand);
  popupOutbox : list Status
}.

(** A tab as [chrome.tabs.query] and [chrome.tabs.get] describe it. *)
Record Tab : Type := mkTab {
  tab_id : Z;
  tab_url : option string
}.

(** How [injectContentScript] goes once it has a tab: the script answers the
    probe; or it is injected and reports ready; or injecting throws; or no
    ready report comes within ten seconds and the promise is rejected. *)
Inductive Injection : Type :=
| AlreadyInjected
| InjectedReady
| InjectionFailed
| ReadyTimeout.

(** What the browser answers during one callback. *)
Record Env : Type := mkEnv {
  now : Z;
  random : Q;
  loadOk : bool;
  storeOk : bool;
  activeTabs : list Tab;
  injection : Injection;
  tabAnswers : bool;
  tabLookup : option Tab
}.

(** Assignment to one variable. *)
Definition set_isActive (v : bool) (s : State) : State :=
  mkState v (currentTabId s) (actionType s) (settings s) (processedToday s)
    (sessionProcessedCount s) (currentTargets s) (currentIndex s)
    (isPausedForBatch s) (alarms s) (storage s) (tabOutbox s) (popupOutbox s).

Definition set_currentTabId (v : option Z) (s : State) : State :=
  mkState (isActive s) v (actionType s) (settings s) (processedToday s)
    (sessionProcessedCount s) (currentTargets s) (currentIndex s)
    (isPausedForBatch s) (alarms s) (storage s) (tabOutbox s) (popupOutbox s).

Definition set_actionType (v : option ActionType) (s : State) : State :=
  mkState (isActive s) (currentTabId s) v (settings s) (processedToday s)
    (sessionProcessedCount s) (currentTargets s) (currentIndex s)
    (isPausedForBatch s) (alarms s) (storage s) (tabOutbox s) (popupOutbox s).

Definition set_settings (v : Settings) (s : State) : State :=
  mkState (isActive s) (currentTabId s) (actionType s) v (processedToday s)
    (sessionProcessedCount s) (currentTargets s) (currentIndex s)
    (isPausedForBatch s) (alarms s) (storage s) (tabOutbox s) (popupOutbox s).

Definition set_processedToday (v : Z) (s : State) : State :=
  mkState (isActive s) (currentTabId s) (actionType s) (settings s) v
    (sessionProcessedCount s) (currentTargets s) (currentIndex s)
    (isPausedForBatch s) (alarms s) (storage s) (tabOutbox s) (popupOutbox s).

Definition set_sessionProcessedCount (v : Z) (s : State) : State :=
  mkState (isActive s) (currentTabId s) (actionType s) (settings s)
    (processedToday s) v (currentTargets s) (currentIndex s)
    (isPausedForBatch s) (alarms s) (storage s) (tabOutbox s) (popupOutbox s).

Definition set_currentTargets (v : list string) (s : State) : State :=
  mkState (isActive s) (currentTabId s) (actionType s) (settings s)
    (processedToday s) (sessionProcessedCount s) v (currentIndex s)
    (isPausedForBatch s) (alarms s) (storage s) (tabOutbox s) (popupOutbox s).

Definition set_currentIndex (v : Z) (s : State) : State :=
  mkState (isActive s) (currentTabId s) (actionType s) (settings s)
    (processedToday s) (sessionProcessedCount s) (currentTargets s) v
    (isPausedForBatch s) (alarms s) (storage s) (tabOutbox s) (popupOutbox s).

Definition set_isPausedForBatch (v : bool) (s : State) : State :=
  mkState (isActive s) (currentTabId s) (actionType s) (settings s)
    (processedToday s) (sessionProcessedCount s) (currentTargets s)
    (currentIndex s) v (alarms s) (storage s) (tabOutbox s) (popupOutbox s).

Definition set_alarms (v : Alarms) (s : State) : State :=
  mkState (isActive s) (currentTabId s) (actionType s) (settings s)
    (processedToday s) (sessionProcessedCount s) (currentTargets s)
    (currentIndex s) (isPausedForBatch s) v (storage s) (tabOutbox s)
    (popupOutbox s).

Definition set_storage (v : Storage) (s : State) : State :=
  mkState (isActive s) (currentTabId s) (actionType s) (settings s)
    (processedToday s) (sessionProcessedCount s) (currentTargets s)
    (currentIndex s) (isPausedForBatch s) (alarms s) v (tabOutbox s)
    (popupOutbox s).

Definition set_tabOutbox (v : list (Z * TabCommand)) (s : State) : State :=
  mkState (isActive s) (currentTabId s) (actionType s) (settings s)
    (processedToday s) (sessionProcessedCount s) (currentTargets s)
    (currentIndex s) (isPausedForBatch s) (alarms s) (storage s) v
    (popupOutbox s).

Definition set_popupOutbox (v : list Status) (s : State) : State :=
  mkState (isActive s) (currentTabId s) (actionType s) (settings s)
    (processedToday s) (sessionProcessedCount s) (currentTargets s)
    (currentIndex s) (isPausedForBatch s) (alarms s) (storage s) (tabOutbox s)
    v.

(** ** Helper functions of the script *)

(** [getRandomInt(min, max)]; [rnd] is what [Math.random()] returns. *)
Definition getRandomInt (rnd : Q) (min max : jsnum) : jsnum :=
  let min := JS.ceil min in
  let max := JS.floor max in
  JS.add (JS.floor (JS.mul (Num rnd) (JS.add (JS.sub max min) (Num 1)))) min.

(** [processedToday >= settings.dailyLimit] and the like: a counter against
    a settings property. *)
Definition reached (count : Z) (limit : option jsnum) : bool :=
  JS.ge (JS.ofZ count) (num limit).

Definition getStatus (s : State) : Status := {|
  st_isActive := isActive s;
  st_actionType := actionType s;
  st_currentTabId := currentTabId s;
  st_settings := settings s;
  st_processedToday := processedToday s;
  st_sessionProcessedCount := sessionProcessedCount s;
  st_currentTargetCount := List.length (currentTargets s);
  st_currentIndex := currentIndex s;
  st_isPausedForBatch := isPausedForBatch s;
  statusText :=
    if isActive s then
      if isPausedForBatch s then
        Text_PausedForBatchBreak (sessionProcessedCount s)
          (actionsPerBatch (settings s))
      else
        Text_Running (sessionProcessedCount s) (actionsPerBatch (settings s))
          (processedToday s) (dailyLimit (settings s))
    else Text_Idle
|}.

(** [sendStatusToPopup()]: the snapshot is pushed; a popup that is not open
    only makes the ignored promise fail. *)
Definition sendStatusToPopup (s : State) : State :=
  set_popupOutbox (popupOutbox s ++ [getStatus s]) s.

(** [chrome.tabs.sendMessage(tabId, command)] *)
Definition sendToTab (tabId : Z) (c : TabCommand) (s : State) : State :=
  set_tabOutbox (tabOutbox s ++ [(tabId, c)]) s.

(** [chrome.alarms.clear(name)] and [chrome.alarms.create(name, info)] *)
Definition alarms_clear (name : AlarmName) (s : State) : State :=
  set_alarms (setAlarm name None (alarms s)) s.

Definition alarms_create (name : AlarmName) (info : AlarmInfo) (s : State)
  : State :=
  set_alarms (setAlarm name (Some info) (alarms s)) s.

(** [saveSettings(newSettings)]: the merge in memory comes first; the write
    and the push to the popup are inside the [try]. *)
Definition saveSettings (env : Env) (newSettings : Settings) (s : State)
  : State :=
  let s := set_settings (spread (settings s) newSettings) s in
  if storeOk env then
    sendStatusToPopup
      (set_storage
         (mkStorage (Some (settings s))
            (instagramAutomationState (storage s))) s)
  else s.

(** [saveState(newState)]: read, merge, write.  [newState] has both keys at
    every call, so the merged object is [newState]; a failing storage call
    is logged and nothing is written. *)
Definition saveState (env : Env) (newState : SavedState) (s : State)
  : State :=
  if storeOk env then
    set_storage
      (mkStorage (instagramAutomationSettings (storage s)) (Some newState)) s
  else s.

Definition orElse {A : Type} (o : option A) (d : A) : A :=
  match o with
  | Some v => v
  | None => d
  end.

(** [loadSettingsAndState()] *)
Definition loadSettingsAndState (env : Env) (s : State) : State :=
  sendStatusToPopup
    (if loadOk env then
       let data := storage s in
       let s :=
         set_settings
           (spread DEFAULT_SETTINGS
              (orElse (instagramAutomationSettings data) emptySettings)) s in
       let twentyFourHoursAgo := now env - 24 * 60 * 60 * 1000 in
       let savedState :=
         orElse (instagramAutomationState data) (mkSavedState 0 0) in
       if lastActionTimestamp savedState <? twentyFourHoursAgo then
         set_processedToday 0 s
       else
         set_processedToday (saved_processedToday savedState) s
     else
       let s := set_settings DEFAULT_SETTINGS s in
       let s := set_processedToday 0 s in
       let s := saveSettings env DEFAULT_SETTINGS s in
       saveState env (mkSavedState 0 0) s).

(** [url.includes('instagram.com')] after the truthiness test on [url]. *)
Definition includes (s pattern : string) : bool :=
  match String.index 0 pattern s with
  | Some _ => true
  | None => false
  end.

Definition onInstagram (t : Tab) : bool :=
  match tab_url t with
  | Some url => negb (String.eqb url "") && includes url "instagram.com"
  | None => false
  end.

(** [findInstagramTab()] *)
Definition findInstagramTab (env : Env) : option Z :=
  match find onInstagram (activeTabs env) with
  | Some t => Some (tab_id t)
  | None => None
  end.

(** [injectContentScript(tabId)]: the probe is sent to the tab; the result
    is [Some b] when the promise resolves to [b] and [None] when it is
    rejected. *)
Definition injectContentScript (env : Env) (tabId : option Z) (s : State)
  : State * option bool :=
  match tabId with
  | None => (s, Some false)
  | Some t =>
      let s := sendToTab t tab_getStatus s in
      match injection env with
      | AlreadyInjected => (s, Some true)
      | InjectedReady => (s, Some true)
      | InjectionFailed => (s, Some false)
      | ReadyTimeout => (s, None)
      end
  end.

(** ** Automation core logic *)

(** [stopAutomation()] *)
Definition stopAutomation (s : State) : State :=
  if negb (isActive s) && negb (isPausedForBatch s) then s
  else
    let s := set_isActive false s in
    let s := set_isPausedForBatch false s in
    let s := set_actionType None s in
    let s := set_sessionProcessedCount 0 s in
    let s := set_currentTargets [] s in
    let s := set_currentIndex 0 s in
    let s := alarms_clear PERFORM_ACTION s in
    let s := alarms_clear BATCH_PAUSE s in
    let s :=
      match currentTabId s with
      | Some t => set_currentTabId None (sendToTab t tab_stopAutomation s)
      | None => s
      end in
    sendStatusToPopup s.

(** The [delaySeconds] of [scheduleNextAction(delayMs)]; [delayMs] is [None]
    when the argument is left out. *)
Definition delaySeconds (env : Env) (delayMs : option jsnum) (st : Settings)
  : jsnum :=
  match delayMs with
  | Some d => JS.div d (Num 1000)
  | None => getRandomInt (random env) (num (intervalMin st))
              (num (intervalMax st))
  end.

(** [scheduleNextAction(delayMs)] *)
Definition scheduleNextAction (env : Env) (delayMs : option jsnum)
    (s : State) : State :=
  if negb (isActive s) then s
  else
    let s := alarms_clear PERFORM_ACTION s in
    let delayMilliseconds :=
      JS.mul (delaySeconds env delayMs (settings s)) (Num 1000) in
    let s :=
      alarms_create PERFORM_ACTION
        (delayInMinutes (JS.div delayMilliseconds (Num 60000))) s in
    sendStatusToPopup s.

(** The [pauseSeconds] of [scheduleBatchPause()]. *)
Definition pauseSeconds (env : Env) (st : Settings) : jsnum :=
  getRandomInt (random env) (num (pauseBetweenBatchesMin st))
    (num (pauseBetweenBatchesMax st)).

(** [scheduleBatchPause()] *)
Definition scheduleBatchPause (env : Env) (s : State) : State :=
  let s := set_isActive false s in
  let s := set_isPausedForBatch true s in
  let s := set_sessionProcessedCount 0 s in
  let s := set_currentTargets [] s in
  let s := set_currentIndex 0 s in
  let pauseMilliseconds := JS.mul (pauseSeconds env (settings s)) (Num 1000) in
  let s := alarms_clear PERFORM_ACTION s in
  let s :=
    alarms_create BATCH_PAUSE
      (delayInMinutes (JS.div pauseMilliseconds (Num 60000))) s in
  sendStatusToPopup s.

(** [!currentTabId]: [null] and the number 0 are falsy. *)
Definition falsyTabId (t : option Z) : bool :=
  match t with
  | Some i => i =? 0
  | None => true
  end.

(** [startAutomation(type)] *)
Definition startAutomation (env : Env) (type : option ActionType)
    (s : State) : State :=
  if isActive s then sendStatusToPopup s
  else
    let s := loadSettingsAndState env s in
    if reached (processedToday s) (dailyLimit (settings s)) then
      sendStatusToPopup s
    else
      let s := set_actionType type s in
      let s := set_sessionProcessedCount 0 s in
      let s := set_currentTargets [] s in
      let s := set_currentIndex 0 s in
      let s := set_isPausedForBatch false s in
      let s := set_currentTabId (findInstagramTab env) s in
      if falsyTabId (currentTabId s) then
        let s := set_isActive false s in
        let s := set_actionType None s in
        sendStatusToPopup s
      else
        match injectContentScript env (currentTabId s) s with
        | (s, None) => s
        | (s, Some false) =>
            let s := set_isActive false s in
            let s := set_actionType None s in
            let s := set_currentTabId None s in
            sendStatusToPopup s
        | (s, Some true) =>
            let s := set_isActive true s in
            let s := sendStatusToPopup s in
            let s :=
              match currentTabId s with
              | Some t => sendToTab t (tab_startAutomation (actionType s)) s
              | None => s
              end in
            if tabAnswers env then scheduleNextAction env (Some (Num 1000)) s
            else stopAutomation s
        end.

(** [executeNextAction()] *)
Definition executeNextAction (env : Env) (s : State) : State :=
  if negb (isActive s) then sendStatusToPopup s
  else
    let s := loadSettingsAndState env s in
    if reached (processedToday s) (dailyLimit (settings s)) then
      sendStatusToPopup (stopAutomation s)
    else if reached (sessionProcessedCount s) (actionsPerBatch (settings s))
    then scheduleBatchPause env s
    else
      match currentTabId s with
      | None => sendStatusToPopup (stopAutomation s)
      | Some t =>
          match tabLookup env with
          | None => sendStatusToPopup (stopAutomation s)
          | Some tab =>
              if negb (onInstagram tab) then
                sendStatusToPopup (stopAutomation s)
              else
                let s := sendToTab t tab_performAction s in
                let s := sendStatusToPopup s in
                if tabAnswers env then s
                else sendStatusToPopup (stopAutomation s)
          end
      end.

(** ** Event listeners *)

(** [request.command] of a message from the popup. *)
Inductive Command : Type :=
| cmd_startAutomation (type : option ActionType)
| cmd_stopAutomation
| cmd_getSettings
| cmd_saveSettings (newSettings : Settings)
| cmd_getStatus
| cmd_other.

(** [request.status] of a message from the content script, with the
    [request.type] of the two reports that carry one. *)
Inductive Report : Type :=
| ready
| running
| stopped
| actionCompleted
| actionFailed (type : string)
| actionBlocked
| userSkipped
| targetsFound
| completed
| error (type : string)
| report_other.

Inductive Request : Type :=
| Popup (c : Command)
| Agent (r : Report).

Definition commandOf (r : Request) : Command :=
  match r with
  | Popup c => c
  | Agent _ => cmd_other
  end.

Definition reportOf (r : Request) : Report :=
  match r with
  | Popup _ => report_other
  | Agent r => r
  end.

(** What [sendResponse] is called with. *)
Inductive Response : Type :=
| acknowledged
| settingsResponse (st : Settings)
| statusResponse (st : Status)
| unknown_command.

Definition sameTab (a : Z) (b : option Z) : bool :=
  match b with
  | Some t => a =? t
  | None => false
  end.

(** The [switch (request.status)] of the message listener. *)
Definition onReport (env : Env) (r : Report) (s : State) : State :=
  match r with
  | ready => s
  | running => s
  | stopped => if isActive s then stopAutomation s else s
  | actionCompleted =>
      let s := set_sessionProcessedCount (sessionProcessedCount s + 1) s in
      let s := set_processedToday (processedToday s + 1) s in
      let s := saveState env (mkSavedState (processedToday s) (now env)) s in
      let s := sendStatusToPopup s in
      if reached (processedToday s) (dailyLimit (settings s)) then
        stopAutomation s
      else if reached (sessionProcessedCount s) (actionsPerBatch (settings s))
      then scheduleBatchPause env s
      else scheduleNextAction env None s
  | actionFailed type =>
      let s :=
        if String.eqb type "domParsingError" || String.eqb type "clickError"
        then stopAutomation s
        else scheduleNextAction env None s in
      sendStatusToPopup s
  | actionBlocked => sendStatusToPopup (stopAutomation s)
  | userSkipped =>
      sendStatusToPopup (scheduleNextAction env (Some (Num 100)) s)
  | targetsFound => s
  | completed => sendStatusToPopup (stopAutomation s)
  | error type =>
      let s :=
        if String.eqb type "domParsingError" || String.eqb type "clickError"
           || String.eqb type "noTargetAtIndex"
        then stopAutomation s
        else s in
      sendStatusToPopup s
  | report_other => s
  end.

(** The listener of [chrome.runtime.onMessage].  [sender] is the id of
    [sender.tab], or [None] when [sender.tab] is undefined. *)
Definition onMessage (env : Env) (sender : option Z) (request : Request)
    (s : State) : State * option Response :=
  match sender with
  | None =>
      match commandOf request with
      | cmd_startAutomation type =>
          (startAutomation env type s, Some acknowledged)
      | cmd_stopAutomation => (stopAutomation s, Some acknowledged)
      | cmd_getSettings => (s, Some (settingsResponse (settings s)))
      | cmd_saveSettings newSettings =>
          (saveSettings env newSettings s, Some acknowledged)
      | cmd_getStatus => (s, Some (statusResponse (getStatus s)))
      | cmd_other => (s, Some unknown_command)
      end
  | Some id =>
      if negb (sameTab id (currentTabId s)) then (s, None)
      else (onReport env (reportOf request) s, None)
  end.

(** [scheduleDailyReset()] *)
Definition scheduleDailyReset (s : State) : State :=
  alarms_create DAILY_RESET (periodInMinutes (Num (24 * 60))) s.

(** The listener of [chrome.alarms.onAlarm]. *)
Definition onAlarm (env : Env) (name : AlarmName) (s : State) : State :=
  match name with
  | PERFORM_ACTION => executeNextAction env s
  | BATCH_PAUSE =>
      let s := set_isPausedForBatch false s in
      let s := set_isActive true s in
      match currentTabId s with
      | Some t =>
          let s := sendToTab t (tab_startAutomation (actionType s)) s in
          let s := sendStatusToPopup s in
          if tabAnswers env then scheduleNextAction env (Some (Num 1000)) s
          else stopAutomation s
      | None => sendStatusToPopup (stopAutomation s)
      end
  | DAILY_RESET =>
      let s := set_processedToday 0 s in
      let s := saveState env (mkSavedState 0 (now env)) s in
      let s := sendStatusToPopup s in
      scheduleDailyReset s
  end.

(** The listener of [chrome.tabs.onUpdated]; [url] is [changeInfo.url]. *)
Definition onUpdated (tabId : Z) (url : option string) (s : State) : State :=
  if isActive s && sameTab tabId (currentTabId s) then
    match url with
    | Some u =>
        if negb (String.eqb u "") && negb (includes u "instagram.com")
        then stopAutomation s
        else s
    | None => s
    end
  else s.

(** The listener of [chrome.tabs.onRemoved]. *)
Definition onRemoved (tabId : Z) (s : State) : State :=
  if isActive s && sameTab tabId (currentTabId s) then stopAutomation s
  else s.

(** The service worker starts: the variables take their initial values,
    the alarms and the storage are what the browser kept, and the two calls
    at the end of the script run. *)
Definition initialState (browser : State) : State := {|
  isActive := false;
  currentTabId := None;
  actionType := None;
  settings := emptySettings;
  processedToday := 0;
  sessionProcessedCount := 0;
  currentTargets := [];
  currentIndex := 0;
  isPausedForBatch := false;
  alarms := alarms browser;
  storage := storage browser;
  tabOutbox := tabOutbox browser;
  popupOutbox := popupOutbox browser
|}.

Definition workerStart (env : Env) (browser : State) : State :=
  scheduleDailyReset (loadSettingsAndState env (initialState browser)).

(** ** The controller as a transition system *)

Inductive Event : Type :=
| Message (sender : option Z) (request : Request)
| AlarmFired (name : AlarmName)
| TabUpdated (tabId : Z) (url : option string)
| TabRemoved (tabId : Z)
| WorkerStarted.

(** The browser drops a one-shot alarm when it fires and keeps a periodic
    one. *)
Definition fired (name : AlarmName) (s : State) : State :=
  match alarm name (alarms s) with
  | Some (delayInMinutes _) => alarms_clear name s
  | _ => s
  end.

Definition step (env : Env) (e : Event) (s : State) : State :=
  match e with
  | Message sender request => fst (onMessage env sender request s)
  | AlarmFired name => onAlarm env name (fired name s)
  | TabUpdated tabId url => onUpdated tabId url s
  | TabRemoved tabId => onRemoved tabId s
  | WorkerStarted => workerStart env s
  end.

(** The worker as the browser first finds it: nothing sent yet, and some
    storage and alarms. *)
Definition installed (stored : Storage) (pending : Alarms) : State := {|
  isActive := false;
  currentTabId := None;
  actionType := None;
  settings := emptySettings;
  processedToday := 0;
  sessionProcessedCount := 0;
  currentTargets := [];
  currentIndex := 0;
  isPausedForBatch := false;
  alarms := pending;
  storage := stored;
  tabOutbox := [];
  popupOutbox := []
|}.

(** The states of the runs in which callbacks do not overlap: a worker
    whose start-up load has resolved, and what callbacks make of it when
    each runs to its end before the next one starts.  [overlapping], further
    down, lifts both restrictions. *)
Inductive reachable : State -> Prop :=
| reachable_start (env : Env) (stored : Storage) (pending : Alarms) :
    reachable (workerStart env (installed stored pending))
| reachable_step (env : Env) (e : Event) (s : State) :
    reachable s -> reachable (step env e s).

(** The three resting states of the specification, on the two flags. *)
Definition Idle (s : State) : Prop :=
  isActive s = false /\ isPausedForBatch s = false.

Definition Running (s : State) : Prop :=
  isActive s = true /\ isPausedForBatch s = false.

Definition PausedForBatch (s : State) : Prop :=
  isActive s = false /\ isPausedForBatch s = true.

(** The integer [getRandomInt(a, b)] is when both arguments are numbers. *)
Definition drawn (rnd a b : Q) : Z :=
  Qfloor (rnd * inject_Z (Qfloor b - Qceiling a + 1)) + Qceiling a.

(** Twenty-four hours in milliseconds, as [loadSettingsAndState] writes it. *)
Definition dayMs : Z := 24 * 60 * 60 * 1000.

(** The timestamp kept in storage, if any. *)
Definition storedTimestamp (s : State) : option Z :=
  option_map lastActionTimestamp (instagramAutomationState (storage s)).

(** A message counts when it comes from the tab being automated. *)
Definition fromAgent (sender : option Z) (s : State) : bool :=
  match sender with
  | Some id => sameTab id (currentTabId s)
  | None => false
  end.

(** The delay an alarm was created with, in milliseconds. *)
Definition delayMsOf (a : option AlarmInfo) : jsnum :=
  match a with
  | Some (delayInMinutes d) => JS.mul d (Num 60000)
  | _ => NaN
  end.

(** The kinds the two error handlers stop on. *)
Definition criticalFailure (type : string) : bool :=
  String.eqb type "domParsingError" || String.eqb type "clickError".

Definition criticalError (type : string) : bool :=
  String.eqb type "domParsingError" || String.eqb type "clickError"
  || String.eqb type "noTargetAtIndex".




(** Where [getRandomInt(lo, hi)] falls: between the rounded bounds when
    they are in order, and from [floor hi + 1] to [ceil lo] when they are
    inverted. *)
Definition drawnWithin (lo hi : Q) (z : Z) : Prop :=
  (Qceiling lo <= Qfloor hi -> Qceiling lo <= z <= Qfloor hi) /\
  (Qfloor hi < Qceiling lo -> Qfloor hi + 1 <= z <= Qceiling lo).

(** Every numeric property of a settings object is there. *)
Definition complete (st : Settings) : Prop :=
  intervalMin st <> None /\ intervalMax st <> None /\
  actionsPerBatch st <> None /\ pauseBetweenBatchesMin st <> None /\
  pauseBetweenBatchesMax st <> None /\ dailyLimit st <> None.

(** ** Concrete inputs for the examples *)

Definition noAlarms : Alarms := mkAlarms None None None.

(** A browser that answers everything, at time [t], drawing [rnd]. *)
Definition envAt (t : Z) (rnd : Q) : Env := {|
  now := t;
  random := rnd;
  loadOk := true;
  storeOk := true;
  activeTabs := [mkTab 7 (Some "https://www.instagram.com/")%string];
  injection := AlreadyInjected;
  tabAnswers := true;
  tabLookup := Some (mkTab 7 (Some "https://www.instagram.com/")%string)
|}.

Definition withInterval (lo hi : jsnum) : Settings := {|
  intervalMin := Some lo;
  intervalMax := Some hi;
  actionsPerBatch := Some (Num 10);
  pauseBetweenBatchesMin := Some (Num 300);
  pauseBetweenBatchesMax := Some (Num 600);
  dailyLimit := Some (Num 100);
  unfollowNonFollowers := Some false;
  unfollowPrivate := Some false
|}.

Definition withPause (lo hi : jsnum) : Settings := {|
  intervalMin := Some (Num 5);
  intervalMax := Some (Num 10);
  actionsPerBatch := Some (Num 10);
  pauseBetweenBatchesMin := Some lo;
  pauseBetweenBatchesMax := Some hi;
  dailyLimit := Some (Num 100);
  unfollowNonFollowers := Some false;
  unfollowPrivate := Some false
|}.

Definition withLimits (perBatch limit : jsnum) : Settings := {|
  intervalMin := Some (Num 5);
  intervalMax := Some (Num 10);
  actionsPerBatch := Some perBatch;
  pauseBetweenBatchesMin := Some (Num 300);
  pauseBetweenBatchesMax := Some (Num 600);
  dailyLimit := Some limit;
  unfollowNonFollowers := Some false;
  unfollowPrivate := Some false
|}.

(** A run on tab 7 with [session] actions in the batch and [today] in the
    day, and no alarm pending. *)
Definition runningOn7 (st : Settings) (session today : Z) : State := {|
  isActive := true;
  currentTabId := Some 7;
  actionType := Some follow;
  settings := st;
  processedToday := today;
  sessionProcessedCount := session;
  currentTargets := [];
  currentIndex := 0;
  isPausedForBatch := false;
  alarms := noAlarms;
  storage := mkStorage (Some st) (Some (mkSavedState today 1000));
  tabOutbox := [];
  popupOutbox := []
|}.

(** An idle controller whose storage holds [st] and [saved]. *)
Definition idleWith (st : Settings) (saved : SavedState) : State :=
  installed (mkStorage (Some st) (Some saved)) noAlarms.

(** A worker that starts with a batch size of 1 stored, is started on tab
    7 and receives one completed-action report: it is in a batch pause. *)
Definition pausedTrace : State :=
  step (envAt 2000 (1 # 2)) (Message (Some 7) (Agent actionCompleted))
    (step (envAt 2000 (1 # 2))
       (Message None (Popup (cmd_startAutomation (Some follow))))
       (workerStart (envAt 2000 (1 # 2))
          (installed (mkStorage (Some (withLimits (Num 1) (Num 100))) None)
             noAlarms))).

(** ** What the controller keeps *)

(** The six numeric properties of a settings object. *)
Definition numericFields (st : Settings)
  : option jsnum * option jsnum * option jsnum * option jsnum * option jsnum
    * option jsnum :=
  (intervalMin st, intervalMax st, actionsPerBatch st,
   pauseBetweenBatchesMin st, pauseBetweenBatchesMax st, dailyLimit st).

(** The alarm [scheduleDailyReset] asks for. *)
Definition dailyAlarm : AlarmInfo := periodInMinutes (Num (24 * 60)).

(** A run, active or paused, has a tab. *)
Definition hasTab (s : State) : Prop :=
  isActive s = true \/ isPausedForBatch s = true -> currentTabId s <> None.

(** The bookkeeping every callback leaves behind it. *)
Definition Kept (s : State) : Prop :=
  0 <= sessionProcessedCount s /\
  currentTargets s = [] /\
  currentIndex s = 0 /\
  alarm DAILY_RESET (alarms s) = Some dailyAlarm /\
  hasTab s.

(** The reports on which the controller gives the run up. *)
Definition fatal (r : Report) : bool :=
  match r with
  | actionBlocked => true
  | completed => true
  | actionFailed type => criticalFailure type
  | error type => criticalError type
  | _ => false
  end.

(** What was sent to tabs between two states of the controller. *)
Definition sentTo (before after : State) : list (Z * TabCommand) :=
  skipn (List.length (tabOutbox before)) (tabOutbox after).

(** The snapshots pushed between two states. *)
Definition pushed (before after : State) : list Status :=
  skipn (List.length (popupOutbox before)) (popupOutbox after).

(** ** Callbacks that overlap

    [reachable] takes every callback with its awaits as one step and starts
    when the load of the last lines of the script has resolved.  The
    program can also run a listener while an [async] function waits.  The
    system below follows the two waits that matter for the run flags and for
    the settings: the start-up load, which the script calls without
    [await], and [startAutomation] waiting for [injectContentScript].  The
    other awaits are still taken without a callback in between, so every
    run of this system is a run of the program, and not the other way
    round. *)

(** What the promise of [injectContentScript] settles to for a tab id that
    is not [null]: [None] when it is rejected. *)
Definition injectionResult (env : Env) : option bool :=
  match injection env with
  | AlreadyInjected => Some true
  | InjectedReady => Some true
  | InjectionFailed => Some false
  | ReadyTimeout => None
  end.

(** [startAutomation(type)] up to [await injectContentScript(currentTabId)],
    the probe sent.  The flag says that the function waits there; when it
    is [false] the function has returned. *)
Definition startAutomation_begin (env : Env) (type : option ActionType)
    (s : State) : State * bool :=
  if isActive s then (sendStatusToPopup s, false)
  else
    let s := loadSettingsAndState env s in
    if reached (processedToday s) (dailyLimit (settings s)) then
      (sendStatusToPopup s, false)
    else
      let s := set_actionType type s in
      let s := set_sessionProcessedCount 0 s in
      let s := set_currentTargets [] s in
      let s := set_currentIndex 0 s in
      let s := set_isPausedForBatch false s in
      let s := set_currentTabId (findInstagramTab env) s in
      if falsyTabId (currentTabId s) then
        let s := set_isActive false s in
        let s := set_actionType None s in
        (sendStatusToPopup s, false)
      else (fst (injectContentScript env (currentTabId s) s), true).

(** [startAutomation] from the moment the promise of
    [injectContentScript] settles. *)
Definition startAutomation_resume (env : Env) (s : State) : State :=
  match injectionResult env with
  | None => s
  | Some false =>
      let s := set_isActive false s in
      let s := set_actionType None s in
      let s := set_currentTabId None s in
      sendStatusToPopup s
  | Some true =>
      let s := set_isActive true s in
      let s := sendStatusToPopup s in
      let s :=
        match currentTabId s with
        | Some t => sendToTab t (tab_startAutomation (actionType s)) s
        | None => s
        end in
      if tabAnswers env then scheduleNextAction env (Some (Num 1000)) s
      else stopAutomation s
  end.

(** The controller with what is waiting: whether the start-up load is
    still out, and how many calls of [startAutomation] wait for the content
    script. *)
Record Worker : Type := mkWorker {
  controller : State;
  loading : bool;
  starting : nat
}.

(** What runs between two waits: a callback run to its end, the rest of
    the start-up load, a start command up to its wait, or the rest of a
    waiting [startAutomation]. *)
Inductive Segment : Type :=
| Callback (e : Event)
| LoadResolved
| StartBegun (type : option ActionType)
| StartResumed.

Definition advance (env : Env) (g : Segment) (w : Worker) : Worker :=
  match g with
  | Callback WorkerStarted =>
      mkWorker (workerStart env (controller w)) false 0
  | Callback e =>
      mkWorker (step env e (controller w)) (loading w) (starting w)
  | LoadResolved =>
      if loading w then
        mkWorker (loadSettingsAndState env (controller w)) false (starting w)
      else w
  | StartBegun type =>
      let (s, waiting) := startAutomation_begin env type (controller w) in
      mkWorker s (loading w) (if waiting then S (starting w) else starting w)
  | StartResumed =>
      match starting w with
      | O => w
      | S n =>
          mkWorker (startAutomation_resume env (controller w)) (loading w) n
      end
  end.

(** The worker when the last line of the script has run: the variables at
    their initial values, the daily alarm asked for, the load still out. *)
Definition booted (browser : State) : Worker :=
  mkWorker (scheduleDailyReset (initialState browser)) true 0.

Inductive overlapping : Worker -> Prop :=
| overlapping_booted (stored : Storage) (pending : Alarms) :
    overlapping (booted (installed stored pending))
| overlapping_advance (env : Env) (g : Segment) (w : Worker) :
    overlapping w -> overlapping (advance env g w).

(** A report that comes late.  With a batch size of 1 stored, a run is
    started on tab 7 and its first action dispatched; the popup stops the
    run and starts it again; while the second [startAutomation] waits for
    the content script, the report of the dispatched action arrives. *)
Definition lateReport : Worker :=
  advance (envAt 3400 (1 # 2)) StartResumed
    (advance (envAt 3350 (1 # 2))
       (Callback (Message (Some 7) (Agent actionCompleted)))
       (advance (envAt 3300 (1 # 2)) (StartBegun (Some follow))
          (advance (envAt 3250 (1 # 2))
             (Callback (Message None (Popup cmd_stopAutomation)))
             (advance (envAt 3200 (1 # 2))
                (Callback (AlarmFired PERFORM_ACTION))
                (advance (envAt 2100 (1 # 2))
                   (Callback
                      (Message None
                         (Popup (cmd_startAutomation (Some follow)))))
                   (advance (envAt 2000 (1 # 2)) LoadResolved
                      (booted
                         (installed
                            (mkStorage (Some (withLimits (Num 1) (Num 100)))
                               None)
                            noAlarms)))))))).

(** ** The popup ([popup.js])

    The part of the popup that decides which settings are sent to the
    controller and what the status line and the two buttons show.  The
    texts it writes with [showError] and the counters it copies from a
    snapshot are left out, and so are [validateAllSettings] and its caller
    [handleStartAutomation]: line 326 of the source breaks off inside the
    argument of a [parseInt]. *)

(** The form.  A number input is given by the integer [parseInt] reads at
    the start of its text, [None] when there is none; the radio pair by
    whether [followRadio] is checked. *)
Record Elements : Type := mkElements {
  intervalMin_value : option Z;
  intervalMax_value : option Z;
  actionsPerBatch_value : option Z;
  dailyLimit_value : option Z;
  pauseMin_value : option Z;
  pauseMax_value : option Z;
  followRadio_checked : bool
}.

(** [parseInt(element.value)] *)
Definition parseInt (value : option Z) : jsnum :=
  match value with
  | Some z => JS.ofZ z
  | None => NaN
  end.

(** [a || b] on numbers: [NaN] and 0 are falsy. *)
Definition orNum (a b : jsnum) : jsnum :=
  match a with
  | NaN => b
  | Num q => if Qeq_bool q 0 then b else a
  end.

(** [a < b] and [a > b]: a comparison with [NaN] is false. *)
Definition JSlt (a b : jsnum) : bool :=
  match a, b with
  | Num x, Num y => negb (Qle_bool y x)
  | _, _ => false
  end.

Definition JSgt (a b : jsnum) : bool := JSlt b a.

(** [validateSettings(settings)]: its return value. *)
Definition validateSettings (st : Settings) : bool :=
  if JS.isNaN (num (intervalMin st)) || JS.isNaN (num (intervalMax st))
     || JS.isNaN (num (actionsPerBatch st)) || JS.isNaN (num (dailyLimit st))
  then false
  else if JS.ge (num (intervalMin st)) (num (intervalMax st)) then false
  else if JS.ge (num (pauseBetweenBatchesMin st))
            (num (pauseBetweenBatchesMax st)) then false
  else if JSlt (num (intervalMin st)) (Num 2) then false
  else if JSgt (num (actionsPerBatch st)) (Num 50) then false
  else if JSgt (num (dailyLimit st)) (Num 500) then false
  else true.

(** The object [handleSettingsChange] builds from the form. *)
Definition newSettings (el : Elements) : Settings := {|
  intervalMin := Some (orNum (parseInt (intervalMin_value el)) (Num 5));
  intervalMax := Some (orNum (parseInt (intervalMax_value el)) (Num 10));
  actionsPerBatch :=
    Some (orNum (parseInt (actionsPerBatch_value el)) (Num 10));
  pauseBetweenBatchesMin :=
    Some (JS.mul (orNum (parseInt (pauseMin_value el)) (Num 5)) (Num 60));
  pauseBetweenBatchesMax :=
    Some (JS.mul (orNum (parseInt (pauseMax_value el)) (Num 10)) (Num 60));
  dailyLimit := Some (orNum (parseInt (dailyLimit_value el)) (Num 100));
  unfollowNonFollowers := None;
  unfollowPrivate := None
|}.

(** [handleSettingsChange()]: the messages it sends to the controller. *)
Definition handleSettingsChange (isLoading : bool) (el : Elements)
  : list Command :=
  if isLoading then []
  else if negb (validateSettings (newSettings el)) then []
  else [cmd_saveSettings (newSettings el)].

(** [getStatusClass(isActive, isPaused)] *)
Definition getStatusClass (isActive isPaused : bool) : string :=
  if negb isActive && negb isPaused then "idle"
  else if isPaused then "paused"
  else if isActive then "running"
  else "idle".

(** [getStatusText(isActive, isPaused)] *)
Definition getStatusText (isActive isPaused : bool) : string :=
  if negb isActive && negb isPaused then "Idle"
  else if isPaused then "Paused"
  else if isActive then "Running"
  else "Idle".

(** [updateButtonStates(isActive, isPaused)]: the [disabled] property of the
    Start button and of the Stop button. *)
Definition updateButtonStates (isLoading isActive isPaused : bool)
  : bool * bool :=
  let isRunning := isActive || isPaused in
  (isRunning || isLoading, negb isRunning || isLoading).

(** What [updateStatusDisplay(status)] shows of a snapshot: the class of the
    dot, the headline, the detail line, and the two [disabled] flags. *)
Record Display : Type := mkDisplay {
  statusDot_class : string;
  statusText_text : string;
  statusDetails_text : StatusText;
  startBtn_disabled : bool;
  stopBtn_disabled : bool
}.

Definition updateStatusDisplay (isLoading : bool) (status : Status)
  : Display :=
  let isActive := st_isActive status || false in
  let isPaused := st_isPausedForBatch status || false in
  {| statusDot_class := getStatusClass isActive isPaused;
     statusText_text := getStatusText isActive isPaused;
     statusDetails_text := statusText status;
     startBtn_disabled := fst (updateButtonStates isLoading isActive isPaused);
     stopBtn_disabled := snd (updateButtonStates isLoading isActive isPaused)
  |}.

(** ** The content script ([content_script.js])

    The script that runs in the Instagram tab.  Its module-level variables
    are the first six fields of [Script]; the messages it sends to the
    controller, oldest first, are the seventh.  A message is given as the
    controller's listener classifies it: the statuses ['idle'] and
    ['warning'], which the controller has no case for, are [report_other].
    What the script reads from the page is an argument of the function that
    reads it; what it writes to the page (clicks, the scroll, the marker
    attribute) is left out.  As for the controller, a callback runs to its
    end before the next one starts. *)

(** The [targetsFound] status, whose name the variable of the content script
    takes below. *)
Definition targetsFound_report : Report := targetsFound.

Module ContentScript.

(** One element matched by [USER_LIST_ITEM_SELECTOR], as [findAllTargets]
    reads it: the element, whether reading it throws, the username the
    script extracts ([None] when that is null or empty), and the first
    button in it with its text, trimmed and in lower case. *)
Record ListItem : Type := mkListItem {
  element : nat;
  readThrows : bool;
  usernameRead : option string;
  actionButton : option (nat * string)
}.

(** An entry of [targetsFound]. *)
Record Target : Type := mkTarget {
  item : nat;
  button : nat;
  username : string
}.

Record Script : Type := mkScript {
  isAutomationRunning : bool;
  automationType : option ActionType;
  processedUsernames : list string;
  targetsFound : list Target;
  targetIndex : nat;
  observer : bool;
  sent : list Report
}.

Definition set_processedUsernames (v : list string) (c : Script) : Script :=
  mkScript (isAutomationRunning c) (automationType c) v (targetsFound c)
    (targetIndex c) (observer c) (sent c).

Definition set_targetsFound (v : list Target) (c : Script) : Script :=
  mkScript (isAutomationRunning c) (automationType c) (processedUsernames c)
    v (targetIndex c) (observer c) (sent c).

Definition set_targetIndex (v : nat) (c : Script) : Script :=
  mkScript (isAutomationRunning c) (automationType c) (processedUsernames c)
    (targetsFound c) v (observer c) (sent c).

Definition set_observer (v : bool) (c : Script) : Script :=
  mkScript (isAutomationRunning c) (automationType c) (processedUsernames c)
    (targetsFound c) (targetIndex c) v (sent c).

(** [processedUsernames.has(u)] and [processedUsernames.add(u)] *)
Definition has (u : string) (set : list string) : bool :=
  existsb (String.eqb u) set.

Definition add (u : string) (set : list string) : list string :=
  if has u set then set else set ++ [u].

(** [reportStatus(status, payload)], and the two direct calls of
    [chrome.runtime.sendMessage]. *)
Definition reportStatus (r : Report) (c : Script) : Script :=
  mkScript (isAutomationRunning c) (automationType c) (processedUsernames c)
    (targetsFound c) (targetIndex c) (observer c) (sent c ++ [r]).

(** The [catch] of [reportStatus], run when the message could not be
    delivered. *)
Definition sendFailed (c : Script) : Script :=
  mkScript false None [] [] 0%nat false (sent c).

(** [shouldTarget] for a button text. *)
Definition shouldTarget (type : option ActionType) (buttonText : string)
  : bool :=
  let isFollowButton := String.eqb buttonText "follow" in
  let isFollowingButton :=
    String.eqb buttonText "following" || String.eqb buttonText "requested" in
  match type with
  | Some follow => isFollowButton
  | Some unfollow => isFollowingButton
  | None => false
  end.

(** The body of [listItems.forEach] in [findAllTargets]. *)
Definition scanItem (acc : Script * list Target) (it : ListItem)
  : Script * list Target :=
  let (c, newTargets) := acc in
  if readThrows it then (reportStatus (error "domParsingError") c, newTargets)
  else
    match usernameRead it with
    | None => acc
    | Some u =>
        if has u (processedUsernames c) then acc
        else
          match actionButton it with
          | None =>
              (reportStatus userSkipped
                 (set_processedUsernames (add u (processedUsernames c)) c),
               newTargets)
          | Some (b, buttonText) =>
              if shouldTarget (automationType c) buttonText then
                if negb (existsb (fun target => item target =? element it)%nat
                           (targetsFound c))
                then (c, newTargets ++ [mkTarget (element it) b u])
                else acc
              else
                (set_processedUsernames (add u (processedUsernames c)) c,
                 newTargets)
          end
    end.

(** The body of [newTargets.forEach]. *)
Definition pushNew (found : list Target) (nT : Target) : list Target :=
  if existsb (fun e => String.eqb (username e) (username nT)) found
  then found
  else found ++ [nT].

(** [findAllTargets()] on a page showing [listItems]. *)
Definition findAllTargets (listItems : list ListItem) (c : Script) : Script :=
  if negb (isAutomationRunning c) then c
  else
    let (c, newTargets) := fold_left scanItem listItems (c, []) in
    set_targetsFound (fold_left pushNew newTargets (targetsFound c)) c.

(** [stopAutomation()] *)
Definition stopAutomation (c : Script) : Script :=
  reportStatus stopped (mkScript false None [] [] 0%nat false (sent c)).

(** [startAutomation(type)]; [containerFound] says whether
    [setupMutationObserver] finds the list container. *)
Definition startAutomation (containerFound : bool)
    (listItems : list ListItem) (type : option ActionType) (c : Script)
  : Script :=
  if isAutomationRunning c then reportStatus report_other c
  else
    let c := mkScript true type [] [] 0%nat (observer c) (sent c) in
    let c :=
      if containerFound then set_observer true c
      else findAllTargets listItems c in
    let c := findAllTargets listItems c in
    reportStatus running c.

(** What one call of [performNextAction] meets on the page: the list items
    there are after the scroll, the text of a button (trimmed, lower case),
    whether the click throws, whether the unfollow confirmation shows,
    with its button, and whether that click throws, and whether a blocked
    notice shows. *)
Record Page : Type := mkPage {
  afterScroll : list ListItem;
  innerText : nat -> string;
  clickThrows : bool;
  confirmationModal : bool;
  confirmButton : bool;
  confirmThrows : bool;
  actionBlockedShown : bool
}.

(** [isCorrectButton] *)
Definition isCorrectButton (type : option ActionType)
    (currentButtonText : string) : bool :=
  match type with
  | Some follow => String.eqb currentButtonText "follow"
  | Some unfollow =>
      String.eqb currentButtonText "following"
      || String.eqb currentButtonText "requested"
  | None => false
  end.

(** [performNextAction] from [const { item, button, username } = target]
    on.  The flag says that it ends by calling [performNextAction()]
    again. *)
Definition attempt (page : Page) (target : Target) (c : Script)
  : Script * bool :=
  let currentButtonText := innerText page (button target) in
  if negb (isCorrectButton (automationType c) currentButtonText) then
    let c :=
      set_processedUsernames
        (add (username target) (processedUsernames c)) c in
    let c := set_targetIndex (targetIndex c + 1)%nat c in
    (reportStatus userSkipped c, true)
  else if has (username target) (processedUsernames c) then
    (set_targetIndex (targetIndex c + 1)%nat c, true)
  else
    let caught (c : Script) :=
      set_targetIndex (targetIndex c + 1)%nat
        (reportStatus (error "clickError") c) in
    if clickThrows page then (caught c, false)
    else
      let c :=
        set_processedUsernames
          (add (username target) (processedUsernames c)) c in
      let confirming :=
        match automationType c with
        | Some unfollow => confirmationModal page
        | _ => false
        end in
      if confirming && confirmButton page && confirmThrows page
      then (caught c, false)
      else
        let c :=
          if confirming && negb (confirmButton page)
          then reportStatus report_other c
          else c in
        if actionBlockedShown page
        then (stopAutomation (reportStatus actionBlocked c), false)
        else
          (set_targetIndex (targetIndex c + 1)%nat
             (reportStatus actionCompleted c), false).

(** [performNextAction()].  Each call meets one [Page]; the calls the
    function makes to itself take the pages that follow, and the run is
    followed for as long as there are pages. *)
Fixpoint performNextAction (pages : list Page) (c : Script) : Script :=
  match pages with
  | [] => c
  | page :: later =>
      if negb (isAutomationRunning c)
         || match automationType c with Some _ => false | None => true end
      then reportStatus report_other c
      else
        let act (c : Script) :=
          match nth_error (targetsFound c) (targetIndex c) with
          | None =>
              stopAutomation (reportStatus (error "noTargetAtIndex") c)
          | Some target =>
              let (c, again) := attempt page target c in
              if again then performNextAction later c else c
          end in
        if (List.length (targetsFound c) <=? targetIndex c)%nat then
          let c := findAllTargets (afterScroll page) c in
          if (List.length (targetsFound c) <=? targetIndex c)%nat
          then stopAutomation (reportStatus completed c)
          else act c
        else act c
  end.

(** What the page answers while one callback of the script runs. *)
Record View : Type := mkView {
  containerFound : bool;
  listItems : list ListItem;
  pages : list Page
}.

(** [request.command] of a message to the script: one of the four commands
    the controller sends, ['findAllTargets'], or anything else. *)
Inductive Incoming : Type :=
| fromController (command : TabCommand)
| findTargets
| unknown.

(** The listener of [chrome.runtime.onMessage]; the responses are left
    out. *)
Definition onMessage (v : View) (request : Incoming) (c : Script) : Script :=
  match request with
  | fromController (tab_startAutomation type) =>
      startAutomation (containerFound v) (listItems v) type c
  | fromController tab_stopAutomation => stopAutomation c
  | fromController tab_performAction =>
      if isAutomationRunning c then performNextAction (pages v) c else c
  | findTargets =>
      reportStatus targetsFound_report (findAllTargets (listItems v) c)
  | fromController tab_getStatus => c
  | unknown => c
  end.

(** The callback of the [MutationObserver], for one record that adds
    nodes; it runs only while an observer is connected. *)
Definition onMutation (v : View) (c : Script) : Script :=
  if observer c then
    if isAutomationRunning c then findAllTargets (listItems v) c else c
  else c.

(** The script when it has just been injected. *)
Definition injected : Script :=
  reportStatus ready (mkScript false None [] [] 0%nat false []).

Inductive Event : Type :=
| Received (request : Incoming)
| Mutation
| SendFailed.

Definition step (v : View) (e : Event) (c : Script) : Script :=
  match e with
  | Received request => onMessage v request c
  | Mutation => onMutation v c
  | SendFailed => sendFailed c
  end.

Inductive reachable : Script -> Prop :=
| reachable_injected : reachable injected
| reachable_step (v : View) (e : Event) (c : Script) :
    reachable c -> reachable (step v e c).

(** The reports the script has sent since [before]. *)
Definition sentSince (before after : Script) : list Report :=
  skipn (List.length (sent before)) (sent after).

End ContentScript.

(** The messages the content script has a call for, as the controller
    classifies them: no failed-action report, and of the error reports the
    two kinds that are raised around the page. *)
Definition scripted (r : Report) : bool :=
  match r with
  | actionFailed _ => false
  | error type =>
      String.eqb type "domParsingError" || String.eqb type "clickError"
  | _ => true
  end.

(** The reports that close an attempt. *)
Definition outcome (r : Report) : bool :=
  match r with
  | actionCompleted => true
  | actionBlocked => true
  | completed => true
  | error type =>
      String.eqb type "clickError" || String.eqb type "noTargetAtIndex"
  | _ => false
  end.

(** The messages of a callback come after those sent before, and all
    satisfy [P]. *)
Definition grows (P : Report -> Prop) (c c' : ContentScript.Script) : Prop :=
  exists extra,
    ContentScript.sent c' = ContentScript.sent c ++ extra /\ Forall P extra.

(** A page for the examples: a user whose button reads follow, a user with
    no button, an item that cannot be read, and the first user once more. *)
Definition sampleItems : list ContentScript.ListItem :=
  [ContentScript.mkListItem 1 false (Some "ana"%string)
     (Some (11%nat, "follow"%string));
   ContentScript.mkListItem 2 false (Some "bob"%string) None;
   ContentScript.mkListItem 3 true None None;
   ContentScript.mkListItem 4 false (Some "ana"%string)
     (Some (14%nat, "follow"%string))].

Definition samplePage : ContentScript.Page :=
  ContentScript.mkPage sampleItems (fun _ => "follow"%string) false false
    false false false.

Definition sampleView : ContentScript.View :=
  ContentScript.mkView true sampleItems [samplePage].

(** The script after it was injected and told to start following on the
    sample page. *)
Definition startedScript : ContentScript.Script :=
  ContentScript.step sampleView
    (ContentScript.Received
       (ContentScript.fromController (tab_startAutomation (Some follow))))
    ContentScript.injected.

(** No two targets carry the same username. *)
Definition distinct (c : ContentScript.Script) : Prop :=
  NoDup (map ContentScript.username (ContentScript.targetsFound c)).

(** * Properties *)

(** ** Arithmetic of [getRandomInt] *)

Section RandomInt.

Variable rnd : Q.
Hypothesis rnd_lower : (0 <= rnd)%Q.
Hypothesis rnd_upper : (rnd < 1)%Q.

Lemma floor_ge (m : Z) (x : Q) : (inject_Z m <= x)%Q -> m <= Qfloor x.
Proof.
  intros H. rewrite <- (Qfloor_Z m). now apply Qfloor_resp_le.
Qed.

Lemma floor_lt (m : Z) (x : Q) : (x < inject_Z m)%Q -> Qfloor x < m.
Proof.
  intros H. rewrite Zlt_Qlt.
  apply Qle_lt_trans with x; [apply Qfloor_le | exact H].
Qed.

Lemma floor_le (m : Z) (x : Q) : (x <= inject_Z m)%Q -> Qfloor x <= m.
Proof.
  intros H. rewrite Zle_Qle.
  apply Qle_trans with x; [apply Qfloor_le | exact H].
Qed.

(** The scaled draw [Math.floor(Math.random() * n)] for a width [n >= 1]. *)
Lemma scaled_draw_pos (n : Z) :
  1 <= n -> 0 <= Qfloor (rnd * inject_Z n) <= n - 1.
Proof.
  intros Hn.
  assert (Hq : (1 <= inject_Z n)%Q) by (rewrite Zle_Qle in Hn; exact Hn).
  split.
  - apply floor_ge. change (inject_Z 0) with 0%Q. nra.
  - enough (Qfloor (rnd * inject_Z n) < n) by lia.
    apply floor_lt. nra.
Qed.

(** The same for a width [n <= 0], as inverted bounds give. *)
Lemma scaled_draw_nonpos (n : Z) :
  n <= 0 -> n <= Qfloor (rnd * inject_Z n) <= 0.
Proof.
  intros Hn.
  assert (Hq : (inject_Z n <= 0)%Q)
    by (rewrite Zle_Qle in Hn; exact Hn).
  split.
  - apply floor_ge. nra.
  - apply floor_le. change (inject_Z 0) with 0%Q. nra.
Qed.

Lemma getRandomInt_drawn (a b : Q) :
  JS.is_int (getRandomInt rnd (Num a) (Num b)) (drawn rnd a b).
Proof.
  unfold getRandomInt, drawn, JS.ceil, JS.floor, JS.add, JS.sub, JS.mul,
    JS.lift2, JS.ofZ, JS.is_int.
  rewrite inject_Z_plus.
  apply Qplus_comp; [ | reflexivity ].
  unfold Z.sub. rewrite !inject_Z_plus, inject_Z_opp.
  reflexivity.
Qed.

End RandomInt.

(** ** Generic facts about the state functions *)

(** Reduce projections of updated states, leaving the arithmetic folded. *)
Ltac state_simpl :=
  cbn -[reached pauseSeconds delaySeconds getRandomInt JS.div JS.mul] in *.

(** Reduce through the assignments and the browser calls only. *)
Ltac prim_simpl :=
  cbn [isActive currentTabId actionType settings processedToday
       sessionProcessedCount currentTargets currentIndex isPausedForBatch
       alarms storage tabOutbox popupOutbox
       set_isActive set_currentTabId set_actionType set_settings
       set_processedToday set_sessionProcessedCount set_currentTargets
       set_currentIndex set_isPausedForBatch set_alarms set_storage
       set_tabOutbox set_popupOutbox
       sendStatusToPopup sendToTab alarms_clear alarms_create
       instagramAutomationState instagramAutomationSettings
       storedTimestamp option_map lastActionTimestamp fst snd] in *.

Lemma stopAutomation_idle (s : State) : Idle s -> stopAutomation s = s.
Proof.
  intros [Ha Hp]. unfold stopAutomation. now rewrite Ha, Hp.
Qed.

Lemma stopAutomation_stops (s : State) : Idle (stopAutomation s).
Proof.
  unfold stopAutomation, Idle.
  destruct (isActive s) eqn:Ha, (isPausedForBatch s) eqn:Hp; cbn;
    try (destruct (currentTabId s); cbn; auto); auto.
Qed.

Lemma stopAutomation_alarms (s : State) :
  isActive s = true \/ isPausedForBatch s = true ->
  alarm PERFORM_ACTION (alarms (stopAutomation s)) = None /\
  alarm BATCH_PAUSE (alarms (stopAutomation s)) = None /\
  alarm DAILY_RESET (alarms (stopAutomation s)) = alarm DAILY_RESET (alarms s).
Proof.
  intros H. unfold stopAutomation.
  destruct (isActive s) eqn:Ha, (isPausedForBatch s) eqn:Hp; cbn;
    try (destruct H; discriminate);
    destruct (currentTabId s); cbn; auto.
Qed.

(** ** Stopping *)

(** C8. [stopAutomation()] called while the controller is idle returns at
    its guard: the state is the same one, so no variable changes, no alarm
    is created or cleared, nothing is sent to the tab or to the popup.  The
    stop command of the popup therefore leaves an idle controller as it is
    and is acknowledged, and stopping twice is stopping once. *)
Theorem stopAutomation_idempotent (env : Env) (s : State) :
  (Idle s -> stopAutomation s = s) /\
  (Idle s ->
   onMessage env None (Popup cmd_stopAutomation) s = (s, Some acknowledged)) /\
  stopAutomation (stopAutomation s) = stopAutomation s.
Proof.
  split; [ | split ].
  - apply stopAutomation_idle.
  - intros H. cbn. now rewrite stopAutomation_idle.
  - apply stopAutomation_idle, stopAutomation_stops.
Qed.

Lemma stopAutomation_idempotent_witness :
  stopAutomation (idleWith DEFAULT_SETTINGS (mkSavedState 0 0)) =
  idleWith DEFAULT_SETTINGS (mkSavedState 0 0).
Proof.
  exact (proj1 (stopAutomation_idempotent (envAt 0 0)
                  (idleWith DEFAULT_SETTINGS (mkSavedState 0 0)))
           (conj eq_refl eq_refl)).
Defined.

(** C3. A blocked report from the automated tab, arriving while a run is
    active (running or in a batch pause), leaves the controller idle at the
    end of that callback whatever the counters are: both flags are false,
    the action alarm and the batch-pause alarm are cleared, so no batch
    pause is scheduled; the session is reset and the tab told to stop. *)
Theorem actionBlocked_stops (env : Env) (t : Z) (s : State) :
  isActive s = true \/ isPausedForBatch s = true ->
  currentTabId s = Some t ->
  let s' := step env (Message (Some t) (Agent actionBlocked)) s in
  Idle s' /\
  alarm PERFORM_ACTION (alarms s') = None /\
  alarm BATCH_PAUSE (alarms s') = None /\
  sessionProcessedCount s' = 0 /\
  processedToday s' = processedToday s /\
  currentTabId s' = None /\
  actionType s' = None /\
  In (t, tab_stopAutomation) (tabOutbox s').
Proof.
  intros Hrun Htab.
  unfold step, onMessage, sameTab. rewrite Htab, Z.eqb_refl.
  cbn [negb fst reportOf onReport].
  unfold stopAutomation, Idle.
  destruct (isActive s) eqn:Ha, (isPausedForBatch s) eqn:Hp; cbn;
    try (destruct Hrun; discriminate); rewrite Htab; cbn;
    repeat split; auto; apply in_or_app; right; left; reflexivity.
Qed.

Lemma actionBlocked_stops_witness :
  Idle (step (envAt 2000 (1 # 2)) (Message (Some 7) (Agent actionBlocked))
          (runningOn7 DEFAULT_SETTINGS 1 1)) /\
  alarm BATCH_PAUSE
    (alarms (step (envAt 2000 (1 # 2)) (Message (Some 7) (Agent actionBlocked))
               (runningOn7 DEFAULT_SETTINGS 1 1))) = None.
Proof.
  pose proof (actionBlocked_stops (envAt 2000 (1 # 2)) 7
                (runningOn7 DEFAULT_SETTINGS 1 1)
                (or_introl eq_refl) eq_refl) as H.
  cbv zeta in H. destruct H as (Hidle & _ & Hbatch & _).
  split; [ exact Hidle | exact Hbatch ].
Defined.

(** ** Loading the run state *)

(** C6. When [loadSettingsAndState] reads a stored run state, the daily
    count is the stored one if the last action is at most 24 hours before
    now, and 0 if it is more than 24 hours before now.  The reset is made in
    memory only: the load writes nothing to the storage. *)
Theorem load_daily_count (env : Env) (s : State) (saved : SavedState) :
  loadOk env = true ->
  instagramAutomationState (storage s) = Some saved ->
  let s' := loadSettingsAndState env s in
  (now env - lastActionTimestamp saved <= dayMs ->
   processedToday s' = saved_processedToday saved) /\
  (dayMs < now env - lastActionTimestamp saved -> processedToday s' = 0) /\
  storage s' = storage s.
Proof.
  intros Hok Hst. unfold loadSettingsAndState, dayMs.
  rewrite Hok, Hst. cbn [orElse].
  destruct (Z.ltb_spec (lastActionTimestamp saved)
              (now env - 24 * 60 * 60 * 1000));
    cbn; repeat split; auto; intros; lia.
Qed.

Lemma load_daily_count_witness :
  processedToday
    (loadSettingsAndState (envAt (25 * 3600000) (1 # 2))
       (idleWith DEFAULT_SETTINGS (mkSavedState 7 0))) = 0 /\
  processedToday
    (loadSettingsAndState (envAt (23 * 3600000) (1 # 2))
       (idleWith DEFAULT_SETTINGS (mkSavedState 7 0))) = 7.
Proof.
  split.
  - apply (load_daily_count (envAt (25 * 3600000) (1 # 2))
             (idleWith DEFAULT_SETTINGS (mkSavedState 7 0))
             (mkSavedState 7 0) eq_refl eq_refl).
    reflexivity.
  - apply (load_daily_count (envAt (23 * 3600000) (1 # 2))
             (idleWith DEFAULT_SETTINGS (mkSavedState 7 0))
             (mkSavedState 7 0) eq_refl eq_refl).
    cbn. discriminate.
Defined.

(** ** Random delays *)

Lemma getRandomInt_within (rnd lo hi : Q) :
  (0 <= rnd)%Q -> (rnd < 1)%Q -> drawnWithin lo hi (drawn rnd lo hi).
Proof.
  intros H0 H1. unfold drawnWithin, drawn. split; intros H.
  - pose proof (scaled_draw_pos rnd H0 H1 (Qfloor hi - Qceiling lo + 1)).
    lia.
  - pose proof (scaled_draw_nonpos rnd H0 H1 (Qfloor hi - Qceiling lo + 1)).
    lia.
Qed.

Lemma getRandomInt_nonneg (rnd lo hi : Q) :
  (0 <= rnd)%Q -> (rnd < 1)%Q -> (0 <= lo)%Q -> (0 <= hi)%Q ->
  0 <= drawn rnd lo hi.
Proof.
  intros H0 H1 Hlo Hhi.
  destruct (getRandomInt_within rnd lo hi H0 H1) as [Hin Hinv].
  assert (0 <= Qceiling lo).
  { rewrite <- (Qceiling_Z 0). now apply Qceiling_resp_le. }
  assert (0 <= Qfloor hi) by now apply floor_ge.
  destruct (Z_le_gt_dec (Qceiling lo) (Qfloor hi)); [ | lia ].
  specialize (Hin l). lia.
Qed.

(** X1. Equal integer bounds give that integer, whatever the draw: the
    first scenario of the specification. *)
Lemma getRandomInt_equal_bounds (rnd : Q) (n : Z) :
  (0 <= rnd)%Q -> (rnd < 1)%Q ->
  JS.is_int (getRandomInt rnd (JS.ofZ n) (JS.ofZ n)) n.
Proof.
  intros H0 H1.
  pose proof (getRandomInt_drawn rnd (inject_Z n) (inject_Z n)) as Hd.
  destruct (getRandomInt_within rnd (inject_Z n) (inject_Z n) H0 H1)
    as [Hin _].
  rewrite Qceiling_Z, Qfloor_Z in Hin.
  replace (drawn rnd (inject_Z n) (inject_Z n)) with n in Hd by lia.
  exact Hd.
Qed.

Lemma getRandomInt_equal_bounds_witness :
  JS.is_int (getRandomInt (9 # 10) (Num 5) (Num 5)) 5.
Proof.
  apply (getRandomInt_equal_bounds (9 # 10) 5); unfold Qle, Qlt; cbn; lia.
Defined.

(** A bound that is not a number makes the result [NaN]. *)
Lemma getRandomInt_NaN (rnd : Q) (a b : jsnum) :
  JS.isNaN a = true \/ JS.isNaN b = true ->
  getRandomInt rnd a b = NaN.
Proof.
  destruct a, b; cbn; intros [H | H]; try discriminate; reflexivity.
Qed.

(** After a load no numeric property is missing: the stored object is
    spread over [DEFAULT_SETTINGS]. *)
Lemma loadSettingsAndState_complete (env : Env) (s : State) :
  complete (settings (loadSettingsAndState env s)).
Proof.
  unfold loadSettingsAndState, complete, saveSettings, saveState.
  destruct (loadOk env); cbn.
  - destruct (instagramAutomationState (storage s)) as [saved | ];
      cbn [orElse];
      match goal with |- context [if ?c then _ else _] => destruct c end;
      cbn; unfold spreadField;
      destruct (instagramAutomationSettings (storage s)) as [st | ]; cbn;
      repeat split;
      try match goal with
        | |- match ?f with _ => _ end <> None => destruct f
        end; discriminate.
  - destruct (storeOk env); cbn; repeat split; discriminate.
Qed.

(** C4, as far as it holds.  [getRandomInt] does not clamp or guard its
    range.  For settings whose bounds are numbers and not negative, the
    random delay before an action and the random pause after a batch are
    integers of seconds that are not negative (so not NaN either): from
    [ceil min] to [floor max] when [ceil min <= floor max], and from
    [floor max + 1] to [ceil min] when [floor max < ceil min], which is the
    case of inverted bounds and of bounds with no integer between them. *)
Theorem random_delays_nonnegative (env : Env) (st : Settings)
    (lo hi plo phi : Q) :
  (0 <= random env)%Q -> (random env < 1)%Q ->
  intervalMin st = Some (Num lo) -> intervalMax st = Some (Num hi) ->
  pauseBetweenBatchesMin st = Some (Num plo) ->
  pauseBetweenBatchesMax st = Some (Num phi) ->
  (0 <= lo)%Q -> (0 <= hi)%Q -> (0 <= plo)%Q -> (0 <= phi)%Q ->
  exists d p : Z,
    JS.is_int (delaySeconds env None st) d /\
    JS.is_int (pauseSeconds env st) p /\
    0 <= d /\ 0 <= p /\
    drawnWithin lo hi d /\ drawnWithin plo phi p.
Proof.
  intros H0 H1 Hlo Hhi Hplo Hphi Nlo Nhi Nplo Nphi.
  exists (drawn (random env) lo hi), (drawn (random env) plo phi).
  unfold delaySeconds, pauseSeconds. rewrite Hlo, Hhi, Hplo, Hphi.
  cbn [num].
  repeat split;
    auto using getRandomInt_drawn, getRandomInt_nonneg;
    now apply getRandomInt_within.
Qed.

Lemma random_delays_nonnegative_witness :
  exists d p : Z,
    JS.is_int (delaySeconds (envAt 0 (1 # 2)) None DEFAULT_SETTINGS) d /\
    JS.is_int (pauseSeconds (envAt 0 (1 # 2)) DEFAULT_SETTINGS) p /\
    0 <= d /\ 0 <= p /\
    drawnWithin 5 10 d /\ drawnWithin 300 600 p.
Proof.
  apply (random_delays_nonnegative (envAt 0 (1 # 2)) DEFAULT_SETTINGS
           5 10 300 600);
    try reflexivity; cbn; unfold Qle, Qlt; cbn; lia.
Defined.

(** C4 as stated fails.  With the inverted bounds 1 and -10 and the draw
    1/2 the delay is -4 seconds, and the alarm is created with a negative
    delay; with the pause bounds -600 and -300, which are in order, the
    pause is -450 seconds; with a minimum that is not a number, or with the
    bounds missing, the delay is NaN. *)
Lemma random_delay_counterexample :
  getRandomInt (1 # 2) (Num 1) (Num (-10)) = Num (-4) /\
  JS.negative
    (delaySeconds (envAt 0 (1 # 2)) None (withInterval (Num 1) (Num (-10)))) /\
  JS.negative
    (delayMsOf
       (alarm PERFORM_ACTION
          (alarms
             (scheduleNextAction (envAt 0 (1 # 2)) None
                (runningOn7 (withInterval (Num 1) (Num (-10))) 0 0))))) /\
  JS.is_int
    (pauseSeconds (envAt 0 (1 # 2)) (withPause (Num (-600)) (Num (-300))))
    (-450) /\
  delaySeconds (envAt 0 (1 # 2)) None (withInterval NaN (Num 10)) = NaN /\
  delaySeconds (envAt 0 (1 # 2)) None emptySettings = NaN.
Proof.
  repeat split.
Qed.

(** ** Settings in memory are complete *)

Lemma spreadField_present {A : Type} (a b : option A) :
  a <> None -> spreadField a b <> None.
Proof.
  intros Ha. destruct b; [ discriminate | exact Ha ].
Qed.

Lemma complete_spread (a b : Settings) : complete a -> complete (spread a b).
Proof.
  unfold complete. cbn [spread intervalMin intervalMax actionsPerBatch
                          pauseBetweenBatchesMin pauseBetweenBatchesMax
                          dailyLimit].
  intros (H1 & H2 & H3 & H4 & H5 & H6).
  repeat split; now apply spreadField_present.
Qed.

Lemma complete_DEFAULT_SETTINGS : complete DEFAULT_SETTINGS.
Proof.
  repeat split; discriminate.
Qed.

Lemma settings_stopAutomation (s : State) :
  settings (stopAutomation s) = settings s.
Proof.
  unfold stopAutomation.
  destruct (negb (isActive s) && negb (isPausedForBatch s)); [ reflexivity | ].
  prim_simpl. destruct (currentTabId s); reflexivity.
Qed.

Lemma settings_scheduleNextAction (env : Env) (d : option jsnum) (s : State) :
  settings (scheduleNextAction env d s) = settings s.
Proof.
  unfold scheduleNextAction. destruct (negb (isActive s)); reflexivity.
Qed.

Lemma settings_scheduleBatchPause (env : Env) (s : State) :
  settings (scheduleBatchPause env s) = settings s.
Proof. reflexivity. Qed.

Lemma settings_saveState (env : Env) (saved : SavedState) (s : State) :
  settings (saveState env saved s) = settings s.
Proof.
  unfold saveState. destruct (storeOk env); reflexivity.
Qed.

Lemma settings_sendStatusToPopup (s : State) :
  settings (sendStatusToPopup s) = settings s.
Proof. reflexivity. Qed.

Create Rewrite HintDb settings.

#[local] Hint Rewrite settings_stopAutomation settings_scheduleNextAction
  settings_scheduleBatchPause settings_saveState settings_sendStatusToPopup
  : settings.

Ltac settings_go :=
  repeat first
    [ progress autorewrite with settings
    | progress prim_simpl
    | match goal with
      | |- complete (settings (if ?c then _ else _)) => destruct c
      | |- complete (settings (match ?c with Some _ => _ | None => _ end)) =>
          destruct c
      end ].

Lemma complete_saveSettings (env : Env) (st : Settings) (s : State) :
  complete (settings s) -> complete (settings (saveSettings env st s)).
Proof.
  intros H. unfold saveSettings.
  destruct (storeOk env); prim_simpl; now apply complete_spread.
Qed.

(** The settings a successful load leaves in memory: the stored object
    spread over the defaults, so a property the stored object lacks has its
    default value. *)
Lemma loadSettingsAndState_settings (env : Env) (s : State) :
  loadOk env = true ->
  settings (loadSettingsAndState env s) =
  spread DEFAULT_SETTINGS
    (orElse (instagramAutomationSettings (storage s)) emptySettings).
Proof.
  intros Hok. unfold loadSettingsAndState. rewrite Hok. cbv zeta.
  destruct (lastActionTimestamp _ <? _); reflexivity.
Qed.

Lemma complete_startAutomation (env : Env) (type : option ActionType)
    (s : State) :
  complete (settings s) -> complete (settings (startAutomation env type s)).
Proof.
  intros H. unfold startAutomation.
  destruct (isActive s); [ exact H | ].
  pose proof (loadSettingsAndState_complete env s) as Hl.
  set (l := loadSettingsAndState env s) in *. cbv zeta.
  destruct (reached _ _); [ exact Hl | ].
  destruct (falsyTabId _); [ exact Hl | ].
  unfold injectContentScript. prim_simpl.
  destruct (findInstagramTab env) as [t | ]; [ | exact Hl ].
  destruct (injection env); prim_simpl; try exact Hl;
    destruct (tabAnswers env); autorewrite with settings; exact Hl.
Qed.

Lemma complete_executeNextAction (env : Env) (s : State) :
  complete (settings s) -> complete (settings (executeNextAction env s)).
Proof.
  intros H. unfold executeNextAction.
  destruct (negb (isActive s)); [ exact H | ].
  pose proof (loadSettingsAndState_complete env s) as Hl.
  set (l := loadSettingsAndState env s) in *. cbv zeta.
  settings_go; exact Hl.
Qed.

Lemma complete_step (env : Env) (e : Event) (s : State) :
  complete (settings s) -> complete (settings (step env e s)).
Proof.
  intros H.
  destruct e as [sender request | name | tabId url | tabId | ]; cbn [step].
  - unfold onMessage. destruct sender as [id | ].
    + destruct (negb (sameTab id (currentTabId s))); cbn [fst];
        [ exact H | ].
      destruct (reportOf request); cbn [onReport]; cbv zeta;
        settings_go; exact H.
    + destruct (commandOf request); cbn [fst];
        autorewrite with settings;
        auto using complete_startAutomation, complete_saveSettings.
  - assert (Hf : complete (settings (fired name s))).
    { unfold fired. destruct (alarm name (alarms s)) as [[d | p] | ];
        exact H. }
    destruct name; cbn [onAlarm]; cbv zeta.
    + now apply complete_executeNextAction.
    + prim_simpl.
      destruct (currentTabId (fired BATCH_PAUSE s));
        [ destruct (tabAnswers env) | ];
        autorewrite with settings; exact Hf.
    + unfold scheduleDailyReset. prim_simpl.
      autorewrite with settings. exact Hf.
  - unfold onUpdated.
    destruct (isActive s && sameTab tabId (currentTabId s)); [ | exact H ].
    destruct url as [u | ]; [ | exact H ].
    destruct (negb (String.eqb u "") && negb (includes u "instagram.com"));
      autorewrite with settings; exact H.
  - unfold onRemoved.
    destruct (isActive s && sameTab tabId (currentTabId s));
      autorewrite with settings; exact H.
  - unfold workerStart, scheduleDailyReset. prim_simpl.
    apply loadSettingsAndState_complete.
Qed.

(** ** Successful outcomes *)

(** C1. A completed-action report from the automated tab, handled while
    the automation is active, adds one to both counters: the snapshot pushed
    first shows both sums and the daily sum stays in the state and, when the
    storage takes the write, in the storage.  Then the daily limit is tested
    first: if it is reached the controller stops to idle with both alarms
    cleared, whatever the batch count; else if the batch limit is reached it
    pauses for the batch, with the batch-pause alarm at the random pause;
    else it stays active and the action alarm is created at the random
    interval. *)
Theorem actionCompleted_outcome (env : Env) (t : Z) (s : State) :
  isActive s = true ->
  currentTabId s = Some t ->
  let s' := step env (Message (Some t) (Agent actionCompleted)) s in
  let today := processedToday s + 1 in
  let session := sessionProcessedCount s + 1 in
  (exists snap rest,
     popupOutbox s' = popupOutbox s ++ snap :: rest /\
     st_processedToday snap = today /\
     st_sessionProcessedCount snap = session) /\
  processedToday s' = today /\
  (storeOk env = true ->
   instagramAutomationState (storage s') =
   Some (mkSavedState today (now env))) /\
  if reached today (dailyLimit (settings s)) then
    Idle s' /\
    alarm PERFORM_ACTION (alarms s') = None /\
    alarm BATCH_PAUSE (alarms s') = None /\
    currentTabId s' = None /\
    sessionProcessedCount s' = 0
  else if reached session (actionsPerBatch (settings s)) then
    PausedForBatch s' /\
    alarm PERFORM_ACTION (alarms s') = None /\
    alarm BATCH_PAUSE (alarms s') =
    Some (delayInMinutes
            (JS.div (JS.mul (pauseSeconds env (settings s)) (Num 1000))
               (Num 60000))) /\
    sessionProcessedCount s' = 0
  else
    isActive s' = true /\
    isPausedForBatch s' = isPausedForBatch s /\
    sessionProcessedCount s' = session /\
    alarm BATCH_PAUSE (alarms s') = alarm BATCH_PAUSE (alarms s) /\
    alarm PERFORM_ACTION (alarms s') =
    Some (delayInMinutes
            (JS.div
               (JS.mul
                  (getRandomInt (random env) (num (intervalMin (settings s)))
                     (num (intervalMax (settings s))))
                  (Num 1000))
               (Num 60000))).
Proof.
  intros Hact Htab.
  unfold step, onMessage, sameTab. rewrite Htab, Z.eqb_refl.
  cbn [negb fst reportOf onReport].
  unfold saveState.
  destruct (storeOk env); state_simpl;
    destruct (reached (processedToday s + 1) (dailyLimit (settings s)));
    [ | destruct (reached (sessionProcessedCount s + 1)
                    (actionsPerBatch (settings s))) | |
      destruct (reached (sessionProcessedCount s + 1)
                  (actionsPerBatch (settings s))) ];
    unfold stopAutomation, scheduleBatchPause, scheduleNextAction,
      delaySeconds, PausedForBatch, Idle;
    state_simpl; rewrite ?Hact, ?Htab; state_simpl;
    (split; [ eexists; eexists; split;
              [ rewrite <- ?app_assoc; cbn; reflexivity | cbn; auto ] | ]);
    repeat split; auto; discriminate.
Qed.

Lemma actionCompleted_outcome_witness :
  Idle (step (envAt 2000 (1 # 2)) (Message (Some 7) (Agent actionCompleted))
          (runningOn7 DEFAULT_SETTINGS 9 99)).
Proof.
  pose proof (actionCompleted_outcome (envAt 2000 (1 # 2)) 7
                (runningOn7 DEFAULT_SETTINGS 9 99) eq_refl eq_refl) as H.
  cbv zeta in H. destruct H as (_ & _ & _ & H).
  exact (proj1 H).
Defined.

(** ** Starting at the daily limit *)

Lemma loadSettingsAndState_frame (env : Env) (s : State) :
  let s' := loadSettingsAndState env s in
  isActive s' = isActive s /\
  isPausedForBatch s' = isPausedForBatch s /\
  currentTabId s' = currentTabId s /\
  actionType s' = actionType s /\
  sessionProcessedCount s' = sessionProcessedCount s /\
  currentTargets s' = currentTargets s /\
  currentIndex s' = currentIndex s /\
  alarms s' = alarms s /\
  tabOutbox s' = tabOutbox s.
Proof.
  unfold loadSettingsAndState, saveSettings, saveState.
  destruct (loadOk env).
  - cbn [orElse].
    destruct (lastActionTimestamp _ <? _); cbn; repeat split; reflexivity.
  - destruct (storeOk env); cbn; repeat split; reflexivity.
Qed.

(** The count and the limit a start command compares, from what is
    stored: a stored count with a timestamp at most 24 hours old, against
    the stored limit. *)
Lemma daily_limit_met_on_load (env : Env) (s : State) (stored : Settings)
    (saved : SavedState) (d : Q) :
  loadOk env = true ->
  instagramAutomationSettings (storage s) = Some stored ->
  dailyLimit stored = Some (Num d) ->
  instagramAutomationState (storage s) = Some saved ->
  now env - lastActionTimestamp saved <= dayMs ->
  (d <= inject_Z (saved_processedToday saved))%Q ->
  reached (processedToday (loadSettingsAndState env s))
    (dailyLimit (settings (loadSettingsAndState env s))) = true.
Proof.
  intros Hok Hst Hd Hsv Hage Hle.
  unfold loadSettingsAndState, dayMs in *. rewrite Hok, Hst, Hsv.
  cbn [orElse].
  destruct (Z.ltb_spec (lastActionTimestamp saved)
              (now env - 24 * 60 * 60 * 1000)); [ lia | ].
  unfold reached. prim_simpl. cbn [spread dailyLimit]. rewrite Hd.
  cbn. now apply Qle_bool_iff.
Qed.

(** C2. A start command of the popup, of either type, that finds the daily
    count at or above the daily limit once the state is loaded (the count
    [startAutomation] compares is the one it has just loaded, with the
    24-hour reset applied) changes nothing but the loaded settings and
    count and the snapshots pushed: [isActive] is not set, nothing is sent
    to the tab, no alarm is created, and an idle controller stays idle. *)
Theorem startAutomation_at_daily_limit (env : Env) (type : option ActionType)
    (s : State) :
  reached (processedToday (loadSettingsAndState env s))
    (dailyLimit (settings (loadSettingsAndState env s))) = true ->
  let s' := step env (Message None (Popup (cmd_startAutomation type))) s in
  isActive s' = isActive s /\
  isPausedForBatch s' = isPausedForBatch s /\
  currentTabId s' = currentTabId s /\
  actionType s' = actionType s /\
  sessionProcessedCount s' = sessionProcessedCount s /\
  alarms s' = alarms s /\
  tabOutbox s' = tabOutbox s /\
  (Idle s -> Idle s').
Proof.
  intros Hlimit.
  unfold step, onMessage. cbn [commandOf fst].
  unfold startAutomation.
  destruct (isActive s) eqn:Hact.
  - cbn. unfold Idle. cbn. rewrite Hact. intuition congruence.
  - rewrite Hlimit.
    destruct (loadSettingsAndState_frame env s)
      as (Ha & Hp & Ht & Hty & Hs & _ & _ & Hal & Hout).
    unfold Idle, sendStatusToPopup, set_popupOutbox.
    cbn [isActive isPausedForBatch currentTabId actionType
           sessionProcessedCount alarms tabOutbox].
    rewrite Ha, Hp, Ht, Hty, Hs, Hal, Hout.
    intuition congruence.
Qed.

(** The second scenario of the specification: limit 10, count 10, start. *)
Lemma startAutomation_at_daily_limit_witness :
  Idle (step (envAt 2000 (1 # 2))
          (Message None (Popup (cmd_startAutomation (Some follow))))
          (idleWith (withLimits (Num 10) (Num 10)) (mkSavedState 10 1000))) /\
  tabOutbox
    (step (envAt 2000 (1 # 2))
       (Message None (Popup (cmd_startAutomation (Some follow))))
       (idleWith (withLimits (Num 10) (Num 10)) (mkSavedState 10 1000))) = [].
Proof.
  pose proof (startAutomation_at_daily_limit (envAt 2000 (1 # 2))
                (Some follow)
                (idleWith (withLimits (Num 10) (Num 10))
                   (mkSavedState 10 1000))
                eq_refl) as H.
  cbv zeta in H. destruct H as (_ & _ & _ & _ & _ & _ & Hout & Hidle).
  split; [ apply Hidle; split; reflexivity | exact Hout ].
Defined.

(** Below the limit the same command does start the run, so the theorem
    above is about the limit and not about a controller that never
    starts. *)
Example startAutomation_below_limit :
  Running (step (envAt 2000 (1 # 2))
             (Message None (Popup (cmd_startAutomation (Some follow))))
             (idleWith (withLimits (Num 10) (Num 10)) (mkSavedState 9 1000))).
Proof.
  split; reflexivity.
Qed.

(** ** Errors and skips *)

(** C5, as far as it holds.  While the automation is active, a failed-action
    report of a kind other than the two critical ones keeps the controller
    active and creates the action alarm at the random interval; an error
    report of a kind other than the three critical ones keeps the
    controller as it is and only pushes a snapshot: it creates no alarm,
    and an alarm that is pending stays. *)
Theorem noncritical_error_outcome (env : Env) (t : Z) (type : string)
    (s : State) :
  isActive s = true ->
  currentTabId s = Some t ->
  (criticalFailure type = false ->
   let s' := step env (Message (Some t) (Agent (actionFailed type))) s in
   isActive s' = true /\
   isPausedForBatch s' = isPausedForBatch s /\
   processedToday s' = processedToday s /\
   sessionProcessedCount s' = sessionProcessedCount s /\
   alarm PERFORM_ACTION (alarms s') =
   Some (delayInMinutes
           (JS.div (JS.mul (delaySeconds env None (settings s)) (Num 1000))
              (Num 60000)))) /\
  (criticalError type = false ->
   step env (Message (Some t) (Agent (error type))) s = sendStatusToPopup s).
Proof.
  intros Hact Htab.
  unfold step, onMessage, sameTab. rewrite Htab, Z.eqb_refl.
  cbn [negb fst reportOf onReport].
  fold (criticalError type). fold (criticalFailure type).
  split; intros Hkind; rewrite Hkind.
  - unfold scheduleNextAction. rewrite Hact. state_simpl.
    repeat split; auto.
  - reflexivity.
Qed.

Lemma noncritical_error_outcome_witness :
  step (envAt 2000 (1 # 2)) (Message (Some 7) (Agent (error "timeout")))
    (runningOn7 DEFAULT_SETTINGS 1 1) =
  sendStatusToPopup (runningOn7 DEFAULT_SETTINGS 1 1).
Proof.
  exact (proj2 (noncritical_error_outcome (envAt 2000 (1 # 2)) 7 "timeout"
                  (runningOn7 DEFAULT_SETTINGS 1 1) eq_refl eq_refl)
           eq_refl).
Defined.

(** C5 as stated fails on error reports.  A run on tab 7 with no alarm
    pending receives an error report of the non-critical kind "timeout":
    the controller stays running and still has no action alarm. *)
Lemma noncritical_error_counterexample :
  Running (runningOn7 DEFAULT_SETTINGS 1 1) /\
  criticalError "timeout" = false /\
  Running
    (step (envAt 2000 (1 # 2)) (Message (Some 7) (Agent (error "timeout")))
       (runningOn7 DEFAULT_SETTINGS 1 1)) /\
  alarm PERFORM_ACTION
    (alarms
       (step (envAt 2000 (1 # 2)) (Message (Some 7) (Agent (error "timeout")))
          (runningOn7 DEFAULT_SETTINGS 1 1))) = None.
Proof.
  repeat split.
Qed.

(** C7, as far as it holds.  A skip report never changes the daily count
    or the session count, whoever sends it and whatever the state.  When it
    comes from the automated tab while the automation is active, the action
    alarm is created anew with a delay of 100 ms, a constant that depends
    neither on the settings nor on the random draw; otherwise, by the guard
    of [scheduleNextAction], the alarms stay as they are. *)
Theorem userSkipped_outcome (env : Env) (sender : option Z) (s : State) :
  let s' := step env (Message sender (Agent userSkipped)) s in
  processedToday s' = processedToday s /\
  sessionProcessedCount s' = sessionProcessedCount s /\
  if fromAgent sender s && isActive s then
    isActive s' = true /\
    JS.is_num (delayMsOf (alarm PERFORM_ACTION (alarms s'))) 100
  else alarms s' = alarms s.
Proof.
  unfold step, onMessage, fromAgent.
  destruct sender as [id | ]; [ | cbn; auto ].
  destruct (sameTab id (currentTabId s)); [ | cbn; auto ].
  cbn [negb fst reportOf onReport andb].
  unfold scheduleNextAction.
  destruct (isActive s) eqn:Hact; cbn; auto.
  repeat split; auto.
Qed.

(** C7 as stated fails outside an active run.  The controller of
    [pausedTrace] is in a batch pause on tab 7 with no action alarm; a skip
    report from tab 7 is handled and no action alarm is created. *)
Lemma userSkipped_counterexample :
  reachable pausedTrace /\
  PausedForBatch pausedTrace /\
  fromAgent (Some 7) pausedTrace = true /\
  alarm PERFORM_ACTION (alarms pausedTrace) = None /\
  alarm PERFORM_ACTION
    (alarms
       (step (envAt 2500 (1 # 2)) (Message (Some 7) (Agent userSkipped))
          pausedTrace)) = None.
Proof.
  split; [ repeat constructor | repeat split ].
Qed.

(** ** Who writes the stored timestamp *)

Lemma timestamp_sendStatusToPopup (s : State) :
  storedTimestamp (sendStatusToPopup s) = storedTimestamp s.
Proof. reflexivity. Qed.

Lemma timestamp_stopAutomation (s : State) :
  storedTimestamp (stopAutomation s) = storedTimestamp s.
Proof.
  unfold stopAutomation.
  destruct (negb (isActive s) && negb (isPausedForBatch s)); [ reflexivity | ].
  prim_simpl. destruct (currentTabId s); reflexivity.
Qed.

Lemma timestamp_scheduleNextAction (env : Env) (d : option jsnum)
    (s : State) :
  storedTimestamp (scheduleNextAction env d s) = storedTimestamp s.
Proof.
  unfold scheduleNextAction. destruct (negb (isActive s)); reflexivity.
Qed.

Lemma timestamp_scheduleBatchPause (env : Env) (s : State) :
  storedTimestamp (scheduleBatchPause env s) = storedTimestamp s.
Proof. reflexivity. Qed.

Lemma timestamp_saveSettings (env : Env) (st : Settings) (s : State) :
  storedTimestamp (saveSettings env st s) = storedTimestamp s.
Proof.
  unfold saveSettings. destruct (storeOk env); reflexivity.
Qed.

Lemma timestamp_loadSettingsAndState (env : Env) (s : State) :
  storedTimestamp (loadSettingsAndState env s) = storedTimestamp s \/
  loadOk env = false /\
  storedTimestamp (loadSettingsAndState env s) = Some 0.
Proof.
  unfold loadSettingsAndState, saveSettings, saveState.
  destruct (loadOk env).
  - left. cbn [orElse]. destruct (lastActionTimestamp _ <? _); reflexivity.
  - destruct (storeOk env); [ right | left ]; auto.
Qed.

Create Rewrite HintDb timestamp.

#[local] Hint Rewrite timestamp_sendStatusToPopup timestamp_stopAutomation
  timestamp_scheduleNextAction timestamp_scheduleBatchPause
  timestamp_saveSettings : timestamp.

(** A function that leaves the stored timestamp, applied after a load. *)
Lemma timestamp_after_load (env : Env) (s : State) (f : State -> State) :
  (forall x, storedTimestamp (f x) = storedTimestamp x) ->
  storedTimestamp (f (loadSettingsAndState env s)) = storedTimestamp s \/
  loadOk env = false /\
  storedTimestamp (f (loadSettingsAndState env s)) = Some 0.
Proof.
  intros Hf. rewrite Hf. apply timestamp_loadSettingsAndState.
Qed.

Lemma timestamp_startAutomation (env : Env) (type : option ActionType)
    (s : State) :
  storedTimestamp (startAutomation env type s) = storedTimestamp s \/
  loadOk env = false /\
  storedTimestamp (startAutomation env type s) = Some 0.
Proof.
  unfold startAutomation.
  destruct (isActive s); [ left; reflexivity | ].
  set (l := loadSettingsAndState env s).
  assert (Hl : storedTimestamp l = storedTimestamp s \/
               loadOk env = false /\ storedTimestamp l = Some 0)
    by apply timestamp_loadSettingsAndState.
  cbv zeta.
  match goal with
  | |- storedTimestamp ?x = _ \/ _ =>
      assert (Hsame : storedTimestamp x = storedTimestamp l)
  end.
  { destruct (reached _ _); [ reflexivity | ].
    prim_simpl.
    destruct (falsyTabId (findInstagramTab env)); [ reflexivity | ].
    unfold injectContentScript.
    destruct (findInstagramTab env) as [t | ]; prim_simpl;
      [ destruct (injection env) | ];
      prim_simpl; try reflexivity;
      destruct (tabAnswers env);
      autorewrite with timestamp; reflexivity. }
  rewrite Hsame. exact Hl.
Qed.

Lemma timestamp_executeNextAction (env : Env) (s : State) :
  storedTimestamp (executeNextAction env s) = storedTimestamp s \/
  loadOk env = false /\
  storedTimestamp (executeNextAction env s) = Some 0.
Proof.
  unfold executeNextAction.
  destruct (negb (isActive s)); [ left; reflexivity | ].
  set (l := loadSettingsAndState env s).
  assert (Hl : storedTimestamp l = storedTimestamp s \/
               loadOk env = false /\ storedTimestamp l = Some 0)
    by apply timestamp_loadSettingsAndState.
  cbv zeta.
  match goal with
  | |- storedTimestamp ?x = _ \/ _ =>
      assert (Hsame : storedTimestamp x = storedTimestamp l)
  end.
  { destruct (reached _ _);
      [ now autorewrite with timestamp | ].
    destruct (reached _ _);
      [ now autorewrite with timestamp | ].
    destruct (currentTabId l);
      [ | now autorewrite with timestamp ].
    destruct (tabLookup env);
      [ | now autorewrite with timestamp ].
    destruct (negb (onInstagram _));
      [ now autorewrite with timestamp | ].
    destruct (tabAnswers env); prim_simpl;
      now autorewrite with timestamp. }
  rewrite Hsame. exact Hl.
Qed.

(** C9, as far as it holds.  In one callback the stored timestamp changes
    only in three ways: a completed-action report from the automated tab
    stores the current time; the daily-reset alarm stores the current time
    as well; and a load that fails (in a start command, an action alarm or
    the start of the worker) is followed by a write of the default state,
    which stores 0. *)
Theorem lastActionTimestamp_writers (env : Env) (e : Event) (s : State) :
  storedTimestamp (step env e s) <> storedTimestamp s ->
  (exists t, e = Message (Some t) (Agent actionCompleted) /\
             currentTabId s = Some t /\
             storedTimestamp (step env e s) = Some (now env)) \/
  (e = AlarmFired DAILY_RESET /\
   storedTimestamp (step env e s) = Some (now env)) \/
  (loadOk env = false /\ storedTimestamp (step env e s) = Some 0).
Proof.
  intros Hchg.
  destruct e as [sender request | name | tabId url | tabId | ].
  - destruct sender as [id | ].
    + unfold step, onMessage in *.
      destruct (sameTab id (currentTabId s)) eqn:Htab;
        [ | now contradiction Hchg ].
      cbn [negb fst] in *.
      destruct request as [c | r]; [ now contradiction Hchg | ].
      cbn [reportOf] in *.
      destruct r; cbn [onReport] in *;
        try (contradiction Hchg; repeat destruct (_ || _)%bool;
             try destruct (isActive s);
             now autorewrite with timestamp).
      left. exists id. unfold sameTab in Htab.
      destruct (currentTabId s) as [t | ]; [ | discriminate ].
      apply Z.eqb_eq in Htab. subst t. repeat split.
      revert Hchg. unfold saveState.
      destruct (storeOk env); prim_simpl;
        repeat destruct (reached _ _);
        autorewrite with timestamp; unfold storedTimestamp; prim_simpl;
        congruence.
    + unfold step, onMessage in *.
      destruct request as [c | r]; cbn [commandOf fst] in *;
        [ | now contradiction Hchg ].
      destruct c; cbn [fst] in *;
        try (contradiction Hchg; now autorewrite with timestamp).
      destruct (timestamp_startAutomation env type s) as [H | H];
        [ contradiction | auto ].
  - unfold step in *.
    assert (Hfired : storedTimestamp (fired name s) = storedTimestamp s).
    { unfold fired. destruct (alarm name (alarms s)) as [[d | p] | ];
        reflexivity. }
    rewrite <- Hfired in Hchg.
    destruct name; cbn [onAlarm] in *.
    + destruct (timestamp_executeNextAction env (fired PERFORM_ACTION s))
        as [H | H]; [ contradiction | auto ].
    + contradiction Hchg. prim_simpl.
      destruct (currentTabId (fired BATCH_PAUSE s)); prim_simpl;
        [ destruct (tabAnswers env) | ];
        now autorewrite with timestamp.
    + right. left. split; [ reflexivity | ].
      revert Hchg. unfold saveState, scheduleDailyReset.
      destruct (storeOk env); unfold storedTimestamp; prim_simpl;
        congruence.
  - contradiction Hchg. unfold step, onUpdated.
    destruct (isActive s && sameTab tabId (currentTabId s));
      [ | reflexivity ].
    destruct url as [u | ]; [ | reflexivity ].
    destruct (negb (String.eqb u "") && negb (includes u "instagram.com"));
      now autorewrite with timestamp.
  - contradiction Hchg. unfold step, onRemoved.
    destruct (isActive s && sameTab tabId (currentTabId s));
      now autorewrite with timestamp.
  - right. right. unfold step, workerStart, scheduleDailyReset in *.
    prim_simpl.
    destruct (timestamp_loadSettingsAndState env (initialState s))
      as [H | H]; [ | exact H ].
    contradiction Hchg.
Qed.

Lemma lastActionTimestamp_writers_witness :
  storedTimestamp
    (step (envAt 2000 (1 # 2)) (AlarmFired DAILY_RESET)
       (runningOn7 DEFAULT_SETTINGS 1 5)) = Some 2000.
Proof.
  destruct (lastActionTimestamp_writers (envAt 2000 (1 # 2))
              (AlarmFired DAILY_RESET) (runningOn7 DEFAULT_SETTINGS 1 5))
    as [(t & He & _) | [(_ & H) | (Hl & _)]].
  - cbn. discriminate.
  - discriminate He.
  - exact H.
  - discriminate Hl.
Defined.

(** C9 as stated fails.  A run whose last action was stored at time 1000
    has the daily-reset alarm fire at time 2000: no action succeeds in that
    callback, and the stored timestamp becomes 2000. *)
Lemma lastActionTimestamp_counterexample :
  storedTimestamp (runningOn7 DEFAULT_SETTINGS 1 5) = Some 1000 /\
  storedTimestamp
    (step (envAt 2000 (1 # 2)) (AlarmFired DAILY_RESET)
       (runningOn7 DEFAULT_SETTINGS 1 5)) = Some 2000 /\
  sessionProcessedCount
    (step (envAt 2000 (1 # 2)) (AlarmFired DAILY_RESET)
       (runningOn7 DEFAULT_SETTINGS 1 5)) = 1.
Proof.
  repeat split.
Qed.

(** ** The two flags and the status line *)








































(** Entering the pause: whatever the state, [scheduleBatchPause] leaves
    the controller paused for the batch with [isActive] cleared. *)
Lemma scheduleBatchPause_pauses (env : Env) (s : State) :
  PausedForBatch (scheduleBatchPause env s).
Proof.
  split; reflexivity.
Qed.

(** ** Resuming after a pause, and losing the tab *)

(** X3. When the batch-pause alarm fires on a paused controller whose tab
    answers, the controller is running again with the session count it had
    (0 when nothing was reported during the pause), the tab has been asked to
    start a new scan, and the action alarm is set 1000 ms ahead. *)
Lemma batch_pause_resumes (env : Env) (t : Z) (s : State) :
  PausedForBatch s ->
  currentTabId s = Some t ->
  tabAnswers env = true ->
  let s' := step env (AlarmFired BATCH_PAUSE) s in
  Running s' /\
  sessionProcessedCount s' = sessionProcessedCount s /\
  In (t, tab_startAutomation (actionType s)) (tabOutbox s') /\
  JS.is_num (delayMsOf (alarm PERFORM_ACTION (alarms s'))) 1000.
Proof.
  intros [Ha Hp] Htab Hans.
  unfold step, fired, onAlarm.
  assert (Hf : forall x, currentTabId x = Some t ->
            currentTabId (set_isActive true (set_isPausedForBatch false x))
            = Some t) by (intros x Hx; exact Hx).
  destruct (alarm BATCH_PAUSE (alarms s)) as [[d | p] | ] eqn:Hal;
    cbv zeta; rewrite Hf by exact Htab; rewrite Hans;
    unfold scheduleNextAction, Running; state_simpl;
    repeat split; try reflexivity;
    try (apply in_or_app; right; left; reflexivity).
Qed.

Lemma batch_pause_resumes_witness :
  Running (step (envAt 3000 (1 # 2)) (AlarmFired BATCH_PAUSE) pausedTrace).
Proof.
  exact (proj1 (batch_pause_resumes (envAt 3000 (1 # 2)) 7 pausedTrace
                  (conj eq_refl eq_refl) eq_refl eq_refl)).
Defined.

(** X4. When the automated tab is closed during a run the controller stops: it
    is idle, forgets the tab, and both alarms are cleared. *)
Lemma tab_closed_stops (t : Z) (env : Env) (s : State) :
  isActive s = true ->
  currentTabId s = Some t ->
  let s' := step env (TabRemoved t) s in
  Idle s' /\
  currentTabId s' = None /\
  alarm PERFORM_ACTION (alarms s') = None /\
  alarm BATCH_PAUSE (alarms s') = None.
Proof.
  intros Ha Htab. unfold step, onRemoved, sameTab.
  rewrite Ha, Htab, Z.eqb_refl. cbn [andb].
  destruct (stopAutomation_alarms s (or_introl Ha)) as (Hp & Hb & _).
  repeat split; try apply stopAutomation_stops; auto.
  unfold stopAutomation. rewrite Ha. state_simpl. rewrite Htab. reflexivity.
Qed.

Lemma tab_closed_stops_witness :
  Idle (step (envAt 2000 (1 # 2)) (TabRemoved 7)
          (runningOn7 DEFAULT_SETTINGS 1 1)).
Proof.
  exact (proj1 (tab_closed_stops 7 (envAt 2000 (1 # 2))
                  (runningOn7 DEFAULT_SETTINGS 1 1) eq_refl eq_refl)).
Defined.

(** ** Starting a run *)

(** X5. A start command on a controller that is not active, below the
    daily limit, with an Instagram tab in front whose content script
    answers, starts the run on that tab: the controller is running with an
    empty session, the tab received the probe and then the start command of
    the asked type, and the first action is due in 1000 ms, not after a
    random interval. *)
Lemma startAutomation_starts (env : Env) (type : option ActionType) (t : Z)
    (s : State) :
  isActive s = false ->
  reached (processedToday (loadSettingsAndState env s))
    (dailyLimit (settings (loadSettingsAndState env s))) = false ->
  findInstagramTab env = Some t ->
  t <> 0 ->
  injection env = AlreadyInjected \/ injection env = InjectedReady ->
  tabAnswers env = true ->
  let s' := step env (Message None (Popup (cmd_startAutomation type))) s in
  Running s' /\
  currentTabId s' = Some t /\
  actionType s' = type /\
  sessionProcessedCount s' = 0 /\
  tabOutbox s' =
  tabOutbox s ++ [(t, tab_getStatus); (t, tab_startAutomation type)] /\
  JS.is_num (delayMsOf (alarm PERFORM_ACTION (alarms s'))) 1000.
Proof.
  intros Hact Hlim Hfind Hnz Hinj Hans.
  destruct (loadSettingsAndState_frame env s)
    as (_ & _ & _ & _ & _ & _ & _ & _ & Hout).
  unfold step, onMessage. cbn [commandOf fst].
  unfold startAutomation. rewrite Hact, Hlim. cbv zeta.
  prim_simpl. rewrite Hfind. cbn [falsyTabId].
  destruct (Z.eqb_spec t 0) as [E | _]; [ contradiction | ].
  unfold injectContentScript.
  destruct Hinj as [Hi | Hi]; rewrite Hi; prim_simpl; rewrite Hans;
    unfold scheduleNextAction, Running; state_simpl;
    rewrite Hout, <- app_assoc; repeat split; reflexivity.
Qed.

Lemma startAutomation_starts_witness :
  Running
    (step (envAt 2000 (1 # 2))
       (Message None (Popup (cmd_startAutomation (Some unfollow))))
       (idleWith DEFAULT_SETTINGS (mkSavedState 3 1000))).
Proof.
  exact (proj1 (startAutomation_starts (envAt 2000 (1 # 2)) (Some unfollow) 7
                  (idleWith DEFAULT_SETTINGS (mkSavedState 3 1000))
                  eq_refl eq_refl eq_refl ltac:(discriminate)
                  (or_introl eq_refl) eq_refl)).
Defined.

Lemma skipn_own_length {A : Type} (l r : list A) :
  skipn (List.length l) (l ++ r) = r.
Proof.
  induction l as [ | a l IH]; [ reflexivity | exact IH ].
Qed.

Lemma skipn_all_own {A : Type} (l : list A) : skipn (List.length l) l = [].
Proof.
  induction l as [ | a l IH]; [ reflexivity | exact IH ].
Qed.

(** X6. A start command that finds no Instagram tab in front, or whose
    content script cannot be injected into the tab found, leaves the
    controller idle with no action type and no tab: no alarm is touched and
    the tab, if one was found, received the probe only. *)
Lemma startAutomation_fails (env : Env) (type : option ActionType)
    (s : State) :
  isActive s = false ->
  reached (processedToday (loadSettingsAndState env s))
    (dailyLimit (settings (loadSettingsAndState env s))) = false ->
  findInstagramTab env = None \/
  (exists t, findInstagramTab env = Some t /\ t <> 0 /\
             injection env = InjectionFailed) ->
  let s' := step env (Message None (Popup (cmd_startAutomation type))) s in
  Idle s' /\
  actionType s' = None /\
  currentTabId s' = None /\
  alarms s' = alarms s /\
  (forall m, In m (sentTo s s') -> snd m = tab_getStatus).
Proof.
  intros Hact Hlim Hwhy.
  destruct (loadSettingsAndState_frame env s)
    as (Ha & _ & _ & _ & _ & _ & _ & Hal & Hout).
  unfold step, onMessage. cbn [commandOf fst].
  unfold startAutomation, sentTo. rewrite Hact, Hlim. cbv zeta.
  prim_simpl. unfold injectContentScript, Idle.
  destruct Hwhy as [Hfind | (t & Hfind & Hnz & Hinj)]; rewrite Hfind;
    cbn [falsyTabId].
  - prim_simpl. rewrite Hal, Hout, skipn_all_own.
    repeat split; auto. intros m [].
  - destruct (Z.eqb_spec t 0) as [E | _]; [ contradiction | ].
    rewrite Hinj. prim_simpl. rewrite Hal, Hout, skipn_own_length.
    repeat split; auto. intros m [<- | []]. reflexivity.
Qed.

Lemma startAutomation_fails_witness :
  Idle
    (step (mkEnv 2000 (1 # 2) true true [] AlreadyInjected true None)
       (Message None (Popup (cmd_startAutomation (Some follow))))
       (idleWith DEFAULT_SETTINGS (mkSavedState 3 1000))).
Proof.
  exact (proj1 (startAutomation_fails
                  (mkEnv 2000 (1 # 2) true true [] AlreadyInjected true None)
                  (Some follow)
                  (idleWith DEFAULT_SETTINGS (mkSavedState 3 1000))
                  eq_refl eq_refl (or_introl eq_refl))).
Defined.

(** X7. When the content script is injected but never reports ready, the
    promise of [injectContentScript] is rejected outside its [try] and
    [startAutomation] ends there: the controller is not active, yet it
    keeps the tab id and the action type it had already assigned, creates
    no alarm, and pushes no status after the one of the load. *)
Lemma startAutomation_ready_timeout (env : Env) (type : option ActionType)
    (t : Z) (s : State) :
  isActive s = false ->
  reached (processedToday (loadSettingsAndState env s))
    (dailyLimit (settings (loadSettingsAndState env s))) = false ->
  findInstagramTab env = Some t ->
  t <> 0 ->
  injection env = ReadyTimeout ->
  let s' := step env (Message None (Popup (cmd_startAutomation type))) s in
  Idle s' /\
  currentTabId s' = Some t /\
  actionType s' = type /\
  alarms s' = alarms s /\
  sentTo s s' = [(t, tab_getStatus)] /\
  popupOutbox s' = popupOutbox (loadSettingsAndState env s).
Proof.
  intros Hact Hlim Hfind Hnz Hinj.
  destruct (loadSettingsAndState_frame env s)
    as (Ha & _ & _ & _ & _ & _ & _ & Hal & Hout).
  unfold step, onMessage. cbn [commandOf fst].
  unfold startAutomation, sentTo. rewrite Hact, Hlim. cbv zeta.
  prim_simpl. unfold injectContentScript, Idle.
  rewrite Hfind. cbn [falsyTabId].
  destruct (Z.eqb_spec t 0) as [E | _]; [ contradiction | ].
  rewrite Hinj. prim_simpl. rewrite Ha, Hal, Hout, skipn_own_length.
  repeat split; auto.
Qed.

Lemma startAutomation_ready_timeout_witness :
  currentTabId
    (step (mkEnv 2000 (1 # 2) true true
             [mkTab 7 (Some "https://www.instagram.com/")%string]
             ReadyTimeout true None)
       (Message None (Popup (cmd_startAutomation (Some follow))))
       (idleWith DEFAULT_SETTINGS (mkSavedState 3 1000))) = Some 7.
Proof.
  pose proof (startAutomation_ready_timeout
                (mkEnv 2000 (1 # 2) true true
                   [mkTab 7 (Some "https://www.instagram.com/")%string]
                   ReadyTimeout true None)
                (Some follow) 7
                (idleWith DEFAULT_SETTINGS (mkSavedState 3 1000))
                eq_refl eq_refl eq_refl ltac:(discriminate) eq_refl) as H.
  exact (proj1 (proj2 H)).
Defined.

(** ** Dispatching an action *)

(** X8. [executeNextAction] sends [performAction] only through all of its
    guards: if the command was sent, then the automation was active, the
    loaded daily count and the session count were below their limits, and
    the tab looked up was still on Instagram.  It goes to the automated
    tab, and the daily count is the loaded one: dispatching counts
    nothing. *)
Lemma executeNextAction_guarded (env : Env) (s : State) (m : Z * TabCommand) :
  In m (sentTo s (executeNextAction env s)) ->
  snd m = tab_performAction ->
  let l := loadSettingsAndState env s in
  isActive s = true /\
  reached (processedToday l) (dailyLimit (settings l)) = false /\
  reached (sessionProcessedCount l) (actionsPerBatch (settings l)) = false /\
  (exists tab, tabLookup env = Some tab /\ onInstagram tab = true) /\
  currentTabId s = Some (fst m) /\
  processedToday (executeNextAction env s) = processedToday l.
Proof.
  destruct (loadSettingsAndState_frame env s)
    as (Ha & Hp & Ht & _ & Hs & _ & _ & _ & Hout).
  unfold executeNextAction, sentTo. cbv zeta.
  destruct (isActive s) eqn:Hact; cbn [negb].
  2:{ prim_simpl. rewrite skipn_all_own. intros []. }
  set (l := loadSettingsAndState env s) in *.
  assert (Hstop : forall x, tabOutbox x = tabOutbox s ->
            In m (skipn (List.length (tabOutbox s))
                    (tabOutbox (sendStatusToPopup (stopAutomation x)))) ->
            snd m = tab_performAction -> False).
  { intros x Hx. unfold stopAutomation.
    destruct (negb (isActive x) && negb (isPausedForBatch x)); prim_simpl.
    - rewrite Hx, skipn_all_own. intros [].
    - destruct (currentTabId x); prim_simpl; rewrite Hx.
      + rewrite skipn_own_length. intros [<- | []]. discriminate.
      + rewrite skipn_all_own. intros []. }
  destruct (reached (processedToday l) (dailyLimit (settings l))).
  { intros Hin Hm. destruct (Hstop l Hout Hin Hm). }
  destruct (reached (sessionProcessedCount l) (actionsPerBatch (settings l))).
  { unfold scheduleBatchPause. prim_simpl. rewrite Hout, skipn_all_own.
    intros []. }
  destruct (currentTabId l) as [t | ] eqn:Hcur.
  2:{ intros Hin Hm. destruct (Hstop l Hout Hin Hm). }
  destruct (tabLookup env) as [tab | ].
  2:{ intros Hin Hm. destruct (Hstop l Hout Hin Hm). }
  destruct (onInstagram tab) eqn:Hon; cbn [negb].
  2:{ intros Hin Hm. destruct (Hstop l Hout Hin Hm). }
  destruct (tabAnswers env).
  - prim_simpl. rewrite Hout, skipn_own_length. intros [<- | []] _.
    cbn [fst]. repeat split; eauto.
  - unfold stopAutomation. prim_simpl. rewrite Ha. cbn [negb andb].
    prim_simpl. rewrite Hcur. prim_simpl. rewrite Hout, <- app_assoc.
    rewrite skipn_own_length.
    intros [<- | [<- | []]] Hm; [ | discriminate Hm ].
    cbn [fst]. repeat split; eauto.
Qed.

Lemma executeNextAction_guarded_witness :
  isActive (runningOn7 DEFAULT_SETTINGS 1 1) = true /\
  currentTabId (runningOn7 DEFAULT_SETTINGS 1 1) = Some 7.
Proof.
  pose proof (executeNextAction_guarded (envAt 2000 (1 # 2))
                (runningOn7 DEFAULT_SETTINGS 1 1) (7, tab_performAction)
                (or_introl eq_refl) eq_refl) as H.
  cbv zeta in H. destruct H as (Ha & _ & _ & _ & Ht & _).
  split; [ exact Ha | exact Ht ].
Defined.

(** X9. Conversely, an active controller below both limits whose tab is
    still on Instagram and takes the message sends exactly one
    [performAction] to it and stays as it was: still running, the same
    counts (the daily one as loaded), and no alarm created, so the next
    action waits for the outcome report. *)
Lemma executeNextAction_dispatches (env : Env) (t : Z) (tab : Tab)
    (s : State) :
  isActive s = true ->
  currentTabId s = Some t ->
  reached (processedToday (loadSettingsAndState env s))
    (dailyLimit (settings (loadSettingsAndState env s))) = false ->
  reached (sessionProcessedCount s)
    (actionsPerBatch (settings (loadSettingsAndState env s))) = false ->
  tabLookup env = Some tab ->
  onInstagram tab = true ->
  tabAnswers env = true ->
  let s' := executeNextAction env s in
  sentTo s s' = [(t, tab_performAction)] /\
  isActive s' = true /\
  isPausedForBatch s' = isPausedForBatch s /\
  sessionProcessedCount s' = sessionProcessedCount s /\
  alarms s' = alarms s.
Proof.
  intros Hact Htab Hday Hbatch Hlook Hon Hans.
  destruct (loadSettingsAndState_frame env s)
    as (Ha & Hp & Ht & _ & Hs & _ & _ & Hal & Hout).
  unfold executeNextAction, sentTo. rewrite Hact. cbn [negb]. cbv zeta.
  rewrite Hday, Hs, Hbatch, Ht, Htab, Hlook, Hon, Hans. cbn [negb].
  prim_simpl. rewrite Hout, skipn_own_length, Ha, Hact, Hp, Hs, Hal.
  repeat split.
Qed.

Lemma executeNextAction_dispatches_witness :
  sentTo (runningOn7 DEFAULT_SETTINGS 1 1)
    (executeNextAction (envAt 2000 (1 # 2)) (runningOn7 DEFAULT_SETTINGS 1 1))
  = [(7, tab_performAction)].
Proof.
  exact (proj1 (executeNextAction_dispatches (envAt 2000 (1 # 2)) 7
                  (mkTab 7 (Some "https://www.instagram.com/")%string)
                  (runningOn7 DEFAULT_SETTINGS 1 1)
                  eq_refl eq_refl eq_refl eq_refl eq_refl eq_refl eq_refl)).
Defined.

(** X10. When the tab looked up before a dispatch is gone or has left
    Instagram, the controller stops instead: it is idle, both alarms are
    cleared, the tab handle is dropped, and the only message is the stop
    sent to the old tab. *)
Lemma executeNextAction_target_lost (env : Env) (t : Z) (s : State) :
  isActive s = true ->
  currentTabId s = Some t ->
  reached (processedToday (loadSettingsAndState env s))
    (dailyLimit (settings (loadSettingsAndState env s))) = false ->
  reached (sessionProcessedCount s)
    (actionsPerBatch (settings (loadSettingsAndState env s))) = false ->
  match tabLookup env with
  | Some tab => onInstagram tab = false
  | None => True
  end ->
  let s' := executeNextAction env s in
  Idle s' /\
  currentTabId s' = None /\
  alarm PERFORM_ACTION (alarms s') = None /\
  alarm BATCH_PAUSE (alarms s') = None /\
  sentTo s s' = [(t, tab_stopAutomation)].
Proof.
  intros Hact Htab Hday Hbatch Hlost.
  destruct (loadSettingsAndState_frame env s)
    as (Ha & Hp & Ht & _ & Hs & _ & _ & Hal & Hout).
  unfold executeNextAction, sentTo. rewrite Hact. cbn [negb]. cbv zeta.
  rewrite Hday, Hs, Hbatch, Ht, Htab.
  assert (Hgoal :
    let x := sendStatusToPopup
               (stopAutomation (loadSettingsAndState env s)) in
    Idle x /\ currentTabId x = None /\
    alarm PERFORM_ACTION (alarms x) = None /\
    alarm BATCH_PAUSE (alarms x) = None /\
    skipn (List.length (tabOutbox s)) (tabOutbox x)
    = [(t, tab_stopAutomation)]).
  { unfold stopAutomation, Idle. rewrite Ha, Hact. cbn [negb andb].
    prim_simpl. rewrite Ht, Htab. prim_simpl.
    rewrite Hout, skipn_own_length. repeat split. }
  destruct (tabLookup env) as [tab | ]; [ | exact Hgoal ].
  rewrite Hlost. exact Hgoal.
Qed.

Lemma executeNextAction_target_lost_witness :
  Idle
    (executeNextAction
       (mkEnv 2000 (1 # 2) true true [] AlreadyInjected true None)
       (runningOn7 DEFAULT_SETTINGS 1 1)).
Proof.
  exact (proj1 (executeNextAction_target_lost
                  (mkEnv 2000 (1 # 2) true true [] AlreadyInjected true None)
                  7 (runningOn7 DEFAULT_SETTINGS 1 1)
                  eq_refl eq_refl eq_refl eq_refl I)).
Defined.

(** ** Across a restart of the worker *)

Lemma workerStart_idle (env : Env) (browser : State) :
  isActive (workerStart env browser) = false /\
  isPausedForBatch (workerStart env browser) = false /\
  currentTabId (workerStart env browser) = None /\
  tabOutbox (workerStart env browser) = tabOutbox browser.
Proof.
  destruct (loadSettingsAndState_frame env (initialState browser))
    as (Ha & Hp & Ht & _ & _ & _ & _ & _ & Hout).
  unfold workerStart, scheduleDailyReset. prim_simpl.
  rewrite Ha, Hp, Ht, Hout. repeat split.
Qed.

(** X11. A run does not survive a restart of the service worker.  Whatever
    the worker was doing before, once it has started again an action alarm
    or a batch-pause alarm that was still pending resumes nothing when it
    fires: the controller ends idle, with no tab, and nothing is sent to any
    tab. *)
Lemma restart_ends_run (env env' : Env) (browser : State)
    (name : AlarmName) :
  name <> DAILY_RESET ->
  let s := workerStart env browser in
  let s' := step env' (AlarmFired name) s in
  Idle s' /\ currentTabId s' = None /\ sentTo s s' = [].
Proof.
  intros Hname.
  destruct (workerStart_idle env browser) as (Ha & Hp & Ht & _).
  cbv zeta. set (s := workerStart env browser) in *.
  assert (Hf : isActive (fired name s) = false /\
               isPausedForBatch (fired name s) = false /\
               currentTabId (fired name s) = None /\
               tabOutbox (fired name s) = tabOutbox s).
  { unfold fired. destruct (alarm name (alarms s)) as [[d | p] | ];
      prim_simpl; auto. }
  destruct Hf as (Hfa & Hfp & Hft & Hfo).
  unfold step, sentTo, Idle.
  destruct name; [ | | contradiction ]; cbn [onAlarm].
  - unfold executeNextAction. rewrite Hfa. cbn [negb]. prim_simpl.
    rewrite Hfa, Hfp, Hft, Hfo, skipn_all_own. repeat split.
  - cbv zeta. prim_simpl. rewrite Hft.
    unfold stopAutomation. prim_simpl. cbn [negb andb]. prim_simpl.
    rewrite Hft. prim_simpl. rewrite Hfo, skipn_all_own.
    repeat split; exact Hft.
Qed.

Lemma restart_ends_run_witness :
  Idle
    (step (envAt 9000 (1 # 2)) (AlarmFired BATCH_PAUSE)
       (workerStart (envAt 5000 (1 # 2)) pausedTrace)).
Proof.
  exact (proj1 (restart_ends_run (envAt 5000 (1 # 2)) (envAt 9000 (1 # 2))
                  pausedTrace BATCH_PAUSE ltac:(discriminate))).
Defined.

Lemma numericFields_over_defaults (st : Settings) :
  complete st -> numericFields (spread DEFAULT_SETTINGS st) = numericFields st.
Proof.
  intros (H1 & H2 & H3 & H4 & H5 & H6). unfold numericFields.
  destruct st as [a b c d e f g h]. cbn in *.
  destruct a, b, c, d, e, f; try contradiction; reflexivity.
Qed.

(** X12. Settings round trip.  Once the settings in memory are complete, a
    [saveSettings] that reaches the storage followed by a restart of the
    worker whose load succeeds gives back the six numeric settings that were
    in memory after the save: the patch merged over the old values. *)
Lemma saveSettings_survives_restart (env env' : Env) (patch : Settings)
    (s : State) :
  complete (settings s) ->
  storeOk env = true ->
  loadOk env' = true ->
  numericFields (settings (workerStart env' (saveSettings env patch s))) =
  numericFields (spread (settings s) patch).
Proof.
  intros Hc Hstore Hload.
  unfold workerStart, scheduleDailyReset. prim_simpl.
  rewrite (loadSettingsAndState_settings env' _ Hload).
  unfold saveSettings, initialState. rewrite Hstore. prim_simpl.
  cbn [orElse].
  apply numericFields_over_defaults. now apply complete_spread.
Qed.

Lemma saveSettings_survives_restart_witness :
  numericFields
    (settings
       (workerStart (envAt 5000 (1 # 2))
          (saveSettings (envAt 3000 (1 # 2)) (withLimits (Num 20) (Num 200))
             pausedTrace))) =
  numericFields (spread (settings pausedTrace) (withLimits (Num 20) (Num 200))).
Proof.
  apply (saveSettings_survives_restart (envAt 3000 (1 # 2))
           (envAt 5000 (1 # 2)) (withLimits (Num 20) (Num 200)) pausedTrace);
    [ repeat split; discriminate | reflexivity | reflexivity ].
Defined.

(** X13. The daily count survives a restart.  After a completed-action
    report whose write reaches the storage, a worker that starts again
    while the stored state is still the one that report wrote (no later
    report, daily reset or failed load has rewritten it) and loads it has
    the incremented count if at most 24 hours have passed since the report,
    and 0 if more have. *)
Lemma daily_count_survives_restart (env env' : Env) (t : Z)
    (s later : State) :
  currentTabId s = Some t ->
  storeOk env = true ->
  loadOk env' = true ->
  instagramAutomationState (storage later)
  = instagramAutomationState
      (storage (step env (Message (Some t) (Agent actionCompleted)) s)) ->
  let s' := workerStart env' later in
  (now env' - now env <= dayMs -> processedToday s' = processedToday s + 1) /\
  (dayMs < now env' - now env -> processedToday s' = 0).
Proof.
  intros Htab Hstore Hload Hsame. cbv zeta.
  assert (Hsaved :
    instagramAutomationState
      (storage (step env (Message (Some t) (Agent actionCompleted)) s)) =
    Some (mkSavedState (processedToday s + 1) (now env))).
  { unfold step, onMessage, sameTab. rewrite Htab, Z.eqb_refl.
    cbn [negb fst reportOf onReport]. unfold saveState. rewrite Hstore.
    cbv zeta. prim_simpl.
    assert (Hkeep : forall x,
              storage (stopAutomation x) = storage x /\
              storage (scheduleBatchPause env x) = storage x /\
              storage (scheduleNextAction env None x) = storage x).
    { intros x. unfold stopAutomation, scheduleNextAction.
      destruct (negb (isActive x) && negb (isPausedForBatch x)),
        (negb (isActive x)); prim_simpl;
        destruct (currentTabId x); prim_simpl; auto. }
    destruct (reached _ _);
      [ rewrite (proj1 (Hkeep _)); reflexivity | ].
    destruct (reached _ _);
      [ rewrite (proj1 (proj2 (Hkeep _)))
      | rewrite (proj2 (proj2 (Hkeep _))) ]; reflexivity. }
  rewrite Hsaved in Hsame.
  unfold workerStart, scheduleDailyReset, loadSettingsAndState, dayMs.
  rewrite Hload. prim_simpl.
  change (storage (initialState later)) with (storage later).
  rewrite Hsame. cbn [orElse lastActionTimestamp saved_processedToday].
  destruct (Z.ltb_spec (now env) (now env' - 24 * 60 * 60 * 1000));
    prim_simpl; split; intros; try reflexivity; lia.
Qed.

Lemma daily_count_survives_restart_witness :
  processedToday
    (workerStart (envAt (2000 + 3600000) (1 # 2))
       (step (envAt 3000 (1 # 2)) (TabRemoved 7)
          (step (envAt 2000 (1 # 2))
             (Message (Some 7) (Agent actionCompleted))
             (runningOn7 DEFAULT_SETTINGS 1 5)))) = 6.
Proof.
  apply (daily_count_survives_restart (envAt 2000 (1 # 2))
           (envAt (2000 + 3600000) (1 # 2)) 7
           (runningOn7 DEFAULT_SETTINGS 1 5)
           (step (envAt 3000 (1 # 2)) (TabRemoved 7)
              (step (envAt 2000 (1 # 2))
                 (Message (Some 7) (Agent actionCompleted))
                 (runningOn7 DEFAULT_SETTINGS 1 5)))
           eq_refl eq_refl eq_refl ltac:(vm_compute; reflexivity)).
  cbn. discriminate.
Defined.

(** ** The daily limit across runs *)

(** X14. The daily limit holds across runs.  If the report that fills the
    daily limit is saved, and the stored limit is the one in memory, then
    the run stops; and a start command handled by the idle controller within
    24 hours of that report, while the storage is still as the report left
    it (no daily reset, further report or settings change in between), is
    refused: the controller stays idle, nothing is sent to a tab and no
    alarm is created. *)
Lemma daily_limit_blocks_restart (env env' : Env) (t : Z)
    (type : option ActionType) (st : Settings) (s later : State) :
  isActive s = true ->
  currentTabId s = Some t ->
  storeOk env = true ->
  loadOk env' = true ->
  instagramAutomationSettings (storage s) = Some st ->
  dailyLimit st = dailyLimit (settings s) ->
  reached (processedToday s + 1) (dailyLimit (settings s)) = true ->
  now env' - now env <= dayMs ->
  Idle later ->
  storage later
  = storage (step env (Message (Some t) (Agent actionCompleted)) s) ->
  let s1 := step env (Message (Some t) (Agent actionCompleted)) s in
  let s2 :=
    step env' (Message None (Popup (cmd_startAutomation type))) later in
  Idle s1 /\ Idle s2 /\ sentTo later s2 = [] /\ alarms s2 = alarms later.
Proof.
  intros Hact Htab Hstore Hload Hst Hlim Hreached Hage [Hal Hpl] Hsame.
  cbv zeta.
  assert (H1 : isActive
                 (step env (Message (Some t) (Agent actionCompleted)) s)
               = false /\
               isPausedForBatch
                 (step env (Message (Some t) (Agent actionCompleted)) s)
               = false /\
               storage (step env (Message (Some t) (Agent actionCompleted)) s)
               = mkStorage (Some st)
                   (Some (mkSavedState (processedToday s + 1) (now env)))).
  { unfold step, onMessage, sameTab. rewrite Htab, Z.eqb_refl.
    cbn [negb fst reportOf onReport]. unfold saveState. rewrite Hstore.
    cbv zeta. prim_simpl. rewrite Hreached.
    unfold stopAutomation. prim_simpl. rewrite Hact. cbn [negb andb].
    prim_simpl. rewrite Htab. prim_simpl. rewrite Hst. repeat split. }
  destruct H1 as (Ha1 & Hp1 & Hs1). rewrite Hs1 in Hsame.
  destruct (loadSettingsAndState_frame env' later)
    as (Ha & Hp & _ & _ & _ & _ & _ & Halarms & Hout).
  assert (Hl : reached (processedToday (loadSettingsAndState env' later))
                 (dailyLimit (settings (loadSettingsAndState env' later)))
               = true).
  { unfold loadSettingsAndState, dayMs in *. rewrite Hload, Hsame.
    cbn [instagramAutomationState instagramAutomationSettings orElse
         lastActionTimestamp saved_processedToday].
    destruct (Z.ltb_spec (now env) (now env' - 24 * 60 * 60 * 1000));
      [ lia | ].
    prim_simpl. cbn [spread dailyLimit]. rewrite Hlim.
    destruct (dailyLimit (settings s)) as [n | ];
      [ exact Hreached | discriminate Hreached ]. }
  assert (Hs2 : step env' (Message None (Popup (cmd_startAutomation type)))
                  later
                = sendStatusToPopup (loadSettingsAndState env' later)).
  { unfold step, onMessage. cbn [commandOf fst].
    unfold startAutomation. now rewrite Hal, Hl. }
  rewrite Hs2. unfold sentTo, Idle. prim_simpl.
  rewrite Ha, Hp, Halarms, Hout, skipn_all_own. repeat split; assumption.
Qed.

Lemma daily_limit_blocks_restart_witness :
  Idle
    (step (envAt 5000 (1 # 2))
       (Message None (Popup (cmd_startAutomation (Some follow))))
       (step (envAt 3000 (1 # 2)) (TabRemoved 7)
          (step (envAt 2000 (1 # 2))
             (Message (Some 7) (Agent actionCompleted))
             (runningOn7 DEFAULT_SETTINGS 3 99)))).
Proof.
  pose proof (daily_limit_blocks_restart (envAt 2000 (1 # 2))
                (envAt 5000 (1 # 2)) 7 (Some follow) DEFAULT_SETTINGS
                (runningOn7 DEFAULT_SETTINGS 3 99)
                (step (envAt 3000 (1 # 2)) (TabRemoved 7)
                   (step (envAt 2000 (1 # 2))
                      (Message (Some 7) (Agent actionCompleted))
                      (runningOn7 DEFAULT_SETTINGS 3 99)))
                eq_refl eq_refl eq_refl eq_refl eq_refl eq_refl eq_refl
                ltac:(cbn; discriminate) (conj eq_refl eq_refl)
                ltac:(vm_compute; reflexivity))
    as H.
  exact (proj1 (proj2 H)).
Defined.

(** ** Reports that end the run *)

(** X15. A completed report, a failed-action report of a critical kind and
    an error report of a critical kind end the run exactly as a blocked
    report does: handled from the automated tab while the run is active or
    paused, they leave the controller idle with the session reset, both
    alarms cleared and the tab dropped after it was told to stop; the daily
    count stays. *)
Lemma fatal_report_stops (env : Env) (t : Z) (r : Report) (s : State) :
  fatal r = true ->
  isActive s = true \/ isPausedForBatch s = true ->
  currentTabId s = Some t ->
  let s' := step env (Message (Some t) (Agent r)) s in
  Idle s' /\
  sessionProcessedCount s' = 0 /\
  processedToday s' = processedToday s /\
  alarm PERFORM_ACTION (alarms s') = None /\
  alarm BATCH_PAUSE (alarms s') = None /\
  currentTabId s' = None /\
  sentTo s s' = [(t, tab_stopAutomation)].
Proof.
  intros Hfatal Hrun Htab.
  assert (Hstop :
    let x := sendStatusToPopup (stopAutomation s) in
    Idle x /\ sessionProcessedCount x = 0 /\
    processedToday x = processedToday s /\
    alarm PERFORM_ACTION (alarms x) = None /\
    alarm BATCH_PAUSE (alarms x) = None /\
    currentTabId x = None /\
    sentTo s x = [(t, tab_stopAutomation)]).
  { unfold stopAutomation, Idle, sentTo.
    destruct (isActive s), (isPausedForBatch s); cbn [negb andb];
      try (destruct Hrun; discriminate);
      prim_simpl; rewrite Htab; prim_simpl; rewrite skipn_own_length;
      repeat split. }
  unfold step, onMessage, sameTab. rewrite Htab, Z.eqb_refl.
  cbn [negb fst reportOf].
  destruct r; try discriminate Hfatal; cbn [onReport fatal] in *.
  - fold (criticalFailure type). rewrite Hfatal. exact Hstop.
  - exact Hstop.
  - exact Hstop.
  - fold (criticalError type). rewrite Hfatal. exact Hstop.
Qed.

Lemma fatal_report_stops_witness :
  Idle
    (step (envAt 2000 (1 # 2)) (Message (Some 7) (Agent (error "clickError")))
       (runningOn7 DEFAULT_SETTINGS 1 1)).
Proof.
  exact (proj1 (fatal_report_stops (envAt 2000 (1 # 2)) 7
                  (error "clickError") (runningOn7 DEFAULT_SETTINGS 1 1)
                  eq_refl (or_introl eq_refl) eq_refl)).
Defined.

(** ** The tab during a batch pause *)

(** X16. The two tab listeners look at [isActive] only, so a paused
    controller does not notice that its tab was closed or left Instagram:
    it stays paused with the tab id and the pause alarm.  The loss shows
    when the pause alarm fires and the start message is not answered: the
    controller then stops and is idle with no tab. *)
Lemma tab_lost_during_pause (env : Env) (t : Z) (url : option string)
    (s : State) :
  PausedForBatch s ->
  currentTabId s = Some t ->
  tabAnswers env = false ->
  step env (TabRemoved t) s = s /\
  step env (TabUpdated t url) s = s /\
  Idle (step env (AlarmFired BATCH_PAUSE) s) /\
  currentTabId (step env (AlarmFired BATCH_PAUSE) s) = None.
Proof.
  intros [Ha Hp] Htab Hans.
  unfold step, onRemoved, onUpdated. rewrite Ha. cbn [andb].
  repeat split.
  - unfold fired, onAlarm.
    destruct (alarm BATCH_PAUSE (alarms s)) as [[d | p] | ];
      cbv zeta; prim_simpl; rewrite Htab, Hans; prim_simpl;
      unfold stopAutomation; prim_simpl; cbn [negb andb]; prim_simpl;
      rewrite Htab; reflexivity.
  - unfold fired, onAlarm.
    destruct (alarm BATCH_PAUSE (alarms s)) as [[d | p] | ];
      cbv zeta; prim_simpl; rewrite Htab, Hans; prim_simpl;
      unfold stopAutomation; prim_simpl; cbn [negb andb]; prim_simpl;
      rewrite Htab; reflexivity.
  - unfold fired, onAlarm.
    destruct (alarm BATCH_PAUSE (alarms s)) as [[d | p] | ];
      cbv zeta; prim_simpl; rewrite Htab, Hans; prim_simpl;
      unfold stopAutomation; prim_simpl; cbn [negb andb]; prim_simpl;
      rewrite Htab; reflexivity.
Qed.

Lemma tab_lost_during_pause_witness :
  step (mkEnv 2500 (1 # 2) true true [] AlreadyInjected false None)
    (TabRemoved 7) pausedTrace = pausedTrace.
Proof.
  exact (proj1 (tab_lost_during_pause
                  (mkEnv 2500 (1 # 2) true true [] AlreadyInjected false None)
                  7 None pausedTrace (conj eq_refl eq_refl) eq_refl
                  eq_refl)).
Defined.

(** ** The daily reset during a run *)

(** X17. The daily-reset alarm does not interrupt a run: the daily count
    becomes 0 in memory and, when the write succeeds, in the storage, while
    both flags, the session count, the tab and the pending action and
    batch-pause alarms stay as they are and nothing is sent to the tab. *)
Lemma daily_reset_keeps_run (env : Env) (s : State) :
  alarm DAILY_RESET (alarms s) = Some dailyAlarm ->
  let s' := step env (AlarmFired DAILY_RESET) s in
  processedToday s' = 0 /\
  (storeOk env = true ->
   instagramAutomationState (storage s') = Some (mkSavedState 0 (now env))) /\
  isActive s' = isActive s /\
  isPausedForBatch s' = isPausedForBatch s /\
  sessionProcessedCount s' = sessionProcessedCount s /\
  currentTabId s' = currentTabId s /\
  alarms s' = alarms s /\
  tabOutbox s' = tabOutbox s.
Proof.
  intros Hal. unfold step, fired. rewrite Hal. unfold dailyAlarm.
  cbn [onAlarm]. unfold saveState, scheduleDailyReset.
  destruct (storeOk env); cbv zeta; prim_simpl; cbn [setAlarm];
    repeat split; try discriminate;
    destruct (alarms s) as [p b d]; cbn in *; now rewrite Hal.
Qed.

Lemma daily_reset_keeps_run_witness :
  Running
    (step (envAt 9000 (1 # 2)) (AlarmFired DAILY_RESET)
       (step (envAt 2000 (1 # 2))
          (Message None (Popup (cmd_startAutomation (Some follow))))
          (workerStart (envAt 2000 (1 # 2))
             (installed (mkStorage (Some DEFAULT_SETTINGS) None) noAlarms)))).
Proof.
  pose proof (daily_reset_keeps_run (envAt 9000 (1 # 2))
                (step (envAt 2000 (1 # 2))
                   (Message None (Popup (cmd_startAutomation (Some follow))))
                   (workerStart (envAt 2000 (1 # 2))
                      (installed (mkStorage (Some DEFAULT_SETTINGS) None)
                         noAlarms)))
                eq_refl) as H.
  cbv zeta in H. destruct H as (_ & _ & Ha & Hp & _).
  split; [ rewrite Ha | rewrite Hp ]; reflexivity.
Defined.

(** ** Bookkeeping kept by every callback *)

Ltac kept_simpl :=
  unfold Kept, hasTab in *;
  cbn [isActive currentTabId actionType settings processedToday
       sessionProcessedCount currentTargets currentIndex isPausedForBatch
       alarms storage tabOutbox popupOutbox
       set_isActive set_currentTabId set_actionType set_settings
       set_processedToday set_sessionProcessedCount set_currentTargets
       set_currentIndex set_isPausedForBatch set_alarms set_storage
       set_tabOutbox set_popupOutbox
       sendStatusToPopup sendToTab alarms_clear alarms_create
       alarm setAlarm performActionAlarm batchPauseAlarm dailyResetAlarm]
    in *.

Ltac kept_solve :=
  kept_simpl;
  repeat match goal with
    | H : _ /\ _ |- _ => destruct H
    end;
  repeat split; auto; try lia; try discriminate;
  try (intros [? | ?]; discriminate);
  try (intros; discriminate).

Lemma Kept_sendStatusToPopup (s : State) :
  Kept s -> Kept (sendStatusToPopup s).
Proof. intros H. kept_solve. Qed.

Lemma Kept_set_actionType (v : option ActionType) (s : State) :
  Kept s -> Kept (set_actionType v s).
Proof. intros H. kept_solve. Qed.

Lemma Kept_set_settings (v : Settings) (s : State) :
  Kept s -> Kept (set_settings v s).
Proof. intros H. kept_solve. Qed.

Lemma Kept_set_processedToday (v : Z) (s : State) :
  Kept s -> Kept (set_processedToday v s).
Proof. intros H. kept_solve. Qed.

Lemma Kept_set_storage (v : Storage) (s : State) :
  Kept s -> Kept (set_storage v s).
Proof. intros H. kept_solve. Qed.

Lemma Kept_sendToTab (t : Z) (c : TabCommand) (s : State) :
  Kept s -> Kept (sendToTab t c s).
Proof. intros H. kept_solve. Qed.

Lemma Kept_set_sessionProcessedCount (v : Z) (s : State) :
  0 <= v -> Kept s -> Kept (set_sessionProcessedCount v s).
Proof. intros Hv H. kept_solve. Qed.

Lemma Kept_set_currentTargets (s : State) :
  Kept s -> Kept (set_currentTargets [] s).
Proof. intros H. kept_solve. Qed.

Lemma Kept_set_currentIndex (s : State) :
  Kept s -> Kept (set_currentIndex 0 s).
Proof. intros H. kept_solve. Qed.

Lemma Kept_set_isActive_false (s : State) :
  Kept s -> Kept (set_isActive false s).
Proof.
  intros H. kept_simpl. destruct H as (H1 & H2 & H3 & H4 & H5).
  repeat split; auto. intros [E | E]; [ discriminate | auto ].
Qed.

Lemma Kept_set_isPausedForBatch_false (s : State) :
  Kept s -> Kept (set_isPausedForBatch false s).
Proof.
  intros H. kept_simpl. destruct H as (H1 & H2 & H3 & H4 & H5).
  repeat split; auto. intros [E | E]; [ auto | discriminate ].
Qed.

Lemma Kept_with_tab (a p : bool) (s : State) :
  Kept s -> currentTabId s <> None ->
  Kept (set_isPausedForBatch p (set_isActive a s)).
Proof.
  intros H Ht. kept_simpl. destruct H as (H1 & H2 & H3 & H4 & H5).
  repeat split; auto.
Qed.

Lemma Kept_alarms_clear (name : AlarmName) (s : State) :
  name <> DAILY_RESET -> Kept s -> Kept (alarms_clear name s).
Proof.
  intros Hn H. destruct name; [ | | contradiction ]; kept_solve.
Qed.

Lemma Kept_alarms_create (name : AlarmName) (info : AlarmInfo) (s : State) :
  name <> DAILY_RESET -> Kept s -> Kept (alarms_create name info s).
Proof.
  intros Hn H. destruct name; [ | | contradiction ]; kept_solve.
Qed.

(** Stopping restores the bookkeeping whatever the flags and the tab
    were. *)
Lemma Kept_stopAutomation (s : State) :
  0 <= sessionProcessedCount s /\ currentTargets s = [] /\
  currentIndex s = 0 /\ alarm DAILY_RESET (alarms s) = Some dailyAlarm ->
  (isActive s = false -> isPausedForBatch s = false -> hasTab s) ->
  Kept (stopAutomation s).
Proof.
  intros (H1 & H2 & H3 & H4) H5. unfold stopAutomation.
  destruct (isActive s) eqn:Ha, (isPausedForBatch s) eqn:Hp;
    cbn [negb andb].
  4:{ unfold Kept. repeat split; auto. }
  all: cbv zeta; kept_simpl; destruct (currentTabId s); kept_simpl;
    repeat split; auto; try lia; intros [E | E]; discriminate.
Qed.

Lemma Kept_stop (s : State) : Kept s -> Kept (stopAutomation s).
Proof.
  intros (H1 & H2 & H3 & H4 & H5). apply Kept_stopAutomation; auto.
Qed.

Lemma Kept_scheduleNextAction (env : Env) (d : option jsnum) (s : State) :
  Kept s -> Kept (scheduleNextAction env d s).
Proof.
  intros H. unfold scheduleNextAction.
  destruct (negb (isActive s)); [ exact H | ].
  cbv zeta. apply Kept_sendStatusToPopup.
  apply Kept_alarms_create; [ discriminate | ].
  apply Kept_alarms_clear; [ discriminate | exact H ].
Qed.

Lemma Kept_scheduleBatchPause (env : Env) (s : State) :
  Kept s -> currentTabId s <> None -> Kept (scheduleBatchPause env s).
Proof.
  intros H Ht. unfold scheduleBatchPause. cbv zeta.
  apply Kept_sendStatusToPopup.
  apply Kept_alarms_create; [ discriminate | ].
  apply Kept_alarms_clear; [ discriminate | ].
  apply Kept_set_currentIndex, Kept_set_currentTargets.
  apply Kept_set_sessionProcessedCount; [ lia | ].
  now apply Kept_with_tab.
Qed.

Lemma Kept_saveSettings (env : Env) (st : Settings) (s : State) :
  Kept s -> Kept (saveSettings env st s).
Proof.
  intros H. unfold saveSettings. cbv zeta.
  destruct (storeOk env).
  - now apply Kept_sendStatusToPopup, Kept_set_storage, Kept_set_settings.
  - now apply Kept_set_settings.
Qed.

Lemma Kept_saveState (env : Env) (saved : SavedState) (s : State) :
  Kept s -> Kept (saveState env saved s).
Proof.
  intros H. unfold saveState.
  destruct (storeOk env); [ now apply Kept_set_storage | exact H ].
Qed.

Lemma Kept_loadSettingsAndState (env : Env) (s : State) :
  Kept s -> Kept (loadSettingsAndState env s).
Proof.
  intros H. unfold loadSettingsAndState. apply Kept_sendStatusToPopup.
  destruct (loadOk env); cbv zeta.
  - destruct (lastActionTimestamp _ <? _);
      now apply Kept_set_processedToday, Kept_set_settings.
  - apply Kept_saveState, Kept_saveSettings.
    now apply Kept_set_processedToday, Kept_set_settings.
Qed.

Lemma Kept_set_currentTabId_idle (v : option Z) (s : State) :
  Kept s -> isActive s = false -> isPausedForBatch s = false ->
  Kept (set_currentTabId v s).
Proof.
  intros H Ha Hp. kept_simpl. destruct H as (H1 & H2 & H3 & H4 & H5).
  rewrite Ha, Hp. repeat split; auto. intros [E | E]; discriminate.
Qed.

Lemma Kept_set_isActive_true (s : State) :
  Kept s -> currentTabId s <> None -> Kept (set_isActive true s).
Proof.
  intros H Ht. kept_simpl. destruct H as (H1 & H2 & H3 & H4 & H5).
  repeat split; auto.
Qed.

Lemma Kept_startAutomation (env : Env) (type : option ActionType)
    (s : State) :
  Kept s -> Kept (startAutomation env type s).
Proof.
  intros H. unfold startAutomation.
  destruct (isActive s) eqn:Hact; [ now apply Kept_sendStatusToPopup | ].
  pose proof (Kept_loadSettingsAndState env s H) as Hl.
  destruct (loadSettingsAndState_frame env s) as (Ha & _).
  rewrite Hact in Ha.
  set (l := loadSettingsAndState env s) in *. cbv zeta.
  destruct (reached _ _); [ now apply Kept_sendStatusToPopup | ].
  match goal with
  | |- Kept (if falsyTabId (currentTabId ?x) then _ else _) =>
      assert (Hx : Kept x);
      [ apply Kept_set_currentTabId_idle;
        [ apply Kept_set_isPausedForBatch_false, Kept_set_currentIndex,
            Kept_set_currentTargets;
          apply Kept_set_sessionProcessedCount; [ lia | ];
          now apply Kept_set_actionType
        | exact Ha
        | reflexivity ]
      | ];
      assert (Hidle : isActive x = false /\ isPausedForBatch x = false)
        by (split; [ exact Ha | reflexivity ]);
      assert (Htab : currentTabId x = findInstagramTab env) by reflexivity;
      set (x5 := x) in *
  end.
  destruct Hidle as (Ha5 & Hp5).
  destruct (falsyTabId (currentTabId x5)).
  { now apply Kept_sendStatusToPopup, Kept_set_actionType,
      Kept_set_isActive_false. }
  unfold injectContentScript. rewrite Htab.
  destruct (findInstagramTab env) as [t | ] eqn:Hfind.
  - assert (H6 : Kept (sendToTab t tab_getStatus x5))
      by now apply Kept_sendToTab.
    assert (Ht6 : currentTabId (sendToTab t tab_getStatus x5) <> None)
      by (prim_simpl; rewrite Htab; discriminate).
    set (x6 := sendToTab t tab_getStatus x5) in *.
    destruct (injection env).
    + assert (H7 : Kept (set_isActive true x6))
        by now apply Kept_set_isActive_true.
      cbv zeta. prim_simpl.
      destruct (currentTabId x6);
        destruct (tabAnswers env);
        first [ apply Kept_scheduleNextAction | apply Kept_stop ];
        try apply Kept_sendToTab; now apply Kept_sendStatusToPopup.
    + assert (H7 : Kept (set_isActive true x6))
        by now apply Kept_set_isActive_true.
      cbv zeta. prim_simpl.
      destruct (currentTabId x6);
        destruct (tabAnswers env);
        first [ apply Kept_scheduleNextAction | apply Kept_stop ];
        try apply Kept_sendToTab; now apply Kept_sendStatusToPopup.
    + cbv zeta. apply Kept_sendStatusToPopup.
      apply Kept_set_currentTabId_idle; [ | reflexivity | exact Hp5 ].
      now apply Kept_set_actionType, Kept_set_isActive_false.
    + exact H6.
  - cbv zeta. apply Kept_sendStatusToPopup.
    apply Kept_set_currentTabId_idle; [ | reflexivity | exact Hp5 ].
    now apply Kept_set_actionType, Kept_set_isActive_false.
Qed.

Lemma Kept_executeNextAction (env : Env) (s : State) :
  Kept s -> Kept (executeNextAction env s).
Proof.
  intros H. unfold executeNextAction.
  destruct (isActive s) eqn:Hact; cbn [negb];
    [ | now apply Kept_sendStatusToPopup ].
  pose proof (Kept_loadSettingsAndState env s H) as Hl.
  destruct (loadSettingsAndState_frame env s) as (Ha & _ & Ht & _).
  assert (Htab : currentTabId (loadSettingsAndState env s) <> None).
  { rewrite Ht. destruct H as (_ & _ & _ & _ & H5). apply H5. now left. }
  set (l := loadSettingsAndState env s) in *. cbv zeta.
  destruct (reached _ _);
    [ now apply Kept_sendStatusToPopup, Kept_stop | ].
  destruct (reached _ _); [ now apply Kept_scheduleBatchPause | ].
  destruct (currentTabId l); [ | now apply Kept_sendStatusToPopup, Kept_stop ].
  destruct (tabLookup env); [ | now apply Kept_sendStatusToPopup, Kept_stop ].
  destruct (negb (onInstagram _));
    [ now apply Kept_sendStatusToPopup, Kept_stop | ].
  destruct (tabAnswers env).
  - now apply Kept_sendStatusToPopup, Kept_sendToTab.
  - apply Kept_sendStatusToPopup, Kept_stop.
    now apply Kept_sendStatusToPopup, Kept_sendToTab.
Qed.

Lemma Kept_onReport (env : Env) (r : Report) (s : State) :
  Kept s -> currentTabId s <> None -> Kept (onReport env r s).
Proof.
  intros H Ht. destruct r; cbn [onReport]; cbv zeta; try exact H.
  - destruct (isActive s); [ now apply Kept_stop | exact H ].
  - match goal with
    | |- Kept (if reached _ (dailyLimit (settings ?x)) then _ else _) =>
        assert (Hx : Kept x /\ currentTabId x <> None)
    end.
    { split.
      - apply Kept_sendStatusToPopup, Kept_saveState,
          Kept_set_processedToday.
        apply Kept_set_sessionProcessedCount; [ | exact H ].
        destruct H as (H1 & _). lia.
      - unfold saveState. destruct (storeOk env); exact Ht. }
    destruct Hx as (Hx & Htx).
    destruct (reached _ _); [ now apply Kept_stop | ].
    destruct (reached _ _);
      [ now apply Kept_scheduleBatchPause | now apply Kept_scheduleNextAction ].
  - apply Kept_sendStatusToPopup.
    destruct (_ || _)%bool;
      [ now apply Kept_stop | now apply Kept_scheduleNextAction ].
  - now apply Kept_sendStatusToPopup, Kept_stop.
  - now apply Kept_sendStatusToPopup, Kept_scheduleNextAction.
  - now apply Kept_sendStatusToPopup, Kept_stop.
  - apply Kept_sendStatusToPopup.
    destruct (_ || _)%bool; [ now apply Kept_stop | exact H ].
Qed.

Lemma Kept_step (env : Env) (e : Event) (s : State) :
  Kept s -> Kept (step env e s).
Proof.
  intros H.
  destruct e as [sender request | name | tabId url | tabId | ]; cbn [step].
  - unfold onMessage. destruct sender as [id | ].
    + destruct (sameTab id (currentTabId s)) eqn:Hsame; cbn [negb fst];
        [ | exact H ].
      apply Kept_onReport; [ exact H | ].
      unfold sameTab in Hsame. destruct (currentTabId s); discriminate.
    + destruct (commandOf request); cbn [fst]; try exact H.
      * now apply Kept_startAutomation.
      * now apply Kept_stop.
      * now apply Kept_saveSettings.
  - assert (Hf : Kept (fired name s)).
    { unfold fired. destruct (alarm name (alarms s)) as [[d | p] | ] eqn:Hal;
        try exact H.
      apply Kept_alarms_clear; [ | exact H ].
      intros ->. destruct H as (_ & _ & _ & H4 & _).
      rewrite H4 in Hal. discriminate. }
    destruct name; cbn [onAlarm]; cbv zeta.
    + now apply Kept_executeNextAction.
    + destruct (currentTabId (fired BATCH_PAUSE s)) as [t | ] eqn:Ht.
      * assert (Hx : Kept (set_isActive true
                             (set_isPausedForBatch false
                                (fired BATCH_PAUSE s)))).
        { apply Kept_set_isActive_true;
            [ now apply Kept_set_isPausedForBatch_false | ].
          prim_simpl. rewrite Ht. discriminate. }
        prim_simpl. rewrite Ht.
        destruct (tabAnswers env);
          [ apply Kept_scheduleNextAction | apply Kept_stop ];
          now apply Kept_sendStatusToPopup, Kept_sendToTab.
      * prim_simpl. rewrite Ht. apply Kept_sendStatusToPopup.
        destruct Hf as (H1 & H2 & H3 & H4 & _).
        apply Kept_stopAutomation; [ repeat split; assumption | ].
        intros E. discriminate E.
    + unfold scheduleDailyReset.
      assert (Hx : Kept (sendStatusToPopup
                           (saveState env (mkSavedState 0 (now env))
                              (set_processedToday 0
                                 (fired DAILY_RESET s)))))
        by now apply Kept_sendStatusToPopup, Kept_saveState,
             Kept_set_processedToday.
      revert Hx. generalize (sendStatusToPopup
                               (saveState env (mkSavedState 0 (now env))
                                  (set_processedToday 0
                                     (fired DAILY_RESET s)))).
      intros x Hx. kept_simpl. destruct Hx as (H1 & H2 & H3 & H4 & H5).
      repeat split; auto.
  - unfold onUpdated.
    destruct (isActive s && sameTab tabId (currentTabId s)); [ | exact H ].
    destruct url as [u | ]; [ | exact H ].
    destruct (negb (String.eqb u "") && negb (includes u "instagram.com"));
      [ now apply Kept_stop | exact H ].
  - unfold onRemoved.
    destruct (isActive s && sameTab tabId (currentTabId s));
      [ now apply Kept_stop | exact H ].
  - clear H. unfold workerStart.
    destruct (loadSettingsAndState_frame env (initialState s))
      as (Ha & Hp & Ht & _ & Hs & Hc & Hi & _).
    unfold scheduleDailyReset.
    generalize dependent (loadSettingsAndState env (initialState s)).
    intros x Ha Hp Ht Hs Hc Hi. kept_simpl.
    rewrite Ha, Hp, Hs, Hc, Hi. cbn.
    repeat split; try reflexivity. intros [E | E]; discriminate.
Qed.

Lemma Kept_reachable (s : State) : reachable s -> Kept s.
Proof.
  induction 1 as [env stored pending | env e s Hr IH].
  - change (workerStart env (installed stored pending))
      with (step env WorkerStarted (installed stored pending)).
    unfold step, workerStart.
    destruct (loadSettingsAndState_frame env
                (initialState (installed stored pending)))
      as (Ha & Hp & Ht & _ & Hs & Hc & Hi & _).
    unfold scheduleDailyReset.
    generalize dependent (loadSettingsAndState env
                            (initialState (installed stored pending))).
    intros x Ha Hp Ht Hs Hc Hi. kept_simpl.
    rewrite Ha, Hp, Hs, Hc, Hi. cbn.
    repeat split; try reflexivity. intros [E | E]; discriminate.
  - now apply Kept_step.
Qed.

(** ** What holds in every reachable state *)

Lemma pausedTrace_reachable : reachable pausedTrace.
Proof.
  exact (reachable_step _ _ _
           (reachable_step _ _ _ (reachable_start _ _ _))).
Qed.

(** X18. background.js never fills [currentTargets] and never moves
    [currentIndex]: whatever the callbacks that ran, the snapshot
    [getStatus] builds reports no target and index 0, and the session count
    is never negative. *)
Theorem targets_never_tracked (s : State) :
  reachable s ->
  currentTargets s = [] /\
  st_currentTargetCount (getStatus s) = 0%nat /\
  st_currentIndex (getStatus s) = 0 /\
  0 <= st_sessionProcessedCount (getStatus s).
Proof.
  intros H. destruct (Kept_reachable s H) as (H1 & H2 & H3 & _).
  unfold getStatus. cbn [st_currentTargetCount st_currentIndex
                         st_sessionProcessedCount].
  rewrite H2, H3. repeat split; auto.
Qed.

Lemma targets_never_tracked_witness :
  currentTargets pausedTrace = [] /\
  st_currentTargetCount (getStatus pausedTrace) = 0%nat /\
  st_currentIndex (getStatus pausedTrace) = 0 /\
  0 <= st_sessionProcessedCount (getStatus pausedTrace).
Proof.
  exact (targets_never_tracked pausedTrace pausedTrace_reachable).
Defined.

(** X19. Once the worker has started, the periodic 24-hour DAILY_RESET
    alarm is pending in every state: no callback clears it (stopAutomation
    clears the other two only) and its own firing leaves it in place. *)
Theorem daily_reset_always_pending (s : State) :
  reachable s ->
  alarm DAILY_RESET (alarms s) = Some (periodInMinutes (Num (24 * 60))).
Proof.
  intros H. destruct (Kept_reachable s H) as (_ & _ & _ & H4 & _).
  exact H4.
Qed.

Lemma daily_reset_always_pending_witness :
  alarm DAILY_RESET (alarms pausedTrace)
  = Some (periodInMinutes (Num (24 * 60))).
Proof.
  exact (daily_reset_always_pending pausedTrace pausedTrace_reachable).
Defined.

(** X20. A run always has its tab: in every reachable state where the
    controller is active or in a batch pause, [currentTabId] holds a tab
    id. *)
Theorem run_has_tab (s : State) :
  reachable s ->
  isActive s = true \/ isPausedForBatch s = true ->
  exists t : Z, currentTabId s = Some t.
Proof.
  intros H Hrun. destruct (Kept_reachable s H) as (_ & _ & _ & _ & H5).
  specialize (H5 Hrun). destruct (currentTabId s) as [t | ].
  - now exists t.
  - now contradiction H5.
Qed.

Lemma run_has_tab_witness : exists t : Z, currentTabId pausedTrace = Some t.
Proof.
  apply (run_has_tab pausedTrace pausedTrace_reachable).
  right. reflexivity.
Defined.

(** ** The popup and the controller *)

Lemma Qle_bool_Z (a b : Z) : Qle_bool (inject_Z a) (inject_Z b) = (a <=? b).
Proof.
  unfold Qle_bool, inject_Z. cbn. now rewrite !Z.mul_1_r.
Qed.

Lemma JSge_Z (a b : Z) : JS.ge (JS.ofZ a) (JS.ofZ b) = (b <=? a).
Proof. apply Qle_bool_Z. Qed.

Lemma JSlt_Z (a b : Z) : JSlt (JS.ofZ a) (JS.ofZ b) = (a <? b).
Proof.
  unfold JSlt, JS.ofZ. rewrite Qle_bool_Z. now rewrite Z.ltb_antisym.
Qed.

(** [parseInt(text) || d] is a whole number that is not 0: the one parsed,
    or the fallback. *)
Lemma orNum_parseInt (value : option Z) (d : Z) :
  d <> 0 ->
  exists z : Z,
    orNum (parseInt value) (JS.ofZ d) = JS.ofZ z /\ z <> 0 /\
    (value = Some z \/ (z = d /\ (value = None \/ value = Some 0))).
Proof.
  intros Hd. destruct value as [z | ]; cbn [parseInt orNum JS.ofZ].
  - destruct (Qeq_bool (inject_Z z) 0) eqn:E.
    + exists d. repeat split; auto. right. split; auto. right.
      apply Qeq_bool_iff in E. unfold Qeq in E. cbn in E. f_equal. lia.
    + exists z. repeat split; auto. intros ->. discriminate E.
  - exists d. repeat split; auto.
Qed.

(** What passes [validateSettings], for whole numbers. *)
Lemma validateSettings_bounds (st : Settings) (lo hi b l : Z) :
  intervalMin st = Some (JS.ofZ lo) -> intervalMax st = Some (JS.ofZ hi) ->
  actionsPerBatch st = Some (JS.ofZ b) -> dailyLimit st = Some (JS.ofZ l) ->
  validateSettings st = true ->
  2 <= lo < hi /\ b <= 50 /\ l <= 500 /\
  JS.ge (num (pauseBetweenBatchesMin st)) (num (pauseBetweenBatchesMax st))
  = false.
Proof.
  intros Hlo Hhi Hb Hl. unfold validateSettings, JSgt.
  rewrite Hlo, Hhi, Hb, Hl. cbn [num JS.isNaN JS.ofZ orb].
  change (Num (inject_Z ?z)) with (JS.ofZ z).
  change (Num 2) with (JS.ofZ 2). change (Num 50) with (JS.ofZ 50).
  change (Num 500) with (JS.ofZ 500).
  rewrite JSge_Z, !JSlt_Z.
  destruct (hi <=? lo) eqn:E1; [ discriminate | ].
  destruct (JS.ge _ _) eqn:E2; [ discriminate | ].
  destruct (lo <? 2) eqn:E3; [ discriminate | ].
  destruct (50 <? b) eqn:E4; [ discriminate | ].
  destruct (500 <? l) eqn:E5; [ discriminate | ].
  intros _. repeat split; lia.
Qed.

Lemma drawn_between (rnd : Q) (lo hi : Z) :
  (0 <= rnd)%Q -> (rnd < 1)%Q -> lo <= hi ->
  lo <= drawn rnd (inject_Z lo) (inject_Z hi) <= hi.
Proof.
  intros H0 H1 Hle.
  destruct (getRandomInt_within rnd (inject_Z lo) (inject_Z hi) H0 H1)
    as [Hin _].
  rewrite Qceiling_Z, Qfloor_Z in Hin. auto.
Qed.

(** X21. Settings that reach the controller from the popup's form pace the
    run as the form promises.  If [handleSettingsChange] sends a
    [saveSettings] message, then once the controller has handled it the
    interval bounds in memory are whole numbers with 2 <= min < max, the
    batch size is a whole number other than 0 and at most 50, the daily limit
    one other than 0 and at most 500, and the delay [scheduleNextAction] draws
    from them is a whole number of seconds between min and max. *)
Theorem popup_settings_pace (env env' : Env) (isLoading : bool)
    (el : Elements) (p : Settings) (s : State) :
  In (cmd_saveSettings p) (handleSettingsChange isLoading el) ->
  (0 <= random env')%Q -> (random env' < 1)%Q ->
  exists lo hi b l d : Z,
    let st := settings (step env (Message None (Popup (cmd_saveSettings p))) s)
    in
    intervalMin st = Some (JS.ofZ lo) /\ intervalMax st = Some (JS.ofZ hi) /\
    actionsPerBatch st = Some (JS.ofZ b) /\ dailyLimit st = Some (JS.ofZ l) /\
    2 <= lo < hi /\ b <> 0 /\ b <= 50 /\ l <> 0 /\ l <= 500 /\
    JS.is_int (delaySeconds env' None st) d /\ lo <= d <= hi.
Proof.
  intros Hin H0 H1. unfold handleSettingsChange in Hin.
  destruct isLoading; [ contradiction | ].
  destruct (validateSettings (newSettings el)) eqn:Hv; cbn [negb] in Hin;
    [ | contradiction ].
  destruct Hin as [Hp | []]. injection Hp as <-.
  destruct (orNum_parseInt (intervalMin_value el) 5 ltac:(lia))
    as (lo & Elo & _ & _).
  destruct (orNum_parseInt (intervalMax_value el) 10 ltac:(lia))
    as (hi & Ehi & _ & _).
  destruct (orNum_parseInt (actionsPerBatch_value el) 10 ltac:(lia))
    as (b & Eb & Nb & _).
  destruct (orNum_parseInt (dailyLimit_value el) 100 ltac:(lia))
    as (l & El & Nl & _).
  assert (Flo : intervalMin (newSettings el) = Some (JS.ofZ lo))
    by (cbn [newSettings intervalMin]; now rewrite <- Elo).
  assert (Fhi : intervalMax (newSettings el) = Some (JS.ofZ hi))
    by (cbn [newSettings intervalMax]; now rewrite <- Ehi).
  assert (Fb : actionsPerBatch (newSettings el) = Some (JS.ofZ b))
    by (cbn [newSettings actionsPerBatch]; now rewrite <- Eb).
  assert (Fl : dailyLimit (newSettings el) = Some (JS.ofZ l))
    by (cbn [newSettings dailyLimit]; now rewrite <- El).
  destruct (validateSettings_bounds _ lo hi b l Flo Fhi Fb Fl Hv)
    as (Hlohi & Hb & Hl & _).
  exists lo, hi, b, l, (drawn (random env') (inject_Z lo) (inject_Z hi)).
  cbv zeta.
  assert (Hst : forall f : Settings -> option jsnum,
             (forall a c, f (spread a c) = spreadField (f a) (f c)) ->
             forall v, f (newSettings el) = Some v ->
             f (settings
                  (step env
                     (Message None (Popup (cmd_saveSettings (newSettings el))))
                     s)) = Some v).
  { intros f Hf v Hfv. cbn [step onMessage commandOf fst].
    unfold saveSettings. cbv zeta.
    destruct (storeOk env); prim_simpl; rewrite Hf, Hfv; reflexivity. }
  rewrite (Hst intervalMin ltac:(reflexivity) _ Flo).
  rewrite (Hst intervalMax ltac:(reflexivity) _ Fhi).
  rewrite (Hst actionsPerBatch ltac:(reflexivity) _ Fb).
  rewrite (Hst dailyLimit ltac:(reflexivity) _ Fl).
  repeat split; try lia; try reflexivity.
  - unfold delaySeconds.
    rewrite (Hst intervalMin ltac:(reflexivity) _ Flo).
    rewrite (Hst intervalMax ltac:(reflexivity) _ Fhi).
    apply getRandomInt_drawn.
  - apply drawn_between; auto; lia.
  - apply drawn_between; auto; lia.
Qed.

Lemma popup_settings_pace_witness :
  exists lo hi b l d : Z,
    let st :=
      settings
        (step (envAt 2000 (1 # 2))
           (Message None
              (Popup
                 (cmd_saveSettings
                    (newSettings
                       (mkElements (Some 3) (Some 8) None (Some 0) None
                          (Some 20) true)))))
           pausedTrace) in
    intervalMin st = Some (JS.ofZ lo) /\ intervalMax st = Some (JS.ofZ hi) /\
    actionsPerBatch st = Some (JS.ofZ b) /\ dailyLimit st = Some (JS.ofZ l) /\
    2 <= lo < hi /\ b <> 0 /\ b <= 50 /\ l <> 0 /\ l <= 500 /\
    JS.is_int (delaySeconds (envAt 2000 (1 # 2)) None st) d /\ lo <= d <= hi.
Proof.
  apply (popup_settings_pace (envAt 2000 (1 # 2)) (envAt 2000 (1 # 2)) false
           (mkElements (Some 3) (Some 8) None (Some 0) None (Some 20) true)).
  - left. reflexivity.
  - unfold Qle. cbn. lia.
  - unfold Qlt. cbn. lia.
Defined.

(** X23. What the popup shows of a snapshot of the controller, whatever
    the two run flags are.  The headline reads Idle exactly when neither
    flag is set, Paused exactly when [isPausedForBatch] is set, and Running
    exactly when [isActive] alone is set.  Under the headline Paused the
    detail line is the controller's ['Idle'] text when [isActive] is clear,
    as it is in a batch pause, and the batch-break text when both flags are
    set.  Start can be clicked exactly when neither flag is set and the
    popup is not loading, Stop exactly when a flag is set and the popup is
    not loading. *)
Theorem popup_shows_run_state (s : State) (isLoading : bool) :
  let d := updateStatusDisplay isLoading (getStatus s) in
  (statusText_text d = "Idle"%string <-> Idle s) /\
  (statusText_text d = "Running"%string <-> Running s) /\
  (statusText_text d = "Paused"%string <-> isPausedForBatch s = true) /\
  (PausedForBatch s -> statusDetails_text d = Text_Idle) /\
  (isActive s = true /\ isPausedForBatch s = true ->
   statusDetails_text d
   = Text_PausedForBatchBreak (sessionProcessedCount s)
       (actionsPerBatch (settings s))) /\
  (startBtn_disabled d = false <-> Idle s /\ isLoading = false) /\
  (stopBtn_disabled d = false <-> ~ Idle s /\ isLoading = false).
Proof.
  cbv zeta.
  unfold updateStatusDisplay, getStatus, Idle, Running, PausedForBatch.
  cbn [st_isActive st_isPausedForBatch statusText statusDot_class
       statusText_text statusDetails_text startBtn_disabled stopBtn_disabled].
  destruct (isActive s), (isPausedForBatch s), isLoading; cbn;
    repeat split; try discriminate; try reflexivity;
    try (intros [? ?]; discriminate); try (intros [? ?]; congruence);
    try (intros ? [? ?]; discriminate); intuition congruence.
Qed.

(** ** The content script *)

Ltac script_simpl :=
  cbn [ContentScript.isAutomationRunning ContentScript.automationType
       ContentScript.processedUsernames ContentScript.targetsFound
       ContentScript.targetIndex ContentScript.observer ContentScript.sent
       ContentScript.set_processedUsernames ContentScript.set_targetsFound
       ContentScript.set_targetIndex ContentScript.set_observer
       ContentScript.reportStatus ContentScript.sendFailed
       ContentScript.stopAutomation fst snd] in *.

Section Grows.

Variable P : Report -> Prop.

Lemma grows_same (c c' : ContentScript.Script) :
  ContentScript.sent c' = ContentScript.sent c -> grows P c c'.
Proof.
  intros H. exists []. rewrite H, app_nil_r.
  split; [ reflexivity | constructor ].
Qed.

Lemma grows_trans (a b c : ContentScript.Script) :
  grows P a b -> grows P b c -> grows P a c.
Proof.
  intros (x & Hx & Px) (y & Hy & Py). exists (x ++ y).
  rewrite Hy, Hx, app_assoc. split; [ reflexivity | ].
  apply Forall_app. now split.
Qed.

Lemma grows_report (r : Report) (c c' : ContentScript.Script) :
  P r -> grows P c c' -> grows P c (ContentScript.reportStatus r c').
Proof.
  intros Hr H. apply (grows_trans _ c'); [ exact H | ].
  exists [r]. split; [ reflexivity | ]. now constructor.
Qed.

Lemma grows_stop (c c' : ContentScript.Script) :
  P stopped -> grows P c c' -> grows P c (ContentScript.stopAutomation c').
Proof.
  intros Hr (x & Hx & Px). exists (x ++ [stopped]). script_simpl.
  rewrite Hx, app_assoc. split; [ reflexivity | ].
  apply Forall_app. split; [ exact Px | now constructor ].
Qed.

Hypothesis P_userSkipped : P userSkipped.
Hypothesis P_domParsingError : P (error "domParsingError").

Lemma grows_scanItem (acc : ContentScript.Script * list ContentScript.Target)
    (it : ContentScript.ListItem) :
  grows P (fst acc) (fst (ContentScript.scanItem acc it)).
Proof.
  destruct acc as [c newTargets]. unfold ContentScript.scanItem.
  destruct (ContentScript.readThrows it).
  { apply grows_report; [ assumption | now apply grows_same ]. }
  destruct (ContentScript.usernameRead it) as [u | ];
    [ | now apply grows_same ].
  destruct (ContentScript.has u _); [ now apply grows_same | ].
  destruct (ContentScript.actionButton it) as [[b text] | ].
  - destruct (ContentScript.shouldTarget _ _);
      [ destruct (negb _) | ]; now apply grows_same.
  - apply grows_report; [ assumption | now apply grows_same ].
Qed.

Lemma grows_scan (l : list ContentScript.ListItem)
    (acc : ContentScript.Script * list ContentScript.Target) :
  grows P (fst acc) (fst (fold_left ContentScript.scanItem l acc)).
Proof.
  revert acc. induction l as [ | it l IH]; intros acc; cbn [fold_left].
  - now apply grows_same.
  - apply (grows_trans _ (fst (ContentScript.scanItem acc it)));
      [ apply grows_scanItem | apply IH ].
Qed.

Lemma grows_findAllTargets (l : list ContentScript.ListItem)
    (c : ContentScript.Script) :
  grows P c (ContentScript.findAllTargets l c).
Proof.
  unfold ContentScript.findAllTargets.
  destruct (negb _); [ now apply grows_same | ].
  pose proof (grows_scan l (c, [])) as H.
  destruct (fold_left ContentScript.scanItem l (c, [])) as [c' newTargets].
  apply (grows_trans _ c'); [ exact H | now apply grows_same ].
Qed.

Hypothesis P_stopped : P stopped.
Hypothesis P_other : P report_other.
Hypothesis P_running : P running.
Hypothesis P_clickError : P (error "clickError").
Hypothesis P_actionBlocked : P actionBlocked.
Hypothesis P_actionCompleted : P actionCompleted.
Hypothesis P_completed : P completed.
Hypothesis P_targetsFound : P targetsFound.

Lemma grows_startAutomation (containerFound : bool)
    (l : list ContentScript.ListItem) (type : option ActionType)
    (c : ContentScript.Script) :
  grows P c (ContentScript.startAutomation containerFound l type c).
Proof.
  unfold ContentScript.startAutomation.
  destruct (ContentScript.isAutomationRunning c).
  { apply grows_report; [ assumption | now apply grows_same ]. }
  cbv zeta. apply grows_report; [ assumption | ].
  match goal with
  | |- grows P c (ContentScript.findAllTargets l ?x) =>
      apply (grows_trans _ x); [ | apply grows_findAllTargets ]
  end.
  destruct containerFound.
  - now apply grows_same.
  - match goal with
    | |- grows P c (ContentScript.findAllTargets l ?x) =>
        apply (grows_trans _ x);
        [ now apply grows_same | apply grows_findAllTargets ]
    end.
Qed.

Lemma grows_attempt (page : ContentScript.Page)
    (target : ContentScript.Target) (c : ContentScript.Script) :
  grows P c (fst (ContentScript.attempt page target c)).
Proof.
  unfold ContentScript.attempt. cbv zeta.
  destruct (negb (ContentScript.isCorrectButton _ _)).
  { cbn [fst]. apply grows_report; [ assumption | now apply grows_same ]. }
  destruct (ContentScript.has _ _); [ now apply grows_same | ].
  destruct (ContentScript.clickThrows page).
  { cbn [fst]. apply (grows_trans _ (ContentScript.reportStatus
                                       (error "clickError") c));
      [ apply grows_report; [ assumption | now apply grows_same ]
      | now apply grows_same ]. }
  match goal with
  | |- context [if ?g && _ && _ then _ else _] => set (confirming := g)
  end.
  match goal with
  | |- context [ContentScript.reportStatus (error "clickError") ?x] =>
      set (c1 := x) in *
  end.
  assert (H1 : grows P c c1) by now apply grows_same.
  destruct (confirming && ContentScript.confirmButton page
            && ContentScript.confirmThrows page).
  { cbn [fst]. apply (grows_trans _ (ContentScript.reportStatus
                                       (error "clickError") c1));
      [ apply grows_report; assumption | now apply grows_same ]. }
  match goal with
  | |- context [ContentScript.reportStatus actionBlocked ?x] =>
      assert (H2 : grows P c x)
        by (destruct (confirming && negb (ContentScript.confirmButton page));
            [ apply grows_report; assumption | exact H1 ]);
      generalize dependent x; intros c2 H2
  end.
  destruct (ContentScript.actionBlockedShown page); cbn [fst].
  - apply grows_stop; [ assumption | ]. now apply grows_report.
  - apply (grows_trans _ (ContentScript.reportStatus actionCompleted c2));
      [ now apply grows_report | now apply grows_same ].
Qed.

Lemma grows_performNextAction (pages : list ContentScript.Page)
    (c : ContentScript.Script) :
  grows P c (ContentScript.performNextAction pages c).
Proof.
  revert c. induction pages as [ | page later IH]; intros c;
    cbn [ContentScript.performNextAction].
  { now apply grows_same. }
  destruct (_ || _).
  { apply grows_report; [ assumption | now apply grows_same ]. }
  assert (Hact : forall c' : ContentScript.Script,
             grows P c c' ->
             (List.length (ContentScript.targetsFound c')
              <=? ContentScript.targetIndex c')%nat = false ->
             grows P c
               match
                 nth_error (ContentScript.targetsFound c')
                   (ContentScript.targetIndex c')
               with
               | Some target =>
                   let (c0, again) := ContentScript.attempt page target c' in
                   if again then ContentScript.performNextAction later c0
                   else c0
               | None =>
                   ContentScript.stopAutomation
                     (ContentScript.reportStatus (error "noTargetAtIndex") c')
               end).
  { intros c' Hc' Hlen.
    destruct (nth_error _ _) as [target | ] eqn:Hnth.
    - pose proof (grows_attempt page target c') as Ha.
      destruct (ContentScript.attempt page target c') as [c0 again].
      cbn [fst] in Ha.
      assert (H0 : grows P c c0) by now apply (grows_trans _ c').
      destruct again; [ | exact H0 ].
      apply (grows_trans _ c0); [ exact H0 | apply IH ].
    - apply nth_error_None in Hnth. apply Nat.leb_gt in Hlen. lia. }
  cbv zeta.
  destruct (List.length (ContentScript.targetsFound c)
            <=? ContentScript.targetIndex c)%nat eqn:Hlen.
  - pose proof (grows_findAllTargets (ContentScript.afterScroll page) c)
      as Hf.
    set (c1 := ContentScript.findAllTargets (ContentScript.afterScroll page)
                 c) in *.
    destruct (List.length (ContentScript.targetsFound c1)
              <=? ContentScript.targetIndex c1)%nat eqn:Hlen'.
    + apply grows_stop; [ assumption | ]. now apply grows_report.
    + now apply Hact.
  - apply Hact; [ now apply grows_same | exact Hlen ].
Qed.

Lemma grows_step (v : ContentScript.View) (e : ContentScript.Event)
    (c : ContentScript.Script) :
  grows P c (ContentScript.step v e c).
Proof.
  destruct e as [[[ | type | | ] | | ] | | ]; cbn [ContentScript.step].
  - now apply grows_same.
  - apply grows_startAutomation.
  - apply grows_stop; [ assumption | now apply grows_same ].
  - cbn [ContentScript.onMessage].
    destruct (ContentScript.isAutomationRunning c);
      [ apply grows_performNextAction | now apply grows_same ].
  - apply grows_report; [ assumption | apply grows_findAllTargets ].
  - now apply grows_same.
  - unfold ContentScript.onMutation.
    destruct (ContentScript.observer c); [ | now apply grows_same ].
    destruct (ContentScript.isAutomationRunning c);
      [ apply grows_findAllTargets | now apply grows_same ].
  - now apply grows_same.
Qed.

Hypothesis P_ready : P ready.

Lemma sent_reachable (c : ContentScript.Script) :
  ContentScript.reachable c -> Forall P (ContentScript.sent c).
Proof.
  induction 1 as [ | v e c Hr IH].
  - cbn. now constructor.
  - destruct (grows_step v e c) as (extra & -> & Hextra).
    apply Forall_app. now split.
Qed.

End Grows.

Lemma startedScript_reachable : ContentScript.reachable startedScript.
Proof.
  apply ContentScript.reachable_step, ContentScript.reachable_injected.
Qed.

(** X24. What the content script can say.  Among the messages a content
    script has sent, whatever it was told and whatever the page showed,
    there is no failed-action report, and every error report is of kind
    [domParsingError] or [clickError]: the [noTargetAtIndex] report sits
    behind a bounds check that has just passed.  So every error report of
    the script is one the controller stops on. *)
Theorem script_reports (c : ContentScript.Script) (r : Report) :
  ContentScript.reachable c ->
  In r (ContentScript.sent c) ->
  (forall type, r <> actionFailed type) /\
  (forall type,
     r = error type ->
     (type = "domParsingError"%string \/ type = "clickError"%string) /\
     fatal r = true).
Proof.
  intros Hr Hin.
  assert (H : scripted r = true).
  { pose proof (sent_reachable (fun r => scripted r = true)
                  eq_refl eq_refl eq_refl eq_refl eq_refl eq_refl eq_refl
                  eq_refl eq_refl eq_refl eq_refl c Hr) as Hall.
    exact (proj1 (Forall_forall _ _) Hall r Hin). }
  split.
  - intros type ->. discriminate H.
  - intros type ->. cbn [scripted] in H.
    apply orb_true_iff in H. split.
    + destruct H as [H | H]; apply String.eqb_eq in H; auto.
    + cbn [fatal]. unfold criticalError.
      destruct H as [H | H]; rewrite H; cbn; [ reflexivity | ].
      now rewrite orb_true_r.
Qed.

Lemma script_reports_witness :
  (forall type, error "domParsingError" <> actionFailed type) /\
  (forall type,
     error "domParsingError" = error type ->
     (type = "domParsingError"%string \/ type = "clickError"%string) /\
     fatal (error "domParsingError") = true).
Proof.
  apply (script_reports startedScript (error "domParsingError")
           startedScript_reachable).
  cbn. auto.
Defined.

(** *** The targets have distinct usernames *)

Lemma scanItem_targetsFound
    (acc : ContentScript.Script * list ContentScript.Target)
    (it : ContentScript.ListItem) :
  ContentScript.targetsFound (fst (ContentScript.scanItem acc it))
  = ContentScript.targetsFound (fst acc).
Proof.
  destruct acc as [c newTargets]. unfold ContentScript.scanItem.
  destruct (ContentScript.readThrows it); [ reflexivity | ].
  destruct (ContentScript.usernameRead it) as [u | ]; [ | reflexivity ].
  destruct (ContentScript.has u _); [ reflexivity | ].
  destruct (ContentScript.actionButton it) as [[b text] | ];
    [ | reflexivity ].
  destruct (ContentScript.shouldTarget _ _);
    [ destruct (negb _) | ]; reflexivity.
Qed.

Lemma scan_targetsFound (l : list ContentScript.ListItem)
    (acc : ContentScript.Script * list ContentScript.Target) :
  ContentScript.targetsFound (fst (fold_left ContentScript.scanItem l acc))
  = ContentScript.targetsFound (fst acc).
Proof.
  revert acc. induction l as [ | it l IH]; intros acc; cbn [fold_left].
  - reflexivity.
  - rewrite IH. apply scanItem_targetsFound.
Qed.

Lemma pushNew_distinct (found : list ContentScript.Target)
    (nT : ContentScript.Target) :
  NoDup (map ContentScript.username found) ->
  NoDup (map ContentScript.username (ContentScript.pushNew found nT)).
Proof.
  intros H. unfold ContentScript.pushNew.
  destruct (existsb _ found) eqn:E; [ exact H | ].
  rewrite map_app. cbn [map].
  apply NoDup_app.
  - exact H.
  - constructor; [ intros [] | constructor ].
  - intros u Hu [<- | []].
    apply in_map_iff in Hu. destruct Hu as (e & He & Hin).
    assert (Ht : existsb
                   (fun e => String.eqb (ContentScript.username e)
                               (ContentScript.username nT)) found = true).
    { apply existsb_exists. exists e. split; [ exact Hin | ].
      rewrite He. apply String.eqb_refl. }
    congruence.
Qed.

Lemma pushed_distinct (newTargets found : list ContentScript.Target) :
  NoDup (map ContentScript.username found) ->
  NoDup (map ContentScript.username
           (fold_left ContentScript.pushNew newTargets found)).
Proof.
  revert found. induction newTargets as [ | nT l IH]; intros found H;
    cbn [fold_left]; [ exact H | ].
  apply IH. now apply pushNew_distinct.
Qed.

Lemma distinct_same (c c' : ContentScript.Script) :
  ContentScript.targetsFound c' = ContentScript.targetsFound c ->
  distinct c -> distinct c'.
Proof.
  unfold distinct. now intros ->.
Qed.

Lemma distinct_none (c : ContentScript.Script) :
  ContentScript.targetsFound c = [] -> distinct c.
Proof.
  unfold distinct. intros ->. constructor.
Qed.

Lemma distinct_findAllTargets (l : list ContentScript.ListItem)
    (c : ContentScript.Script) :
  distinct c -> distinct (ContentScript.findAllTargets l c).
Proof.
  intros H. unfold ContentScript.findAllTargets.
  destruct (negb _); [ exact H | ].
  pose proof (scan_targetsFound l (c, [])) as Hs.
  destruct (fold_left ContentScript.scanItem l (c, [])) as [c' newTargets].
  cbn [fst] in Hs. unfold distinct. cbn [ContentScript.set_targetsFound
                                           ContentScript.targetsFound].
  apply pushed_distinct. rewrite Hs. exact H.
Qed.

Lemma attempt_targetsFound (page : ContentScript.Page)
    (target : ContentScript.Target) (c : ContentScript.Script) :
  ContentScript.targetsFound (fst (ContentScript.attempt page target c))
  = ContentScript.targetsFound c \/
  ContentScript.targetsFound (fst (ContentScript.attempt page target c)) = [].
Proof.
  unfold ContentScript.attempt. cbv zeta.
  destruct (negb (ContentScript.isCorrectButton _ _)); [ now left | ].
  destruct (ContentScript.has _ _); [ now left | ].
  destruct (ContentScript.clickThrows page); [ now left | ].
  destruct (_ && _ && _); [ now left | ].
  destruct (ContentScript.actionBlockedShown page); [ now right | ].
  left. cbn [fst]. script_simpl. destruct (_ && _); reflexivity.
Qed.

Lemma distinct_performNextAction (pages : list ContentScript.Page)
    (c : ContentScript.Script) :
  distinct c -> distinct (ContentScript.performNextAction pages c).
Proof.
  revert c. induction pages as [ | page later IH]; intros c H;
    cbn [ContentScript.performNextAction]; [ exact H | ].
  destruct (_ || _); [ exact H | ].
  assert (Hact : forall c' : ContentScript.Script,
             distinct c' ->
             distinct
               match
                 nth_error (ContentScript.targetsFound c')
                   (ContentScript.targetIndex c')
               with
               | Some target =>
                   let (c0, again) := ContentScript.attempt page target c' in
                   if again then ContentScript.performNextAction later c0
                   else c0
               | None =>
                   ContentScript.stopAutomation
                     (ContentScript.reportStatus (error "noTargetAtIndex") c')
               end).
  { intros c' Hc'.
    destruct (nth_error _ _) as [target | ]; [ | now apply distinct_none ].
    pose proof (attempt_targetsFound page target c') as Ha.
    destruct (ContentScript.attempt page target c') as [c0 again].
    cbn [fst] in Ha.
    assert (H0 : distinct c0).
    { destruct Ha as [Ha | Ha];
        [ now apply (distinct_same c') | now apply distinct_none ]. }
    destruct again; [ now apply IH | exact H0 ]. }
  cbv zeta.
  destruct (List.length (ContentScript.targetsFound c)
            <=? ContentScript.targetIndex c)%nat.
  - pose proof (distinct_findAllTargets (ContentScript.afterScroll page) c H)
      as Hf.
    set (c1 := ContentScript.findAllTargets (ContentScript.afterScroll page)
                 c) in *.
    destruct (List.length (ContentScript.targetsFound c1)
              <=? ContentScript.targetIndex c1)%nat;
      [ now apply distinct_none | now apply Hact ].
  - now apply Hact.
Qed.

(** X25. The targets the script collects never repeat a user: in every
    state of the script, whatever the page showed at each scan, the
    usernames of [targetsFound] are pairwise distinct. *)
Theorem targets_distinct (c : ContentScript.Script) :
  ContentScript.reachable c ->
  NoDup (map ContentScript.username (ContentScript.targetsFound c)).
Proof.
  induction 1 as [ | v e c Hr IH]; [ constructor | ].
  change (distinct (ContentScript.step v e c)).
  change (distinct c) in IH.
  destruct e as [[[ | type | | ] | | ] | | ]; cbn [ContentScript.step].
  - exact IH.
  - cbn [ContentScript.onMessage]. unfold ContentScript.startAutomation.
    destruct (ContentScript.isAutomationRunning c); [ exact IH | ].
    cbv zeta.
    match goal with
    | |- distinct (ContentScript.reportStatus _
                     (ContentScript.findAllTargets _ ?x)) =>
        assert (Hx : distinct x)
    end.
    { destruct (ContentScript.containerFound v).
      - now apply distinct_none.
      - apply distinct_findAllTargets. now apply distinct_none. }
    apply (distinct_same _ _ eq_refl). now apply distinct_findAllTargets.
  - now apply distinct_none.
  - cbn [ContentScript.onMessage].
    destruct (ContentScript.isAutomationRunning c);
      [ now apply distinct_performNextAction | exact IH ].
  - cbn [ContentScript.onMessage].
    apply (distinct_same _ _ eq_refl). now apply distinct_findAllTargets.
  - exact IH.
  - unfold ContentScript.onMutation.
    destruct (ContentScript.observer c); [ | exact IH ].
    destruct (ContentScript.isAutomationRunning c);
      [ now apply distinct_findAllTargets | exact IH ].
  - now apply distinct_none.
Qed.

Lemma targets_distinct_witness :
  NoDup (map ContentScript.username (ContentScript.targetsFound startedScript)).
Proof.
  exact (targets_distinct startedScript startedScript_reachable).
Defined.

(** *** A skipped list item and the pacing of the run *)

Lemma has_add_other (u u' : string) (set : list string) :
  u <> u' ->
  ContentScript.has u (ContentScript.add u' set) = ContentScript.has u set.
Proof.
  intros Hne. unfold ContentScript.add.
  destruct (ContentScript.has u' set); [ reflexivity | ].
  unfold ContentScript.has. rewrite existsb_app. cbn [existsb].
  apply String.eqb_neq in Hne. rewrite Hne. now rewrite !orb_false_r.
Qed.

Lemma scanItem_unprocessed (u : string)
    (acc : ContentScript.Script * list ContentScript.Target)
    (it : ContentScript.ListItem) :
  ContentScript.usernameRead it <> Some u ->
  ContentScript.has u
    (ContentScript.processedUsernames (fst (ContentScript.scanItem acc it)))
  = ContentScript.has u (ContentScript.processedUsernames (fst acc)).
Proof.
  intros Hne. destruct acc as [c newTargets]. unfold ContentScript.scanItem.
  destruct (ContentScript.readThrows it); [ reflexivity | ].
  destruct (ContentScript.usernameRead it) as [u' | ]; [ | reflexivity ].
  assert (Hu : u <> u') by congruence.
  destruct (ContentScript.has u' _); [ reflexivity | ].
  destruct (ContentScript.actionButton it) as [[b text] | ].
  - destruct (ContentScript.shouldTarget _ _);
      [ destruct (negb _); reflexivity | ].
    cbn [fst]. script_simpl. now apply has_add_other.
  - cbn [fst]. script_simpl. now apply has_add_other.
Qed.

Lemma scan_unprocessed (u : string) (l : list ContentScript.ListItem)
    (acc : ContentScript.Script * list ContentScript.Target) :
  (forall x, In x l -> ContentScript.usernameRead x <> Some u) ->
  ContentScript.has u
    (ContentScript.processedUsernames
       (fst (fold_left ContentScript.scanItem l acc)))
  = ContentScript.has u (ContentScript.processedUsernames (fst acc)).
Proof.
  revert acc. induction l as [ | it l IH]; intros acc H; cbn [fold_left].
  - reflexivity.
  - rewrite IH by (intros x Hx; apply H; now right).
    apply scanItem_unprocessed, H. now left.
Qed.

(** A scan that meets, not yet processed, a user whose item has no button
    reports the user as skipped. *)
Lemma findAllTargets_skips (pre post : list ContentScript.ListItem)
    (it : ContentScript.ListItem) (u : string) (c : ContentScript.Script) :
  ContentScript.isAutomationRunning c = true ->
  (forall x, In x pre -> ContentScript.usernameRead x <> Some u) ->
  ContentScript.readThrows it = false ->
  ContentScript.usernameRead it = Some u ->
  ContentScript.actionButton it = None ->
  ContentScript.has u (ContentScript.processedUsernames c) = false ->
  In userSkipped
    (ContentScript.sentSince c
       (ContentScript.findAllTargets (pre ++ it :: post) c)).
Proof.
  intros Hrun Hpre Hthrow Hname Hbutton Hnew.
  unfold ContentScript.findAllTargets. rewrite Hrun. cbn [negb].
  rewrite fold_left_app. cbn [fold_left].
  pose proof (scan_unprocessed u pre (c, []) Hpre) as Hu.
  destruct (grows_scan (fun _ => True) I I pre (c, [])) as (e1 & He1 & _).
  destruct (fold_left ContentScript.scanItem pre (c, [])) as [c1 nt1].
  cbn [fst] in Hu, He1. rewrite Hnew in Hu.
  assert (H2 : ContentScript.scanItem (c1, nt1) it
               = (ContentScript.reportStatus userSkipped
                    (ContentScript.set_processedUsernames
                       (ContentScript.add u
                          (ContentScript.processedUsernames c1)) c1), nt1)).
  { unfold ContentScript.scanItem. now rewrite Hthrow, Hname, Hu, Hbutton. }
  rewrite H2.
  match goal with
  | |- context [fold_left ContentScript.scanItem post ?a] =>
      destruct (grows_scan (fun _ => True) I I post a) as (e3 & He3 & _);
      destruct (fold_left ContentScript.scanItem post a) as [c3 nt3]
  end.
  cbn [fst] in He3. script_simpl.
  unfold ContentScript.sentSince. script_simpl.
  rewrite He3, He1, <- !app_assoc, skipn_own_length.
  apply in_or_app. right. now left.
Qed.

(** X26. A list item that shows up between two actions cuts the wait short.
    While the script runs with its observer connected, a change of the list
    that brings a user not yet processed whose item has no button makes the
    script report [userSkipped]; the controller, handling that report
    during its run, replaces the pending action alarm by one 100 ms ahead
    and counts nothing: the interval of the settings is not waited for,
    although no action was attempted. *)
Theorem list_change_cuts_delay (v : ContentScript.View)
    (pre post : list ContentScript.ListItem) (it : ContentScript.ListItem)
    (u : string) (c : ContentScript.Script) (env : Env) (t : Z) (s : State) :
  ContentScript.isAutomationRunning c = true ->
  ContentScript.observer c = true ->
  ContentScript.listItems v = pre ++ it :: post ->
  (forall x, In x pre -> ContentScript.usernameRead x <> Some u) ->
  ContentScript.readThrows it = false ->
  ContentScript.usernameRead it = Some u ->
  ContentScript.actionButton it = None ->
  ContentScript.has u (ContentScript.processedUsernames c) = false ->
  isActive s = true ->
  currentTabId s = Some t ->
  let s' := step env (Message (Some t) (Agent userSkipped)) s in
  In userSkipped
    (ContentScript.sentSince c
       (ContentScript.step v ContentScript.Mutation c)) /\
  JS.is_num (delayMsOf (alarm PERFORM_ACTION (alarms s'))) 100 /\
  isActive s' = true /\
  sessionProcessedCount s' = sessionProcessedCount s /\
  processedToday s' = processedToday s.
Proof.
  intros Hrun Hobs Hl Hpre Hthrow Hname Hbutton Hnew Hact Htab. cbv zeta.
  split.
  - cbn [ContentScript.step]. unfold ContentScript.onMutation.
    rewrite Hobs, Hrun, Hl. now apply (findAllTargets_skips pre post it u).
  - unfold step, onMessage. rewrite Htab. cbn [sameTab].
    rewrite Z.eqb_refl. cbn [negb fst reportOf onReport].
    unfold scheduleNextAction. rewrite Hact. cbn. repeat split; auto.
Qed.

Lemma list_change_cuts_delay_witness :
  In userSkipped
    (ContentScript.sentSince startedScript
       (ContentScript.step
          (ContentScript.mkView true
             (sampleItems
              ++ [ContentScript.mkListItem 5 false (Some "cleo"%string) None])
             [])
          ContentScript.Mutation startedScript)) /\
  JS.is_num
    (delayMsOf
       (alarm PERFORM_ACTION
          (alarms
             (step (envAt 2000 (1 # 2)) (Message (Some 7) (Agent userSkipped))
                (runningOn7 DEFAULT_SETTINGS 1 1))))) 100.
Proof.
  destruct (list_change_cuts_delay
              (ContentScript.mkView true
                 (sampleItems
                  ++ [ContentScript.mkListItem 5 false (Some "cleo"%string)
                        None])
                 [])
              sampleItems []
              (ContentScript.mkListItem 5 false (Some "cleo"%string) None)
              "cleo"%string startedScript (envAt 2000 (1 # 2)) 7
              (runningOn7 DEFAULT_SETTINGS 1 1))
    as (H1 & H2 & _); try reflexivity.
  - intros x Hx. cbn in Hx.
    destruct Hx as [<- | [<- | [<- | [<- | []]]]]; cbn; discriminate.
  - split; assumption.
Defined.

(** *** One outcome for each command *)

Lemma outcomes_app (a b : list Report) :
  List.length (filter outcome (a ++ b))
  = (List.length (filter outcome a) + List.length (filter outcome b))%nat.
Proof.
  now rewrite filter_app, length_app.
Qed.

Lemma no_outcome (extra : list Report) :
  Forall (fun r => outcome r = false) extra -> filter outcome extra = [].
Proof.
  induction 1 as [ | r l Hr Hl IH]; cbn [filter]; [ reflexivity | ].
  now rewrite Hr.
Qed.

(** What [attempt] sends: at most one outcome, and none when it goes on to
    the next target. *)
Lemma attempt_outcomes (page : ContentScript.Page)
    (target : ContentScript.Target) (c : ContentScript.Script) :
  exists extra,
    ContentScript.sent (fst (ContentScript.attempt page target c))
    = ContentScript.sent c ++ extra /\
    (List.length (filter outcome extra) <= 1)%nat /\
    (snd (ContentScript.attempt page target c) = true ->
     filter outcome extra = []).
Proof.
  unfold ContentScript.attempt. cbv zeta.
  destruct (negb (ContentScript.isCorrectButton _ _)).
  { exists [userSkipped]. cbn. auto. }
  destruct (ContentScript.has _ _).
  { exists []. cbn. rewrite app_nil_r. auto. }
  destruct (ContentScript.clickThrows page).
  { exists [error "clickError"]. cbn. repeat split; auto. discriminate. }
  destruct (_ && _ && _).
  { exists [error "clickError"]. cbn. repeat split; auto. discriminate. }
  destruct (_ && negb _);
    destruct (ContentScript.actionBlockedShown page);
    cbn [fst snd]; script_simpl; rewrite <- ?app_assoc;
    eexists; (split; [ reflexivity | ]); cbn; split; auto; discriminate.
Qed.

Lemma performNextAction_outcomes (pages : list ContentScript.Page)
    (c : ContentScript.Script) :
  exists extra,
    ContentScript.sent (ContentScript.performNextAction pages c)
    = ContentScript.sent c ++ extra /\
    (List.length (filter outcome extra) <= 1)%nat.
Proof.
  revert c. induction pages as [ | page later IH]; intros c;
    cbn [ContentScript.performNextAction].
  { exists []. rewrite app_nil_r. cbn. auto. }
  destruct (_ || _).
  { exists [report_other]. cbn. auto. }
  assert (Hact : forall (c' : ContentScript.Script) (e : list Report),
             ContentScript.sent c' = ContentScript.sent c ++ e ->
             filter outcome e = [] ->
             (List.length (ContentScript.targetsFound c')
              <=? ContentScript.targetIndex c')%nat = false ->
             exists extra,
               ContentScript.sent
                 match
                   nth_error (ContentScript.targetsFound c')
                     (ContentScript.targetIndex c')
                 with
                 | Some target =>
                     let (c0, again) :=
                       ContentScript.attempt page target c' in
                     if again then ContentScript.performNextAction later c0
                     else c0
                 | None =>
                     ContentScript.stopAutomation
                       (ContentScript.reportStatus (error "noTargetAtIndex")
                          c')
                 end
               = ContentScript.sent c ++ extra /\
               (List.length (filter outcome extra) <= 1)%nat).
  { intros c' e He Hnone Hlen.
    destruct (nth_error _ _) as [target | ] eqn:Hnth.
    - destruct (attempt_outcomes page target c') as (x & Hx & H1 & Hagain).
      destruct (ContentScript.attempt page target c') as [c0 again].
      cbn [fst snd] in Hx, Hagain. destruct again.
      + destruct (IH c0) as (y & Hy & Hy1).
        exists (e ++ x ++ y). split.
        * rewrite Hy, Hx, He, <- !app_assoc. reflexivity.
        * rewrite !outcomes_app, Hnone, (Hagain eq_refl). cbn. exact Hy1.
      + exists (e ++ x). split.
        * rewrite Hx, He, <- !app_assoc. reflexivity.
        * rewrite outcomes_app, Hnone. exact H1.
    - apply nth_error_None in Hnth. apply Nat.leb_gt in Hlen. lia. }
  cbv zeta.
  destruct (List.length (ContentScript.targetsFound c)
            <=? ContentScript.targetIndex c)%nat eqn:Hlen.
  - destruct (grows_findAllTargets (fun r => outcome r = false)
                eq_refl eq_refl (ContentScript.afterScroll page) c)
      as (e & He & Pe).
    apply no_outcome in Pe.
    set (c1 := ContentScript.findAllTargets (ContentScript.afterScroll page)
                 c) in *.
    destruct (List.length (ContentScript.targetsFound c1)
              <=? ContentScript.targetIndex c1)%nat eqn:Hlen'.
    + exists (e ++ [completed; stopped]). script_simpl. split.
      * rewrite He, <- !app_assoc. reflexivity.
      * rewrite outcomes_app, Pe. cbn. lia.
    + now apply (Hact c1 e).
  - apply (Hact c []); [ now rewrite app_nil_r | reflexivity | exact Hlen ].
Qed.

(** X27. One command, at most one outcome.  Whatever the page shows while
    the script handles a [performAction] command, and however many targets
    it skips on the way, it sends at most one message that closes the
    attempt: a completed action, a blocked action, the end of the list or a
    click error. *)
Theorem one_outcome_per_command (v : ContentScript.View)
    (c : ContentScript.Script) :
  (List.length
     (filter outcome
        (ContentScript.sentSince c
           (ContentScript.step v
              (ContentScript.Received
                 (ContentScript.fromController tab_performAction)) c)))
   <= 1)%nat.
Proof.
  cbn [ContentScript.step ContentScript.onMessage].
  unfold ContentScript.sentSince.
  destruct (ContentScript.isAutomationRunning c).
  - destruct (performNextAction_outcomes (ContentScript.pages v) c)
      as (extra & -> & H).
    now rewrite skipn_own_length.
  - rewrite skipn_all_own. cbn. lia.
Qed.

(** ** The tab and the run *)

(** X28. What a tab update does to a run.  While the controller is active
    on tab [t]: an update of another tab changes nothing; an update of [t]
    that carries no URL, or one that contains [instagram.com], changes
    nothing either; an update of [t] to any other URL stops the run, the
    tab being told to stop before it is dropped. *)
Theorem tab_update_outcome (env : Env) (t other : Z) (url : option string)
    (s : State) :
  isActive s = true ->
  currentTabId s = Some t ->
  (other <> t -> step env (TabUpdated other url) s = s) /\
  match url with
  | None => step env (TabUpdated t url) s = s
  | Some u =>
      if includes u "instagram.com" || String.eqb u ""
      then step env (TabUpdated t url) s = s
      else
        Idle (step env (TabUpdated t url) s) /\
        currentTabId (step env (TabUpdated t url) s) = None /\
        alarm PERFORM_ACTION (alarms (step env (TabUpdated t url) s)) = None /\
        sentTo s (step env (TabUpdated t url) s) = [(t, tab_stopAutomation)]
  end.
Proof.
  intros Ha Htab. unfold step, onUpdated, sameTab. rewrite Ha, Htab.
  cbn [andb]. split.
  - intros Hne. apply Z.eqb_neq in Hne. now rewrite Hne.
  - rewrite Z.eqb_refl. destruct url as [u | ]; [ | reflexivity ].
    destruct (includes u "instagram.com"); cbn [orb negb andb];
      [ now rewrite andb_false_r | ].
    destruct (String.eqb u ""); cbn [negb andb]; [ reflexivity | ].
    destruct (stopAutomation_alarms s (or_introl Ha)) as (Hp & _).
    repeat split; try apply stopAutomation_stops; auto.
    + unfold stopAutomation. rewrite Ha. state_simpl. now rewrite Htab.
    + unfold sentTo, stopAutomation. rewrite Ha. state_simpl. rewrite Htab.
      prim_simpl. apply skipn_own_length.
Qed.

Lemma tab_update_outcome_witness :
  Idle (step (envAt 2000 (1 # 2))
          (TabUpdated 7 (Some "https://example.org/"%string))
          (runningOn7 DEFAULT_SETTINGS 1 1)) /\
  step (envAt 2000 (1 # 2))
    (TabUpdated 7 (Some "https://www.instagram.com/explore/"%string))
    (runningOn7 DEFAULT_SETTINGS 1 1)
  = runningOn7 DEFAULT_SETTINGS 1 1.
Proof.
  split.
  - exact (proj1 (proj2 (tab_update_outcome (envAt 2000 (1 # 2)) 7 7
                           (Some "https://example.org/"%string)
                           (runningOn7 DEFAULT_SETTINGS 1 1)
                           eq_refl eq_refl))).
  - exact (proj2 (tab_update_outcome (envAt 2000 (1 # 2)) 7 7
                    (Some "https://www.instagram.com/explore/"%string)
                    (runningOn7 DEFAULT_SETTINGS 1 1) eq_refl eq_refl)).
Defined.

(** ** Callbacks that overlap *)

(** The two halves of [startAutomation] make the whole: run one after the
    other with nothing in between, they are the function. *)
Lemma startAutomation_split (env : Env) (type : option ActionType)
    (s : State) :
  startAutomation env type s
  = (let (s', waiting) := startAutomation_begin env type s in
     if waiting then startAutomation_resume env s' else s').
Proof.
  unfold startAutomation, startAutomation_begin, startAutomation_resume,
    injectionResult.
  destruct (isActive s); [ reflexivity | ]. cbv zeta.
  destruct (reached _ _); [ reflexivity | ].
  destruct (falsyTabId _) eqn:Hf; [ reflexivity | ].
  prim_simpl. destruct (findInstagramTab env) as [t | ];
    [ | discriminate Hf ].
  unfold injectContentScript. destruct (injection env); reflexivity.
Qed.

Lemma lateReport_overlapping : overlapping lateReport.
Proof.
  unfold lateReport.
  repeat first [ apply overlapping_advance | apply overlapping_booted ].
Qed.


(** *** The settings once the start-up load has resolved *)

Lemma complete_startAutomation_begin (env : Env) (type : option ActionType)
    (s : State) :
  complete (settings s) ->
  complete (settings (fst (startAutomation_begin env type s))).
Proof.
  intros H. unfold startAutomation_begin.
  destruct (isActive s); [ exact H | ].
  pose proof (loadSettingsAndState_complete env s) as Hl.
  set (l := loadSettingsAndState env s) in *. cbv zeta.
  destruct (reached _ _); [ exact Hl | ].
  destruct (falsyTabId _); [ exact Hl | ].
  unfold injectContentScript. prim_simpl.
  destruct (findInstagramTab env) as [t | ]; [ | exact Hl ].
  destruct (injection env); exact Hl.
Qed.

Lemma complete_startAutomation_resume (env : Env) (s : State) :
  complete (settings s) ->
  complete (settings (startAutomation_resume env s)).
Proof.
  intros H. unfold startAutomation_resume.
  destruct (injectionResult env) as [[ | ] | ]; [ | exact H | exact H ].
  cbv zeta. prim_simpl.
  destruct (currentTabId s); destruct (tabAnswers env);
    autorewrite with settings; exact H.
Qed.

(** X2. Once the start-up load has resolved, every numeric property of the
    settings is there, also when callbacks overlap: in every state of
    [overlapping] whose load is no longer out, the settings in memory are
    complete.  Before that the settings are the empty object the script
    starts with. *)
Theorem settings_complete_once_loaded (w : Worker) :
  overlapping w -> loading w = false -> complete (settings (controller w)).
Proof.
  induction 1 as [stored pending | env g w Hw IH]; [ discriminate | ].
  destruct g as [e | | type | ]; cbn [advance].
  - destruct e; cbn [loading controller]; intros Hl;
      try (apply complete_step; now apply IH).
    unfold workerStart, scheduleDailyReset. prim_simpl.
    apply loadSettingsAndState_complete.
  - destruct (loading w) eqn:Hl; cbn [loading controller]; intros _.
    + apply loadSettingsAndState_complete.
    + now apply IH.
  - pose proof (complete_startAutomation_begin env type (controller w)) as Hb.
    destruct (startAutomation_begin env type (controller w)) as [s waiting].
    cbn [loading controller fst] in *. intros Hl. now apply Hb, IH.
  - destruct (starting w) as [ | n]; [ exact IH | ].
    cbn [loading controller]. intros Hl.
    now apply complete_startAutomation_resume, IH.
Qed.

Lemma settings_complete_once_loaded_witness :
  complete (settings (controller lateReport)).
Proof.
  apply (settings_complete_once_loaded lateReport lateReport_overlapping).
  reflexivity.
Defined.

(** Before the load resolves the settings are [{}]: a [getSettings]
    command handled then is answered with the empty object. *)
Lemma booted_settings (env : Env) (browser : State) :
  snd (onMessage env None (Popup cmd_getSettings)
         (controller (booted browser)))
  = Some (settingsResponse emptySettings).
Proof. reflexivity. Qed.
